(** * The high-availability manager of the server (zabbix_server/ha)

    A shallow embedding of the node registry logic of [ha.h]: the manager's
    in-memory record, the error latch, the admission checks, the per-tick
    node check, the administrative requests and the parent-side receiver of
    status notifications, together with the properties the specification
    states about them.

    Conventions of the embedding.
    - A C [int] is a [Z]; the operations that can leave the 32-bit range are
      written with [int_wrap].  [time_t] values are unbounded [Z]; where
      the code reads one into an [int] the conversion is written out
      ([atoi]).
    - C strings are [string]; a [zbx_cuid_t] is the string held in its
      buffer, and the bytes of the buffer behind the terminator, which no
      function writes, are accounted for where the code reads them
      ([zbx_cuid_compare]).
    - [SUCCEED]/[FAIL] results are the two constructors of [zbx_ret_t].
    - The database driver, the audit library, and the IPC transport are not
      part of the sources.  The driver is a state ([world]) holding the
      [ha_node] table, the configuration row, the database clock, the
      outcome of each coming driver call and the trace of the calls made. *)

From Stdlib Require Import ZArith List String Ascii Lia Bool.
From Stdlib Require Import Permutation Sorted DecimalString.
Import ListNotations.

Open Scope string_scope.
Open Scope Z_scope.

(** ** Machine integers *)

Definition INT_MIN : Z := -2147483648.
Definition INT_MAX : Z := 2147483647.

(** Two's complement reduction of an integer to the range of [int]. *)
Definition int_wrap (z : Z) : Z := (z + 2147483648) mod 4294967296 - 2147483648.

Definition is_int (z : Z) : Prop := INT_MIN <= z <= INT_MAX.

Definition int_add (a b : Z) : Z := int_wrap (a + b).
Definition int_sub (a b : Z) : Z := int_wrap (a - b).
(** C division truncates towards zero. *)
Definition int_div (a b : Z) : Z := int_wrap (Z.quot a b).

Definition LONG_MIN : Z := -9223372036854775808.
Definition LONG_MAX : Z := 9223372036854775807.

(** [atoi] applied to the decimal text of [z], as the C library computes it:
    the text is read as a [long], which saturates, and the [long] is
    converted to [int]. *)
Definition atoi (z : Z) : Z := int_wrap (Z.max LONG_MIN (Z.min LONG_MAX z)).

(** ** Constants of ha.h and ha.c *)

Definition ZBX_NODE_STATUS_UNINITIALIZED : Z := -3.
Definition ZBX_NODE_STATUS_ERROR : Z := -2.
Definition ZBX_NODE_STATUS_UNKNOWN : Z := -1.
Definition ZBX_NODE_STATUS_STANDBY : Z := 0.
Definition ZBX_NODE_STATUS_STOPPED : Z := 1.
Definition ZBX_NODE_STATUS_UNAVAILABLE : Z := 2.
Definition ZBX_NODE_STATUS_ACTIVE : Z := 3.

Definition ZBX_HA_POLL_PERIOD : Z := 5.

(** Modelled from the spec: SEC_PER_MIN comes from common.h, which is not
    among the sources; the specification gives the default failover delay
    as 60 seconds. *)
Definition SEC_PER_MIN : Z := 60.
Definition ZBX_HA_DEFAULT_FAILOVER_DELAY : Z := SEC_PER_MIN.

(** Modelled from the spec: CUID_LEN is declared outside the sources; node
    and session identifiers have 25 characters, and the buffer holds the
    terminating zero as well. *)
Definition CUID_LEN : nat := 26.

Inductive zbx_ret_t : Type := SUCCEED | FAIL.

(** Modelled from the spec: the result codes of the database driver, whose
    header is not among the sources.  The registry store tells apart ok,
    offline (retry later) and fail (fatal); the code only compares the codes
    with [ZBX_DB_OK], so they are kept as a three-valued type:
    [ZBX_DB_OK <= s] is [db_ok s], and the two failures are below
    [ZBX_DB_OK]. *)
Inductive zbx_db_status : Type := ZBX_DB_OK | ZBX_DB_FAIL | ZBX_DB_DOWN.

Definition db_ok (s : zbx_db_status) : bool :=
  match s with ZBX_DB_OK => true | _ => false end.

(** ** Strings *)

(** The double quote character, as a string. *)
Definition DQUOTE : string := String (ascii_of_nat 34) EmptyString.

(** The first [n] characters of [s]. *)
Fixpoint str_take (n : nat) (s : string) : string :=
  match n, s with
  | O, _ => EmptyString
  | S _, EmptyString => EmptyString
  | S n', String c s' => String c (str_take n' s')
  end.

(** Modelled from the spec: zbx_strlcpy and zbx_snprintf belong to the common
    library, which is not among the sources; both write into a buffer of
    [size] bytes and keep at most [size - 1] characters.
    [zbx_strlcpy(dst, src, size)]: *)
Definition zbx_strlcpy (src : string) (size : nat) : string :=
  str_take (Nat.pred size) src.

(** Modelled from the spec: [zbx_snprintf(buf, size, ...)] keeps at most
    [size - 1] characters of the formatted text (see [zbx_strlcpy]). *)
Definition zbx_snprintf (size : nat) (formatted : string) : string :=
  str_take (Nat.pred size) formatted.

(** Decimal text of an [unsigned short] (the %hu conversion). *)
Definition fmt_hu (p : Z) : string := NilZero.string_of_uint (N.to_uint (Z.to_N p)).

(** The test ['\0' == *s]. *)
Definition str_empty (s : string) : bool :=
  match s with EmptyString => true | _ => false end.

Definition zbx_cuid_empty (a : string) : bool := str_empty a.

(** [zbx_cuid_compare] is memcmp over all [CUID_LEN] bytes of the two
    buffers.  A buffer holds the identifier, its terminator and, behind it,
    bytes that zbx_strlcpy does not write: in a node read from the database
    they are what zbx_malloc returned.  Two different identifiers differ at
    or before the first terminator; two equal identifiers of 25 characters
    fill both buffers; for two equal shorter identifiers the result is what
    memcmp finds in the unwritten bytes, [unwritten_equal], about which
    nothing is known. *)
Definition zbx_cuid_compare (unwritten_equal : string -> string -> bool) (a b : string)
    : bool :=
  String.eqb a b && ((Nat.pred CUID_LEN <=? String.length a)%nat || unwritten_equal a b).

Definition zbx_ha_status_str (ha_status : Z) : string :=
  if ha_status =? ZBX_NODE_STATUS_STANDBY then "standby"
  else if ha_status =? ZBX_NODE_STATUS_STOPPED then "stopped"
  else if ha_status =? ZBX_NODE_STATUS_UNAVAILABLE then "unavailable"
  else if ha_status =? ZBX_NODE_STATUS_ACTIVE then "active"
  else if ha_status =? ZBX_NODE_STATUS_ERROR then "error"
  else "unknown".

(** ** The manager's record and the node record *)

Record zbx_ha_info_t : Type := mk_info {
  ha_nodeid : string;
  ha_status : Z;
  db_status : zbx_db_status;
  failover_delay : Z;
  lastaccess_active : Z;
  offline_ticks_active : Z;
  auditlog : Z;
  name : string;
  error : option string
}.

Definition set_ha_nodeid (v : string) (i : zbx_ha_info_t) : zbx_ha_info_t :=
  mk_info v (ha_status i) (db_status i) (failover_delay i) (lastaccess_active i)
          (offline_ticks_active i) (auditlog i) (name i) (error i).
Definition set_ha_status (v : Z) (i : zbx_ha_info_t) : zbx_ha_info_t :=
  mk_info (ha_nodeid i) v (db_status i) (failover_delay i) (lastaccess_active i)
          (offline_ticks_active i) (auditlog i) (name i) (error i).
Definition set_db_status (v : zbx_db_status) (i : zbx_ha_info_t) : zbx_ha_info_t :=
  mk_info (ha_nodeid i) (ha_status i) v (failover_delay i) (lastaccess_active i)
          (offline_ticks_active i) (auditlog i) (name i) (error i).
Definition set_failover_delay (v : Z) (i : zbx_ha_info_t) : zbx_ha_info_t :=
  mk_info (ha_nodeid i) (ha_status i) (db_status i) v (lastaccess_active i)
          (offline_ticks_active i) (auditlog i) (name i) (error i).
Definition set_lastaccess_active (v : Z) (i : zbx_ha_info_t) : zbx_ha_info_t :=
  mk_info (ha_nodeid i) (ha_status i) (db_status i) (failover_delay i) v
          (offline_ticks_active i) (auditlog i) (name i) (error i).
Definition set_offline_ticks_active (v : Z) (i : zbx_ha_info_t) : zbx_ha_info_t :=
  mk_info (ha_nodeid i) (ha_status i) (db_status i) (failover_delay i)
          (lastaccess_active i) v (auditlog i) (name i) (error i).
Definition set_auditlog (v : Z) (i : zbx_ha_info_t) : zbx_ha_info_t :=
  mk_info (ha_nodeid i) (ha_status i) (db_status i) (failover_delay i)
          (lastaccess_active i) (offline_ticks_active i) v (name i) (error i).
Definition set_error (v : option string) (i : zbx_ha_info_t) : zbx_ha_info_t :=
  mk_info (ha_nodeid i) (ha_status i) (db_status i) (failover_delay i)
          (lastaccess_active i) (offline_ticks_active i) (auditlog i) (name i) v.

Record zbx_ha_node_t : Type := mk_node {
  node_ha_nodeid : string;
  node_ha_sessionid : string;
  node_name : string;
  node_address : string;
  node_port : Z;
  node_status : Z;
  node_lastaccess : Z
}.

(** ** The error latch *)

(** [ha_set_error(info, fmt, ...)]; [msg] is the formatted text. *)
Definition ha_set_error (info : zbx_ha_info_t) (msg : string) : zbx_ha_info_t :=
  (* don't override errors *)
  if ha_status info =? ZBX_NODE_STATUS_ERROR then info
  else set_ha_status ZBX_NODE_STATUS_ERROR (set_error (Some msg) info).

(** ** The lease rules *)

Definition ha_is_available (info : zbx_ha_info_t) (lastaccess db_time : Z) : zbx_ret_t :=
  if int_add lastaccess (failover_delay info) <=? db_time then FAIL else SUCCEED.

Definition ret_eqb (a b : zbx_ret_t) : bool :=
  match a, b with
  | SUCCEED, SUCCEED => true
  | FAIL, FAIL => true
  | _, _ => false
  end.

Fixpoint ha_check_standalone_config (info : zbx_ha_info_t) (nodes : list zbx_ha_node_t)
    (db_time : Z) : zbx_ret_t * zbx_ha_info_t :=
  match nodes with
  | [] => (SUCCEED, info)
  | n :: rest =>
      if str_empty (node_name n) then ha_check_standalone_config info rest db_time
      else if negb (node_status n =? ZBX_NODE_STATUS_STOPPED)
              && ret_eqb (ha_is_available info (node_lastaccess n) db_time) SUCCEED
      then (FAIL,
            ha_set_error info
              ("cannot change mode to standalone while HA node " ++ DQUOTE ++ node_name n
               ++ DQUOTE ++ " is " ++ zbx_ha_status_str (node_status n)))
      else ha_check_standalone_config info rest db_time
  end.

(** ** The parent-side receiver of status notifications *)

(** Modelled from the spec: the IPC transport is not among the sources.  A
    message is a frame code with its payload; a status update carries the
    status, the failover delay and the error text.  The frame codes other
    than the status update and the heartbeat are not told apart by the
    receiver. *)
Inductive zbx_ipc_message_t : Type :=
| ZBX_IPC_SERVICE_HA_UPDATE (status delay : Z) (err : option string)
| ZBX_IPC_SERVICE_HA_HEARTBEAT
| ZBX_IPC_SERVICE_HA_OTHER.

(** One turn of [zbx_ipc_async_socket_recv]: the call fails, or it delivers a
    message, after which [time(NULL)] is read. *)
Inductive recv_event : Type :=
| RecvFail
| RecvMessage (m : zbx_ipc_message_t) (now : Z).

(** The function's static variables. *)
Record recv_statics : Type := mk_statics {
  last_hb : Z;
  ha_failover_delay : Z
}.

Definition recv_statics_init : recv_statics :=
  mk_statics 0 ZBX_HA_DEFAULT_FAILOVER_DELAY.

(** How the receive loop is left. *)
Inductive recv_loop_exit : Type :=
| LoopRecvFailed (st : recv_statics)
| LoopErrorStatus (st : recv_statics) (err : option string)
| LoopDrained (st : recv_statics) (ha_status : Z) (err : option string) (now : Z).

(** The [while (1)] loop.  [incoming] lists the turns that deliver something;
    when it is used up the socket returns no message and [now_end] is the
    time read then. *)
Fixpoint recv_loop (incoming : list recv_event) (now_end : Z) (st : recv_statics)
    (ha_status : Z) (err : option string) : recv_loop_exit :=
  match incoming with
  | [] => LoopDrained st ha_status err now_end
  | RecvFail :: _ => LoopRecvFailed st
  | RecvMessage m now :: rest =>
      match m with
      | ZBX_IPC_SERVICE_HA_UPDATE status delay e =>
          let st1 := mk_statics (last_hb st) delay in
          if status =? ZBX_NODE_STATUS_ERROR then LoopErrorStatus st1 e
          else
            (* reset heartbeat on status change *)
            let st2 := if negb (ha_status =? status) then mk_statics now delay else st1 in
            recv_loop rest now_end st2 status e
      | ZBX_IPC_SERVICE_HA_HEARTBEAT =>
          recv_loop rest now_end (mk_statics now (ha_failover_delay st)) ha_status err
      | ZBX_IPC_SERVICE_HA_OTHER =>
          recv_loop rest now_end st ha_status err
      end
  end.

(** [ZBX_HA_IS_CLUSTER()] over the global [CONFIG_HA_NODE_NAME]. *)
Definition ZBX_HA_IS_CLUSTER (CONFIG_HA_NODE_NAME : option string) : bool :=
  match CONFIG_HA_NODE_NAME with
  | None => false
  | Some s => negb (str_empty s)
  end.

Record recv_result : Type := mk_recv_result {
  recv_ret : zbx_ret_t;
  recv_ha_status : Z;
  recv_error : option string;
  recv_st : recv_statics
}.

Definition zbx_ha_recv_status (CONFIG_HA_NODE_NAME : option string) (st : recv_statics)
    (incoming : list recv_event) (now_end : Z) (ha_status : Z) (err : option string)
    : recv_result :=
  match recv_loop incoming now_end st ha_status err with
  | LoopRecvFailed st' =>
      mk_recv_result FAIL ZBX_NODE_STATUS_ERROR
        (Some "cannot receive message from HA manager service") st'
  | LoopErrorStatus st' e =>
      mk_recv_result FAIL ZBX_NODE_STATUS_ERROR e st'
  | LoopDrained st' status e now =>
      if ZBX_HA_IS_CLUSTER CONFIG_HA_NODE_NAME
         && (status =? ZBX_NODE_STATUS_ACTIVE)
         && negb (last_hb st' =? 0)
      then
        if (last_hb st' + ha_failover_delay st' - ZBX_HA_POLL_PERIOD <=? now)
           || (now <? last_hb st')
        then mk_recv_result SUCCEED ZBX_NODE_STATUS_STANDBY e st'
        else mk_recv_result SUCCEED status e st'
      else mk_recv_result SUCCEED status e st'
  end.

(** ** The shared database, as the driver presents it *)

(** Modelled from the spec: the database and its driver are not among the
    sources.  The tables follow the schema the specification requires:
    [ha_node(ha_nodeid, name, status, lastaccess, address, port,
    ha_sessionid)] and one row of [config].

    A row of [ha_node].  The columns the code reads with [atoi] are kept as
    the integers the driver prints; the port, which the code hands to a
    checking parser, is kept as the text of the column. *)
Record DB_ROW : Type := mk_row {
  row_ha_nodeid : string;
  row_name : string;
  row_status : Z;
  row_lastaccess : Z;
  row_address : string;
  row_port : string;
  row_ha_sessionid : string
}.

(** The row of [config]: [ha_failover_delay] is text with a time suffix. *)
Record config_row : Type := mk_config {
  cfg_ha_failover_delay : string;
  cfg_auditlog_enabled : Z
}.

(** The statements the manager executes on [ha_node]. *)
Inductive sql_stmt : Type :=
| SqlUpdateNode (set_lastaccess : bool) (set_status : option Z) (where_ids : list string)
| SqlDeleteNode (where_id : string).

Inductive audit_action : Type :=
| AUDIT_ACTION_ADD | AUDIT_ACTION_UPDATE | AUDIT_ACTION_DELETE.

Inductive audit_entry : Type :=
| AuditEntry (action : audit_action) (nodeid nodename : string)
| AuditStatusField (nodeid : string) (old_status new_status : Z).

Inductive db_call : Type :=
| CallConnect
| CallBegin
| CallCommit
| CallRollback
| CallClose
| CallSelectNodes (lock : bool)
| CallSelectLock
| CallSelectConfig
| CallSelectTime
| CallExecute (s : sql_stmt)
| CallAuditFlush (entries : list audit_entry).

(** Modelled from the spec: the state of the database and of the connection.
    A transaction works on its own copy of the table, which commit makes the
    table and rollback drops; every driver call can succeed, fail, or find
    the database offline. *)
Record world : Type := mk_world {
  (* the committed table *)
  ha_node : list DB_ROW;
  (* the table as the open transaction sees it *)
  txn : option (list DB_ROW);
  config : option config_row;
  (* the database clock *)
  clock : Z;
  (* the result of each coming driver call; [ZBX_DB_OK] when used up *)
  faults : list zbx_db_status;
  (* the driver calls made so far, oldest first *)
  trace : list (db_call * zbx_db_status);
  (* the audit library's mode and the entries not yet flushed *)
  audit_mode : Z;
  audit_pending : list audit_entry
}.

Definition set_ha_node (v : list DB_ROW) (w : world) : world :=
  mk_world v (txn w) (config w) (clock w) (faults w) (trace w) (audit_mode w) (audit_pending w).
Definition set_txn (v : option (list DB_ROW)) (w : world) : world :=
  mk_world (ha_node w) v (config w) (clock w) (faults w) (trace w) (audit_mode w) (audit_pending w).
Definition set_faults (v : list zbx_db_status) (w : world) : world :=
  mk_world (ha_node w) (txn w) (config w) (clock w) v (trace w) (audit_mode w) (audit_pending w).
Definition set_trace (v : list (db_call * zbx_db_status)) (w : world) : world :=
  mk_world (ha_node w) (txn w) (config w) (clock w) (faults w) v (audit_mode w) (audit_pending w).
Definition set_audit_mode (v : Z) (w : world) : world :=
  mk_world (ha_node w) (txn w) (config w) (clock w) (faults w) (trace w) v (audit_pending w).
Definition set_audit_pending (v : list audit_entry) (w : world) : world :=
  mk_world (ha_node w) (txn w) (config w) (clock w) (faults w) (trace w) (audit_mode w) v.

(** The table a statement sees: the open transaction's, or the committed one. *)
Definition view (w : world) : list DB_ROW :=
  match txn w with Some t => t | None => ha_node w end.

(** A statement outside a transaction is committed at once. *)
Definition set_view (rows : list DB_ROW) (w : world) : world :=
  match txn w with
  | Some _ => set_txn (Some rows) w
  | None => set_ha_node rows w
  end.

(** Modelled from the spec: a driver call takes the next outcome and is
    recorded in the trace. *)
Definition driver_call (c : db_call) (w : world) : zbx_db_status * world :=
  match faults w with
  | [] => (ZBX_DB_OK, set_trace (trace w ++ [(c, ZBX_DB_OK)])%list w)
  | r :: fs => (r, set_trace (trace w ++ [(c, r)])%list (set_faults fs w))
  end.

(** Modelled from the spec: the calls of the driver.  A call that does not
    succeed leaves the tables as they are. *)
Definition DBconnect (w : world) : zbx_db_status * world :=
  driver_call CallConnect w.

(** Modelled from the spec: [DBclose()] returns nothing; an open transaction
    is lost with the connection. *)
Definition DBclose (w : world) : world :=
  set_txn None (set_trace (trace w ++ [(CallClose, ZBX_DB_OK)])%list w).

(** Modelled from the spec: begin opens a transaction on the table as it
    is. *)
Definition zbx_db_begin (w : world) : zbx_db_status * world :=
  let '(r, w1) := driver_call CallBegin w in
  if db_ok r then (r, set_txn (Some (view w1)) w1) else (r, w1).

(** Modelled from the spec: commit makes the transaction's table the
    table. *)
Definition zbx_db_commit (w : world) : zbx_db_status * world :=
  let '(r, w1) := driver_call CallCommit w in
  if db_ok r then (r, set_txn None (set_ha_node (view w1) w1)) else (r, w1).

(** Modelled from the spec: rollback drops the transaction. *)
Definition zbx_db_rollback (w : world) : zbx_db_status * world :=
  let '(r, w1) := driver_call CallRollback w in (r, set_txn None w1).

Definition str_in (s : string) (l : list string) : bool :=
  existsb (String.eqb s) l.

Definition set_row_status (v : Z) (r : DB_ROW) : DB_ROW :=
  mk_row (row_ha_nodeid r) (row_name r) v (row_lastaccess r) (row_address r)
         (row_port r) (row_ha_sessionid r).
Definition set_row_lastaccess (v : Z) (r : DB_ROW) : DB_ROW :=
  mk_row (row_ha_nodeid r) (row_name r) (row_status r) v (row_address r)
         (row_port r) (row_ha_sessionid r).

(** Modelled from the spec: the effect of a statement on the table; [now] is
    the database clock, which the statements write as the new
    [lastaccess]. *)
Definition apply_stmt (now : Z) (s : sql_stmt) (rows : list DB_ROW) : list DB_ROW :=
  match s with
  | SqlUpdateNode la st ids =>
      map (fun r =>
             if str_in (row_ha_nodeid r) ids then
               let r1 := if la then set_row_lastaccess now r else r in
               match st with Some v => set_row_status v r1 | None => r1 end
             else r) rows
  | SqlDeleteNode id =>
      filter (fun r => negb (String.eqb (row_ha_nodeid r) id)) rows
  end.

(** Modelled from the spec: a statement that succeeds changes the table the
    connection sees. *)
Definition zbx_db_vexecute (s : sql_stmt) (w : world) : zbx_db_status * world :=
  let '(r, w1) := driver_call (CallExecute s) w in
  if db_ok r then (r, set_view (apply_stmt (clock w1) s (view w1)) w1) else (r, w1).

(** Modelled from the spec: [order by ha_nodeid], the rows in ascending order
    of their identifiers (compared as strings). *)
Fixpoint insert_row (r : DB_ROW) (rows : list DB_ROW) : list DB_ROW :=
  match rows with
  | [] => [r]
  | x :: rest =>
      if String.leb (row_ha_nodeid r) (row_ha_nodeid x) then r :: x :: rest
      else x :: insert_row r rest
  end.

Definition order_by_nodeid (rows : list DB_ROW) : list DB_ROW :=
  fold_right insert_row [] rows.

(** Modelled from the spec: the audit library is not among the sources.  Its
    entries are collected in memory while auditing is enabled, written by
    the flush, and skipped entirely when auditing is disabled. *)
Definition ZBX_AUDITLOG_ENABLED : Z := 1.

(** Modelled from the spec: zbx_audit_init sets the mode of the audit
    library. *)
Definition zbx_audit_init (auditlog_cfg : Z) (w : world) : world :=
  set_audit_mode auditlog_cfg w.

(** Modelled from the spec: entries are collected only while auditing is
    enabled. *)
Definition zbx_audit_add (e : list audit_entry) (w : world) : world :=
  if audit_mode w =? ZBX_AUDITLOG_ENABLED
  then set_audit_pending (audit_pending w ++ e)%list w
  else w.

Definition zbx_audit_ha_create_entry (action : audit_action) (nodeid nodename : string)
    (w : world) : world :=
  zbx_audit_add [AuditEntry action nodeid nodename] w.

Definition zbx_audit_ha_update_field_int (nodeid : string) (old_value new_value : Z)
    (w : world) : world :=
  zbx_audit_add [AuditStatusField nodeid old_value new_value] w.

(** Modelled from the spec: zbx_audit_clean discards the collected
    entries. *)
Definition zbx_audit_clean (w : world) : world := set_audit_pending [] w.

(** Modelled from the spec: the flush writes the collected entries through
    the driver and returns its result; with auditing disabled nothing is
    written. *)
Definition zbx_audit_flush_once (w : world) : zbx_db_status * world :=
  if audit_mode w =? ZBX_AUDITLOG_ENABLED
  then
    let '(r, w1) := driver_call (CallAuditFlush (audit_pending w)) w in
    (r, set_audit_pending [] w1)
  else (ZBX_DB_OK, set_audit_pending [] w).

(** ** The registry store (ha_db_ functions) *)

Definition ha_db_begin (info : zbx_ha_info_t) (w : world) : zbx_ha_info_t * world :=
  let '(info1, w1) :=
    match db_status info with
    | ZBX_DB_DOWN => let '(r, w') := DBconnect w in (set_db_status r info, w')
    | _ => (info, w)
    end in
  let '(info2, w2) :=
    if db_ok (db_status info1)
    then let '(r, w') := zbx_db_begin w1 in (set_db_status r info1, w')
    else (info1, w1) in
  let info3 :=
    match db_status info2 with
    | ZBX_DB_FAIL => ha_set_error info2 "database error"
    | _ => info2
    end in
  (info3, w2).

Definition ha_db_rollback (info : zbx_ha_info_t) (w : world) : zbx_ha_info_t * world :=
  let '(r, w1) := zbx_db_rollback w in
  let info1 := set_db_status r info in
  let w2 := match r with ZBX_DB_DOWN => DBclose w1 | _ => w1 end in
  let info2 :=
    match r with
    | ZBX_DB_FAIL => ha_set_error info1 "database error"
    | _ => info1
    end in
  (info2, w2).

Definition ha_db_commit (info : zbx_ha_info_t) (w : world) : zbx_ha_info_t * world :=
  let '(info1, w1) :=
    if db_ok (db_status info)
    then let '(r, w') := zbx_db_commit w in (set_db_status r info, w')
    else (info, w) in
  if db_ok (db_status info1) then (info1, w1)
  else
    let '(_, w2) := zbx_db_rollback w1 in
    match db_status info1 with
    | ZBX_DB_FAIL => (ha_set_error info1 "database error", w2)
    | _ => (info1, DBclose w2)
    end.

(** [ha_db_select]: [Some] of what [read] finds when the driver returns a
    result, [None] for the NULL result. *)
Definition ha_db_select {A : Type} (c : db_call) (read : world -> A)
    (info : zbx_ha_info_t) (w : world) : option A * zbx_ha_info_t * world :=
  if negb (db_ok (db_status info)) then (None, info, w)
  else
    let '(r, w1) := driver_call c w in
    match r with
    | ZBX_DB_OK => (Some (read w1), info, w1)
    | ZBX_DB_FAIL => (None, set_db_status ZBX_DB_FAIL info, w1)
    | ZBX_DB_DOWN => (None, set_db_status ZBX_DB_DOWN info, w1)
    end.

Definition ha_db_execute (info : zbx_ha_info_t) (s : sql_stmt) (w : world)
    : zbx_ret_t * zbx_ha_info_t * world :=
  if negb (db_ok (db_status info)) then (FAIL, info, w)
  else
    let '(r, w1) := zbx_db_vexecute s w in
    (if db_ok r then SUCCEED else FAIL, set_db_status r info, w1).

Definition ha_flush_audit (info : zbx_ha_info_t) (w : world) : zbx_ha_info_t * world :=
  if negb (db_ok (db_status info)) then (info, zbx_audit_clean w)
  else
    let '(r, w1) := zbx_audit_flush_once w in
    (set_db_status r info, w1).

Definition ha_db_lock_nodes (info : zbx_ha_info_t) (w : world)
    : zbx_ret_t * zbx_ha_info_t * world :=
  match ha_db_select CallSelectLock (fun _ => tt) info w with
  | (None, info1, w1) => (FAIL, info1, w1)
  | (Some _, info1, w1) => (SUCCEED, info1, w1)
  end.

Definition ha_db_get_time (info : zbx_ha_info_t) (w : world)
    : zbx_ret_t * Z * zbx_ha_info_t * world :=
  match ha_db_select CallSelectTime (fun w' => (config w', clock w')) info w with
  | (None, info1, w1) => (FAIL, 0, info1, w1)
  | (Some (Some _, t), info1, w1) => (SUCCEED, atoi t, info1, w1)
  | (Some (None, _), info1, w1) => (SUCCEED, 0, info1, w1)
  end.

Fixpoint ha_find_node_by_name (nodes : list zbx_ha_node_t) (nm : string)
    : option zbx_ha_node_t :=
  match nodes with
  | [] => None
  | n :: rest => if String.eqb (node_name n) nm then Some n else ha_find_node_by_name rest nm
  end.

(** ** The JSON document of the node list *)

(** Modelled from the spec: the zbx_json builder and the protocol tag macros
    are not among the sources.  The document is kept as the sequence of
    objects added to the array, each the sequence of its tagged values
    (id, name, status, lastaccess, address, db_timestamp, lastaccess_age). *)
Inductive proto_tag : Type :=
| ZBX_PROTO_TAG_ID
| ZBX_PROTO_TAG_NAME
| ZBX_PROTO_TAG_STATUS
| ZBX_PROTO_TAG_LASTACCESS
| ZBX_PROTO_TAG_ADDRESS
| ZBX_PROTO_TAG_DB_TIMESTAMP
| ZBX_PROTO_TAG_LASTACCESS_AGE.

Inductive json_value : Type :=
| JsonString (s : string)
| JsonInt (z : Z).

Definition json_object : Type := list (proto_tag * json_value).

(** Modelled from the spec: the parsers is_ushort and is_time_suffix belong
    to the common library, which is not among the sources.  The manager
    below takes them as parameters; these stand-ins instantiate them on
    concrete tables.  They accept decimal digits only, the first a value of
    at most 65535 (an unsigned 16-bit integer), the second a number of
    seconds that is an [int]. *)
Definition digit_value (c : ascii) : option Z :=
  let n := Z.of_nat (nat_of_ascii c) in
  if (48 <=? n) && (n <=? 57) then Some (n - 48) else None.

Fixpoint parse_digits (s : string) (acc : Z) : option Z :=
  match s with
  | EmptyString => Some acc
  | String c rest =>
      match digit_value c with
      | Some d => parse_digits rest (acc * 10 + d)
      | None => None
      end
  end.

Definition parse_decimal (s : string) : option Z :=
  match s with
  | EmptyString => None
  | _ => parse_digits s 0
  end.

Definition dec_ushort (s : string) : option Z :=
  match parse_decimal s with
  | Some v => if v <=? 65535 then Some v else None
  | None => None
  end.

Definition dec_time_suffix (s : string) : option Z :=
  match parse_decimal s with
  | Some v => if v <=? INT_MAX then Some v else None
  | None => None
  end.

(** ** A sample registry

    Two nodes: the active peer "a", whose lastaccess stopped at 100, and the
    standby node "b", seen at database time 120 with a failover delay of 10
    seconds. *)
Definition sample_row_a : DB_ROW :=
  mk_row "ida" "a" ZBX_NODE_STATUS_ACTIVE 100 "10.0.0.1" "10051" "sessA".
Definition sample_row_b : DB_ROW :=
  mk_row "idb" "b" ZBX_NODE_STATUS_STANDBY 118 "10.0.0.2" "10051" "sessB".
Definition sample_config : config_row := mk_config "10" 1.
Definition sample_world : world :=
  mk_world [sample_row_a; sample_row_b] None (Some sample_config) 120 [] [] 0 [].
Definition sample_info_b : zbx_ha_info_t :=
  mk_info "idb" ZBX_NODE_STATUS_STANDBY ZBX_DB_OK 60 100 3 0 "b" None.

(** A row whose port column is outside the 16-bit range, and a table holding
    it. *)
Definition sample_row_c : DB_ROW :=
  mk_row "idc" "c" ZBX_NODE_STATUS_STOPPED 90 "10.0.0.3" "70000" "sessC".
Definition sample_world_c : world :=
  mk_world [sample_row_c; sample_row_a] None (Some sample_config) 120 [] [] 0 [].

(** A standalone manager and a node left unavailable by a cluster, whose
    lastaccess is 10 seconds old under a failover delay of 60. *)
Definition sample_info_standalone : zbx_ha_info_t :=
  mk_info EmptyString ZBX_NODE_STATUS_UNKNOWN ZBX_DB_OK 60 0 0 0 EmptyString None.
Definition sample_node_unavailable : zbx_ha_node_t :=
  mk_node "ida" "sessA" "a" "10.0.0.1" 10051 ZBX_NODE_STATUS_UNAVAILABLE 100.

Section Manager.

(** The parsers of the common library, which is not among the sources:
    [is_ushort] yields the port when the text is an unsigned 16-bit number,
    [is_time_suffix] the number of seconds when the text is a time. *)
Variable is_ushort : string -> option Z.
Variable is_time_suffix : string -> option Z.

(** The process globals: the session identifier generated at start and the
    configured node name. *)
Variable ha_sessionid : string.
Variable CONFIG_HA_NODE_NAME : option string.

(** What memcmp finds in the bytes of two identifier buffers that the
    program never wrote (see [zbx_cuid_compare]). *)
Variable unwritten_equal : string -> string -> bool.

Definition ha_db_update_config (info : zbx_ha_info_t) (w : world)
    : zbx_ret_t * zbx_ha_info_t * world :=
  match ha_db_select CallSelectConfig config info w with
  | (None, info1, w1) => (FAIL, info1, w1)
  | (Some (Some row), info1, w1) =>
      let info2 :=
        match is_time_suffix (cfg_ha_failover_delay row) with
        | Some v => set_failover_delay v info1
        | None => info1
        end in
      (SUCCEED, set_auditlog (cfg_auditlog_enabled row) info2, w1)
  | (Some None, info1, w1) => (SUCCEED, info1, w1)
  end.

Definition node_of_row (r : DB_ROW) : zbx_ha_node_t :=
  mk_node (zbx_strlcpy (row_ha_nodeid r) CUID_LEN)
          (zbx_strlcpy (row_ha_sessionid r) CUID_LEN)
          (row_name r)
          (row_address r)
          (match is_ushort (row_port r) with Some p => p | None => 0 end)
          (row_status r)
          (row_lastaccess r).

Definition ha_db_get_nodes (info : zbx_ha_info_t) (lock : bool) (w : world)
    : zbx_ret_t * list zbx_ha_node_t * zbx_ha_info_t * world :=
  match ha_db_select (CallSelectNodes lock) (fun w' => order_by_nodeid (view w')) info w with
  | (None, info1, w1) => (FAIL, [], info1, w1)
  | (Some rows, info1, w1) => (SUCCEED, map node_of_row rows, info1, w1)
  end.

(** The standby nodes whose lease has run out. *)
Definition standby_expired (info : zbx_ha_info_t) (db_time : Z) (n : zbx_ha_node_t) : bool :=
  (node_status n =? ZBX_NODE_STATUS_STANDBY)
  && (int_add (node_lastaccess n) (failover_delay info) <=? db_time).

Definition ha_check_standby_nodes (info : zbx_ha_info_t) (nodes : list zbx_ha_node_t)
    (db_time : Z) (w : world) : zbx_ret_t * zbx_ha_info_t * world :=
  let w0 := zbx_audit_init (auditlog info) w in
  let unavailable_nodes := filter (standby_expired info db_time) nodes in
  let w1 :=
    fold_left
      (fun acc n =>
         zbx_audit_ha_update_field_int (node_ha_nodeid n) (node_status n)
           ZBX_NODE_STATUS_UNAVAILABLE
           (zbx_audit_ha_create_entry AUDIT_ACTION_UPDATE (node_ha_nodeid n) (node_name n) acc))
      unavailable_nodes w0 in
  let '(ret, info2, w2) :=
    match unavailable_nodes with
    | [] => (SUCCEED, info, w1)
    | _ =>
        ha_db_execute info
          (SqlUpdateNode false (Some ZBX_NODE_STATUS_UNAVAILABLE)
             (map node_ha_nodeid unavailable_nodes)) w1
    end in
  match ret with
  | SUCCEED => let '(info3, w3) := ha_flush_audit info2 w2 in (SUCCEED, info3, w3)
  | FAIL => (FAIL, info2, zbx_audit_clean w2)
  end.

(** The first loop of [ha_check_active_node]: the index of the first active
    node, counted from [i]. *)
Fixpoint find_active (nodes : list zbx_ha_node_t) (i : nat) : option (nat * zbx_ha_node_t) :=
  match nodes with
  | [] => None
  | n :: rest =>
      if node_status n =? ZBX_NODE_STATUS_ACTIVE then Some (i, n)
      else find_active rest (S i)
  end.

(** Returns the result, the record, [unavailable_index] ([None] for the
    initial FAIL) and the local [ha_status]. *)
Definition ha_check_active_node (info : zbx_ha_info_t) (nodes : list zbx_ha_node_t)
    (unavailable_index : option nat) (ha_status_loc : Z)
    : zbx_ret_t * zbx_ha_info_t * option nat * Z :=
  match find_active nodes 0 with
  | None => (SUCCEED, info, unavailable_index, ZBX_NODE_STATUS_ACTIVE)
  | Some (i, n) =>
      if str_empty (node_name n)
      then (FAIL, ha_set_error info "found active standalone node in HA mode",
            unavailable_index, ha_status_loc)
      else if zbx_cuid_compare unwritten_equal (node_ha_nodeid n) (ha_nodeid info)
      then (SUCCEED, info, unavailable_index, ZBX_NODE_STATUS_ACTIVE)
      else
        let info1 :=
          if negb (node_lastaccess n =? lastaccess_active info)
          then set_offline_ticks_active 0 (set_lastaccess_active (node_lastaccess n) info)
          else set_offline_ticks_active (int_add (offline_ticks_active info) 1) info in
        if int_add (int_div (failover_delay info1) ZBX_HA_POLL_PERIOD) 1
           <? offline_ticks_active info1
        then (SUCCEED, info1, Some i, ZBX_NODE_STATUS_ACTIVE)
        else (SUCCEED, info1, unavailable_index, ha_status_loc)
  end.

(** The part of [ha_check_nodes] after the label [out]. *)
Definition ha_check_nodes_out (info : zbx_ha_info_t) (ha_status_loc : Z) (w : world)
    : zbx_ha_info_t * world :=
  let '(info1, w1) :=
    if negb (ha_status info =? ZBX_NODE_STATUS_ERROR)
    then ha_db_commit info w
    else ha_db_rollback info w in
  if negb (ha_status info1 =? ZBX_NODE_STATUS_ERROR) && db_ok (db_status info1)
  then (set_ha_status ha_status_loc info1, w1)
  else (info1, w1).

(** The statements of [ha_check_nodes] from building the update to the audit
    flush. *)
Definition ha_check_nodes_update (info : zbx_ha_info_t) (nodes : list zbx_ha_node_t)
    (node : zbx_ha_node_t) (unavailable_index : option nat) (ha_status_loc : Z) (w : world)
    : zbx_ha_info_t * world :=
  let w0 := zbx_audit_init (auditlog info) w in
  let changed := negb (ha_status_loc =? node_status node) in
  let w1 :=
    if changed
    then zbx_audit_ha_update_field_int (node_ha_nodeid node) (node_status node) ha_status_loc
           (zbx_audit_ha_create_entry AUDIT_ACTION_UPDATE (node_ha_nodeid node)
              (node_name node) w0)
    else w0 in
  let sql :=
    SqlUpdateNode true (if changed then Some ha_status_loc else None) [ha_nodeid info] in
  let '(ret, info2, w2) := ha_db_execute info sql w1 in
  let '(info3, w3) :=
    match ret, unavailable_index with
    | SUCCEED, Some i =>
        match nth_error nodes i with
        | Some last_active =>
            let '(_, info', w') :=
              ha_db_execute info2
                (SqlUpdateNode false (Some ZBX_NODE_STATUS_UNAVAILABLE)
                   [node_ha_nodeid last_active]) w2 in
            (info',
             zbx_audit_ha_update_field_int (node_ha_nodeid last_active)
               (node_status last_active) ZBX_NODE_STATUS_UNAVAILABLE
               (zbx_audit_ha_create_entry AUDIT_ACTION_UPDATE (node_ha_nodeid last_active)
                  (node_name last_active) w'))
        | None => (info2, w2)
        end
    | _, _ => (info2, w2)
    end in
  ha_flush_audit info3 w3.

(** The statements of [ha_check_nodes] between the successful begin and the
    label [out]; the result carries the local [ha_status]. *)
Definition ha_check_nodes_body (info : zbx_ha_info_t) (w : world)
    : Z * zbx_ha_info_t * world :=
  let ha_status_loc := ha_status info in
  match ha_db_get_nodes info true w with
  | (FAIL, _, info1, w1) => (ha_status_loc, info1, w1)
  | (SUCCEED, nodes, info1, w1) =>
      match ha_find_node_by_name nodes (name info1) with
      | None =>
          (ha_status_loc,
           ha_set_error info1
             ("cannot find server node " ++ DQUOTE ++ name info1 ++ DQUOTE ++ " in registry"),
           w1)
      | Some node =>
          if negb (zbx_cuid_compare unwritten_equal ha_sessionid (node_ha_sessionid node))
          then (ha_status_loc,
                ha_set_error info1 "the server HA registry record has changed ownership",
                w1)
          else
            (* update nodeid after manager restart *)
            let info2 :=
              if zbx_cuid_empty (ha_nodeid info1)
              then set_ha_nodeid (node_ha_nodeid node) info1
              else info1 in
            match ha_db_update_config info2 w1 with
            | (FAIL, info3, w3) => (ha_status_loc, info3, w3)
            | (SUCCEED, info3, w3) =>
                match ha_db_get_time info3 w3 with
                | (FAIL, _, info4, w4) => (ha_status_loc, info4, w4)
                | (SUCCEED, db_time, info4, w4) =>
                    let '(ret, info5, unavailable_index, ha_status_loc', w5) :=
                      if ZBX_HA_IS_CLUSTER CONFIG_HA_NODE_NAME then
                        if ha_status info4 =? ZBX_NODE_STATUS_ACTIVE then
                          let '(r, i5, w') := ha_check_standby_nodes info4 nodes db_time w4 in
                          (r, i5, @None nat, ha_status_loc, w')
                        else
                          let '(r, i5, ui, st) :=
                            ha_check_active_node info4 nodes None ha_status_loc in
                          (r, i5, ui, st, w4)
                      else (SUCCEED, info4, @None nat, ha_status_loc, w4) in
                    match ret with
                    | FAIL => (ha_status_loc', info5, w5)
                    | SUCCEED =>
                        let '(info6, w6) :=
                          ha_check_nodes_update info5 nodes node unavailable_index
                            ha_status_loc' w5 in
                        (ha_status_loc', info6, w6)
                    end
                end
            end
      end
  end.

Definition ha_check_nodes (info : zbx_ha_info_t) (w : world) : zbx_ha_info_t * world :=
  let '(info1, w1) := ha_db_begin info w in
  if negb (db_ok (db_status info1)) then (info1, w1)
  else
    let '(ha_status_loc, info2, w2) := ha_check_nodes_body info1 w1 in
    ha_check_nodes_out info2 ha_status_loc w2.

(** The object added to the array for one node. *)
Definition node_json (db_time : Z) (n : zbx_ha_node_t) : json_object :=
  let address := zbx_snprintf 512 (node_address n ++ ":" ++ fmt_hu (node_port n)) in
  [ (ZBX_PROTO_TAG_ID, JsonString (node_ha_nodeid n));
    (ZBX_PROTO_TAG_NAME, JsonString (node_name n));
    (ZBX_PROTO_TAG_STATUS, JsonInt (node_status n));
    (ZBX_PROTO_TAG_LASTACCESS, JsonInt (node_lastaccess n));
    (ZBX_PROTO_TAG_ADDRESS, JsonString address);
    (ZBX_PROTO_TAG_DB_TIMESTAMP, JsonInt db_time);
    (ZBX_PROTO_TAG_LASTACCESS_AGE, JsonInt (int_sub db_time (node_lastaccess n))) ].

(** Returns the result, [*nodes_json], [*error], and the state. *)
Definition ha_db_get_nodes_json (info : zbx_ha_info_t) (w : world)
    : zbx_ret_t * option (list json_object) * option string * zbx_ha_info_t * world :=
  if negb (db_ok (db_status info)) then (FAIL, None, Some "database error", info, w)
  else
    match ha_db_get_time info w with
    | (FAIL, _, info1, w1) => (FAIL, None, Some "database error", info1, w1)
    | (SUCCEED, db_time, info1, w1) =>
        match ha_db_get_nodes info1 false w1 with
        | (SUCCEED, nodes, info2, w2) =>
            (SUCCEED, Some (map (node_json db_time) nodes), None, info2, w2)
        | (FAIL, _, info2, w2) => (FAIL, None, Some "database error", info2, w2)
        end
    end.

(** The part of [ha_remove_node_by_index] after the label [out]. *)
Definition ha_remove_node_out (ret : zbx_ret_t) (info : zbx_ha_info_t) (w : world)
    : zbx_ha_info_t * world :=
  match ret with
  | SUCCEED => ha_db_commit info w
  | FAIL => ha_db_rollback info w
  end.

(** Returns the result, [*error], and the state. *)
Definition ha_remove_node_by_index (info : zbx_ha_info_t) (index : Z) (w : world)
    : zbx_ret_t * option string * zbx_ha_info_t * world :=
  let '(info1, w1) := ha_db_begin info w in
  if negb (db_ok (db_status info1))
  then (FAIL, Some "database connection problem", info1, w1)
  else
    let '(ret, err, info5, w5) :=
      match ha_db_get_nodes info1 false w1 with
      | (FAIL, _, info2, w2) => (FAIL, Some "database connection problem", info2, w2)
      | (SUCCEED, nodes, info2, w2) =>
          let index' := int_sub index 1 in
          if (index' <? 0) || (Z.of_nat (List.length nodes) <=? index')
          then (FAIL, Some "node index out of range", info2, w2)
          else
            match nth_error nodes (Z.to_nat index') with
            | None => (FAIL, Some "node index out of range", info2, w2)
            | Some n =>
                if (node_status n =? ZBX_NODE_STATUS_ACTIVE)
                   || (node_status n =? ZBX_NODE_STATUS_STANDBY)
                then (FAIL, Some ("node is " ++ zbx_ha_status_str (node_status n)), info2, w2)
                else
                  match ha_db_execute info2 (SqlDeleteNode (node_ha_nodeid n)) w2 with
                  | (FAIL, info3, w3) =>
                      (FAIL, Some "database connection problem", info3, w3)
                  | (SUCCEED, info3, w3) =>
                      let w4 :=
                        zbx_audit_ha_create_entry AUDIT_ACTION_DELETE (node_ha_nodeid n)
                          (node_name n) (zbx_audit_init (auditlog info3) w3) in
                      let '(info4, w4') := ha_flush_audit info3 w4 in
                      (SUCCEED, @None string, info4, w4')
                  end
            end
      end in
    let '(info6, w6) := ha_remove_node_out ret info5 w5 in
    (ret, err, info6, w6).

Definition ha_db_update_exit_status (info : zbx_ha_info_t) (w : world)
    : zbx_ha_info_t * world :=
  if negb (ha_status info =? ZBX_NODE_STATUS_ACTIVE)
     && negb (ha_status info =? ZBX_NODE_STATUS_STANDBY)
  then (info, w)
  else
    let '(info1, w1) := ha_db_begin info w in
    if negb (db_ok (db_status info1)) then (info1, w1)
    else
      match ha_db_lock_nodes info1 w1 with
      | (FAIL, info2, w2) => ha_db_commit info2 w2
      | (SUCCEED, info2, w2) =>
          match
            ha_db_execute info2
              (SqlUpdateNode false (Some ZBX_NODE_STATUS_STOPPED) [ha_nodeid info2]) w2
          with
          | (SUCCEED, info3, w3) =>
              let w4 :=
                zbx_audit_ha_update_field_int (ha_nodeid info3) (ha_status info3)
                  ZBX_NODE_STATUS_STOPPED
                  (zbx_audit_ha_create_entry AUDIT_ACTION_UPDATE (ha_nodeid info3)
                     (name info3) (zbx_audit_init (auditlog info3) w3)) in
              let '(info4, w4') := ha_flush_audit info3 w4 in
              ha_db_commit info4 w4'
          | (FAIL, info3, w3) => ha_db_commit info3 w3
          end
      end.

(** ** What the specification says, in its own words *)

(** The specification's liveness predicate: the status is active or standby
    and the lease has not run out. *)
Definition live (fd db_time : Z) (n : zbx_ha_node_t) : Prop :=
  (node_status n = ZBX_NODE_STATUS_ACTIVE \/ node_status n = ZBX_NODE_STATUS_STANDBY)
  /\ node_lastaccess n + fd > db_time.

(** What the standalone check tests instead: any status but stopped, with
    the lease not run out. *)
Definition blocks_standalone (fd db_time : Z) (n : zbx_ha_node_t) : Prop :=
  node_name n <> EmptyString
  /\ node_status n <> ZBX_NODE_STATUS_STOPPED
  /\ node_lastaccess n + fd > db_time.

Definition standalone_error (n : zbx_ha_node_t) : string :=
  "cannot change mode to standalone while HA node " ++ DQUOTE ++ node_name n ++ DQUOTE
  ++ " is " ++ zbx_ha_status_str (node_status n).

(** The result of the [k]-th coming driver call. *)
Definition outcome (k : nat) (w : world) : zbx_db_status := nth k (faults w) ZBX_DB_OK.

(** The calls that open, change or close a transaction. *)
Definition is_txn_call (c : db_call * zbx_db_status) : bool :=
  match fst c with
  | CallBegin | CallCommit | CallRollback | CallExecute _ => true
  | _ => false
  end.

(** A turn of the receiver that brings neither a heartbeat nor a change of
    status: a status update repeating [status], or a frame the receiver
    ignores. *)
Definition quiet (status : Z) (ev : recv_event) : Prop :=
  match ev with
  | RecvMessage (ZBX_IPC_SERVICE_HA_UPDATE s _ _) _ => s = status
  | RecvMessage ZBX_IPC_SERVICE_HA_OTHER _ => True
  | _ => False
  end.

(** The failover delay the receiver holds after the turns [incoming]: the one
    of the last status update, or the one it held before. *)
Definition last_delay (d : Z) (incoming : list recv_event) : Z :=
  fold_left
    (fun acc ev =>
       match ev with
       | RecvMessage (ZBX_IPC_SERVICE_HA_UPDATE _ d' _) _ => d'
       | _ => acc
       end) incoming d.

(** The order of [order by ha_nodeid]. *)
Definition nodeid_le (x y : DB_ROW) : Prop :=
  String.leb (row_ha_nodeid x) (row_ha_nodeid y) = true.

(** The object of GetNodes for a row, in the specification's words: the
    identifier, name, status, lastaccess of the row, the address as
    host:port, the database time of the request, and the age of the row. *)
Definition GetNodes_object (db_timestamp : Z) (r : DB_ROW) : json_object :=
  [ (ZBX_PROTO_TAG_ID, JsonString (row_ha_nodeid r));
    (ZBX_PROTO_TAG_NAME, JsonString (row_name r));
    (ZBX_PROTO_TAG_STATUS, JsonInt (row_status r));
    (ZBX_PROTO_TAG_LASTACCESS, JsonInt (row_lastaccess r));
    (ZBX_PROTO_TAG_ADDRESS, JsonString (row_address r ++ ":" ++ row_port r));
    (ZBX_PROTO_TAG_DB_TIMESTAMP, JsonInt db_timestamp);
    (ZBX_PROTO_TAG_LASTACCESS_AGE, JsonInt (db_timestamp - row_lastaccess r)) ].

(** A row the code can render without loss: the identifier fits its buffer,
    the port column is the decimal text of a port the parser accepts, the
    address and port fit the 512-byte address buffer, and the age is an
    [int]. *)
Definition row_renders (db_time : Z) (r : DB_ROW) : Prop :=
  (String.length (row_ha_nodeid r) <= 25)%nat
  /\ (exists p, is_ushort (row_port r) = Some p /\ fmt_hu p = row_port r)
  /\ (String.length (row_address r ++ ":" ++ row_port r) <= 511)%nat
  /\ is_int (db_time - row_lastaccess r).

(** The effect of the exit update on the table. *)
Definition mark_stopped (nodeid : string) (r : DB_ROW) : DB_ROW :=
  if String.eqb (row_ha_nodeid r) nodeid then set_row_status ZBX_NODE_STATUS_STOPPED r else r.

(** The table without the row of identifier [nodeid]. *)
Definition delete_node (nodeid : string) (rows : list DB_ROW) : list DB_ROW :=
  filter (fun r => negb (String.eqb (row_ha_nodeid r) nodeid)) rows.

(** The state of the driver after a call [c] that succeeded. *)
Definition after_ok (c : db_call) (w : world) : world :=
  set_trace (trace w ++ [(c, ZBX_DB_OK)])%list (set_faults (tl (faults w)) w).

(** ** Cluster admission and the refresh of the paused manager *)

(** The loop of [ha_check_cluster_config]; [activate] is the value of
    [*activate] so far. *)
Fixpoint ha_check_cluster_loop (info : zbx_ha_info_t) (nodes : list zbx_ha_node_t)
    (db_time : Z) (activate : zbx_ret_t) : zbx_ret_t * zbx_ret_t * zbx_ha_info_t :=
  match nodes with
  | [] => (SUCCEED, activate, info)
  | n :: rest =>
      if (node_status n =? ZBX_NODE_STATUS_STOPPED)
         || negb (ret_eqb (ha_is_available info (node_lastaccess n) db_time) SUCCEED)
      then ha_check_cluster_loop info rest db_time activate
      else if str_empty (node_name n)
      then (FAIL, activate,
            ha_set_error info
              ("cannot change mode to HA while standalone node is "
               ++ zbx_ha_status_str (node_status n)))
      else if String.eqb (name info) (node_name n)
      then (FAIL, activate,
            ha_set_error info
              ("found " ++ zbx_ha_status_str (node_status n) ++ " duplicate " ++ DQUOTE
               ++ name info ++ DQUOTE ++ " node"))
      else
        (* immediately switch to active mode if there is no other node that can take over *)
        ha_check_cluster_loop info rest db_time
          (if (node_status n =? ZBX_NODE_STATUS_ACTIVE)
              || (node_status n =? ZBX_NODE_STATUS_STANDBY)
           then FAIL else activate)
  end.

(** Returns the result, [*activate] and the record. *)
Definition ha_check_cluster_config (info : zbx_ha_info_t) (nodes : list zbx_ha_node_t)
    (db_time : Z) : zbx_ret_t * zbx_ret_t * zbx_ha_info_t :=
  ha_check_cluster_loop info nodes db_time SUCCEED.

Definition ha_db_update_lastaccess (info : zbx_ha_info_t) (w : world)
    : zbx_ha_info_t * world :=
  let '(info1, w1) := ha_db_begin info w in
  if negb (db_ok (db_status info1)) then (info1, w1)
  else
    match ha_db_lock_nodes info1 w1 with
    | (SUCCEED, info2, w2) =>
        match ha_db_execute info2 (SqlUpdateNode true None [ha_nodeid info2]) w2 with
        | (SUCCEED, info3, w3) => ha_db_commit info3 w3
        | (FAIL, info3, w3) => ha_db_rollback info3 w3
        end
    | (FAIL, info2, w2) => ha_db_rollback info2 w2
    end.

(** ** Words for the statements about them *)

(** A node the registry shows as running: any status but stopped, with the
    lease not run out. *)
Definition shown_running (fd db_time : Z) (n : zbx_ha_node_t) : Prop :=
  node_status n <> ZBX_NODE_STATUS_STOPPED /\ node_lastaccess n + fd > db_time.

(** A running node that keeps this node out of the cluster: the standalone
    node, or a node of the same name. *)
Definition blocks_cluster (info : zbx_ha_info_t) (db_time : Z) (n : zbx_ha_node_t) : Prop :=
  shown_running (failover_delay info) db_time n
  /\ (node_name n = EmptyString \/ node_name n = name info).

(** A running node that can serve: active or standby. *)
Definition can_serve (fd db_time : Z) (n : zbx_ha_node_t) : Prop :=
  shown_running fd db_time n
  /\ (node_status n = ZBX_NODE_STATUS_ACTIVE \/ node_status n = ZBX_NODE_STATUS_STANDBY).

Definition cluster_error (info : zbx_ha_info_t) (n : zbx_ha_node_t) : string :=
  if str_empty (node_name n)
  then "cannot change mode to HA while standalone node is "
       ++ zbx_ha_status_str (node_status n)
  else "found " ++ zbx_ha_status_str (node_status n) ++ " duplicate " ++ DQUOTE
       ++ name info ++ DQUOTE ++ " node".

(** A call that only reads: the committed table, the open transaction, the
    clock and the configuration are as before. *)
Definition reads_only (w w' : world) : Prop :=
  ha_node w' = ha_node w /\ txn w' = txn w /\ clock w' = clock w /\ config w' = config w.

(** A call that leaves the manager's role alone: status, error, identifier
    and name are as before. *)
Definition keeps_role (info info' : zbx_ha_info_t) : Prop :=
  ha_status info' = ha_status info /\ error info' = error info
  /\ ha_nodeid info' = ha_nodeid info /\ name info' = name info.

(** The row of identifier [nodeid] with its lastaccess set to [now]; any
    other row as it is. *)
Definition refresh_lastaccess (nodeid : string) (now : Z) (r : DB_ROW) : DB_ROW :=
  if String.eqb (row_ha_nodeid r) nodeid then set_row_lastaccess now r else r.

(** The first node of the list that is shown active, and its index. *)
Definition first_active (nodes : list zbx_ha_node_t) (i : nat) (n : zbx_ha_node_t) : Prop :=
  nth_error nodes i = Some n
  /\ node_status n = ZBX_NODE_STATUS_ACTIVE
  /\ forall j m, (j < i)%nat -> nth_error nodes j = Some m ->
                 node_status m <> ZBX_NODE_STATUS_ACTIVE.

(** A standby row whose lease has run out becomes unavailable; any other
    row stays as it is. *)
Definition expire_standby (fd db_time : Z) (r : DB_ROW) : DB_ROW :=
  if (row_status r =? ZBX_NODE_STATUS_STANDBY) && (row_lastaccess r + fd <=? db_time)
  then set_row_status ZBX_NODE_STATUS_UNAVAILABLE r
  else r.

(** A turn that ends the receiver's loop with a failure: the socket fails,
    or the manager reports status error. *)
Definition recv_fatal (ev : recv_event) : bool :=
  match ev with
  | RecvFail => true
  | RecvMessage (ZBX_IPC_SERVICE_HA_UPDATE status _ _) _ => status =? ZBX_NODE_STATUS_ERROR
  | RecvMessage _ _ => false
  end.

(** The error text the receiver returns for a turn that ends its loop. *)
Definition recv_fatal_error (ev : recv_event) : option string :=
  match ev with
  | RecvMessage (ZBX_IPC_SERVICE_HA_UPDATE _ _ e) _ => e
  | _ => Some "cannot receive message from HA manager service"
  end.

(** The status the manager reported last in the turns [incoming], or
    [status] when it reported none. *)
Definition last_status (status : Z) (incoming : list recv_event) : Z :=
  fold_left
    (fun acc ev =>
       match ev with
       | RecvMessage (ZBX_IPC_SERVICE_HA_UPDATE s _ _) _ => s
       | _ => acc
       end) incoming status.

(** Modelled from the spec: the loop of the parent process is not among the
    sources.  The parent calls the receiver again and again on the same
    status and error variables, so a call starts from the static variables,
    the status and the error text that the call before left.  A call is
    given by the turns that deliver something and the time read when the
    socket has nothing more. *)
Definition recv_next (cfg : option string) (r : recv_result) (call : list recv_event * Z)
    : recv_result :=
  zbx_ha_recv_status cfg (recv_st r) (fst call) (snd call) (recv_ha_status r) (recv_error r).

Definition recv_calls (cfg : option string) (r : recv_result)
    (calls : list (list recv_event * Z)) : recv_result :=
  fold_left (recv_next cfg) calls r.

(** ** Further sample data

    The manager of the active node "a"; the registry ten seconds later, when
    the lease of "b" has run out, committed and inside a transaction; the
    manager of "b" at its first look at "a"; a manager named "z", which has
    no row; a node that bears the name of "b" under another identifier; and
    registries whose driver stops answering at the commit or at the read. *)
Definition sample_info_a : zbx_ha_info_t :=
  mk_info "ida" ZBX_NODE_STATUS_ACTIVE ZBX_DB_OK 10 0 0 0 "a" None.
Definition sample_world_late : world :=
  mk_world [sample_row_a; sample_row_b] None (Some sample_config) 130 [] [] 0 [].
Definition sample_world_txn : world :=
  mk_world [sample_row_a; sample_row_b] (Some [sample_row_a; sample_row_b])
    (Some sample_config) 130 [] [] 0 [].
Definition sample_info_b_waiting : zbx_ha_info_t :=
  mk_info "idb" ZBX_NODE_STATUS_STANDBY ZBX_DB_OK 60 100 0 0 "b" None.
Definition sample_info_z : zbx_ha_info_t :=
  mk_info "idz" ZBX_NODE_STATUS_STANDBY ZBX_DB_OK 60 0 0 0 "z" None.
Definition sample_node_duplicate : zbx_ha_node_t :=
  mk_node "idx" "sessX" "b" "10.0.0.9" 10051 ZBX_NODE_STATUS_ACTIVE 100.
Definition sample_world_lost_commit : world :=
  mk_world [sample_row_c; sample_row_a] None (Some sample_config) 120
    [ZBX_DB_OK; ZBX_DB_OK; ZBX_DB_OK; ZBX_DB_DOWN] [] 0 [].
Definition sample_world_read_fails : world :=
  mk_world [sample_row_a; sample_row_b] None (Some sample_config) 120
    [ZBX_DB_OK; ZBX_DB_FAIL] [] 0 [].

(** The same two nodes under identifiers and session identifiers of the
    kind zbx_new_cuid generates, 25 characters each; and the unwritten bytes
    of two buffers taken never to agree. *)
Definition cuid_row_a : DB_ROW :=
  mk_row "cjld2cjxh0000qzrmn831i7rn" "a" ZBX_NODE_STATUS_ACTIVE 100 "10.0.0.1" "10051"
    "cjld2cjxh0001qzrmn831i7sa".
Definition cuid_row_b : DB_ROW :=
  mk_row "cjld2cyuq0000t3rmniod1foy" "b" ZBX_NODE_STATUS_STANDBY 118 "10.0.0.2" "10051"
    "cjld2cyuq0001t3rmniod1fsb".
Definition cuid_session_a : string := "cjld2cjxh0001qzrmn831i7sa".
Definition cuid_session_b : string := "cjld2cyuq0001t3rmniod1fsb".
Definition cuid_world : world :=
  mk_world [cuid_row_a; cuid_row_b] None (Some sample_config) 120 [] [] 0 [].
Definition cuid_world_late : world :=
  mk_world [cuid_row_a; cuid_row_b] None (Some sample_config) 130 [] [] 0 [].
Definition cuid_info_a : zbx_ha_info_t :=
  mk_info "cjld2cjxh0000qzrmn831i7rn" ZBX_NODE_STATUS_ACTIVE ZBX_DB_OK 10 0 0 0 "a" None.
Definition cuid_info_b : zbx_ha_info_t :=
  mk_info "cjld2cyuq0000t3rmniod1foy" ZBX_NODE_STATUS_STANDBY ZBX_DB_OK 60 100 3 0 "b" None.
Definition cuid_info_b_waiting : zbx_ha_info_t :=
  mk_info "cjld2cyuq0000t3rmniod1foy" ZBX_NODE_STATUS_STANDBY ZBX_DB_OK 60 100 0 0 "b" None.
Definition never_equal : string -> string -> bool := fun _ _ => false.

(** What happens to the database between two ticks of a manager: time
    passes, and other nodes write the table. *)
Definition between_ticks (now : Z) (tbl : list DB_ROW) (w : world) : world :=
  mk_world tbl (txn w) (config w) now (faults w) (trace w) (audit_mode w) (audit_pending w).

(** * Properties *)

(** ** Integers and strings *)

Lemma int_wrap_id (z : Z) : is_int z -> int_wrap z = z.
Proof.
  unfold is_int, int_wrap, INT_MIN, INT_MAX. intros H.
  rewrite Z.mod_small by lia. lia.
Qed.

Lemma str_take_all (n : nat) (s : string) :
  (String.length s <= n)%nat -> str_take n s = s.
Proof.
  revert n. induction s as [|c s IH]; intros [|n] H; simpl in *; try reflexivity; try lia.
  f_equal. apply IH. lia.
Qed.

Lemma zbx_strlcpy_cuid (s : string) :
  (String.length s <= 25)%nat -> zbx_strlcpy s CUID_LEN = s.
Proof. intros H. unfold zbx_strlcpy, CUID_LEN. simpl Nat.pred. now apply str_take_all. Qed.

Lemma atoi_int (z : Z) : is_int z -> atoi z = z.
Proof.
  intros H. unfold atoi. rewrite <- (int_wrap_id z H) at 2. f_equal.
  unfold is_int, INT_MIN, INT_MAX, LONG_MIN, LONG_MAX in *. lia.
Qed.

Lemma zbx_cuid_compare_differ (tail : string -> string -> bool) (a b : string) :
  a <> b -> zbx_cuid_compare tail a b = false.
Proof.
  intros H. unfold zbx_cuid_compare.
  destruct (String.eqb_spec a b) as [E|_]; [contradiction|reflexivity].
Qed.

Lemma zbx_cuid_compare_same (tail : string -> string -> bool) (a : string) :
  String.length a = 25%nat -> zbx_cuid_compare tail a a = true.
Proof.
  intros H. unfold zbx_cuid_compare. rewrite String.eqb_refl, H. reflexivity.
Qed.

Lemma zbx_cuid_compare_true (tail : string -> string -> bool) (a b : string) :
  zbx_cuid_compare tail a b = true -> a = b.
Proof.
  unfold zbx_cuid_compare. intros H. apply andb_true_iff in H.
  apply String.eqb_eq. exact (proj1 H).
Qed.

Lemma str_empty_false (s : string) : s <> EmptyString -> str_empty s = false.
Proof. destruct s; simpl; congruence. Qed.

Lemma str_empty_true_iff (s : string) : str_empty s = true <-> s = EmptyString.
Proof. destruct s; simpl; split; congruence. Qed.

(** ** The error latch *)

Lemma ha_set_error_fresh (info : zbx_ha_info_t) (msg : string) :
  ha_status info <> ZBX_NODE_STATUS_ERROR ->
  ha_status (ha_set_error info msg) = ZBX_NODE_STATUS_ERROR
  /\ error (ha_set_error info msg) = Some msg.
Proof.
  intros H. unfold ha_set_error.
  destruct (Z.eqb_spec (ha_status info) ZBX_NODE_STATUS_ERROR); [contradiction|].
  split; reflexivity.
Qed.

Lemma ha_set_error_latched (info : zbx_ha_info_t) (msg : string) :
  ha_status info = ZBX_NODE_STATUS_ERROR -> ha_set_error info msg = info.
Proof. intros H. unfold ha_set_error. rewrite H. reflexivity. Qed.

Lemma ha_set_error_status (info : zbx_ha_info_t) (msg : string) :
  ha_status (ha_set_error info msg) = ZBX_NODE_STATUS_ERROR.
Proof.
  unfold ha_set_error.
  destruct (Z.eqb_spec (ha_status info) ZBX_NODE_STATUS_ERROR); auto.
Qed.

(** C5. Once the status is error, any further sequence of calls that set an
    error leaves the record as it is: the stored message and the error
    status are those of the first error. *)
Theorem ha_set_error_sticky (info : zbx_ha_info_t) (msgs : list string) :
  ha_status info = ZBX_NODE_STATUS_ERROR ->
  fold_left ha_set_error msgs info = info
  /\ error (fold_left ha_set_error msgs info) = error info
  /\ ha_status (fold_left ha_set_error msgs info) = ZBX_NODE_STATUS_ERROR.
Proof.
  intros H.
  assert (E : fold_left ha_set_error msgs info = info).
  { induction msgs as [|m msgs IH]; simpl; [reflexivity|].
    rewrite (ha_set_error_latched info m H). exact IH. }
  rewrite E. auto.
Qed.

(** The first message survives whatever is reported after it. *)
Lemma ha_set_error_first_wins (info : zbx_ha_info_t) (msg : string) (msgs : list string) :
  ha_status info <> ZBX_NODE_STATUS_ERROR ->
  error (fold_left ha_set_error msgs (ha_set_error info msg)) = Some msg.
Proof.
  intros H. destruct (ha_set_error_fresh info msg H) as [Hs He].
  assert (E : fold_left ha_set_error msgs (ha_set_error info msg) = ha_set_error info msg).
  { induction msgs as [|m msgs IH]; simpl; [reflexivity|].
    rewrite (ha_set_error_latched _ m Hs). exact IH. }
  rewrite E. exact He.
Qed.

(** ** Standalone admission *)

Lemma ha_is_available_iff (info : zbx_ha_info_t) (lastaccess db_time : Z) :
  is_int (lastaccess + failover_delay info) ->
  ha_is_available info lastaccess db_time = SUCCEED
  <-> lastaccess + failover_delay info > db_time.
Proof.
  intros Hr. unfold ha_is_available, int_add. rewrite (int_wrap_id _ Hr).
  destruct (Z.leb_spec (lastaccess + failover_delay info) db_time); split; intros;
    try congruence; try lia.
Qed.

Lemma standalone_step_blocks (info : zbx_ha_info_t) (db_time : Z) (n : zbx_ha_node_t) :
  is_int (node_lastaccess n + failover_delay info) ->
  (negb (str_empty (node_name n))
   && (negb (node_status n =? ZBX_NODE_STATUS_STOPPED)
       && ret_eqb (ha_is_available info (node_lastaccess n) db_time) SUCCEED) = true)
  <-> blocks_standalone (failover_delay info) db_time n.
Proof.
  intros Hr. unfold blocks_standalone.
  rewrite !andb_true_iff, !negb_true_iff.
  pose proof (ha_is_available_iff info (node_lastaccess n) db_time Hr) as Ha.
  split.
  - intros (He & Hs & Hv). repeat split.
    + intros E. apply str_empty_true_iff in E. congruence.
    + apply Z.eqb_neq. exact Hs.
    + apply Ha. destruct (ha_is_available info (node_lastaccess n) db_time);
        simpl in Hv; congruence.
  - intros (He & Hs & Hv). repeat split.
    + now apply str_empty_false.
    + now apply Z.eqb_neq.
    + apply Ha in Hv. rewrite Hv. reflexivity.
Qed.

(** C2, as the code has it.  With no overflow in the lease sums and no error
    latched yet, the standalone check succeeds exactly when no node with a
    non-empty name has a status other than stopped and a lease that has not
    run out; it then leaves the record alone.  Otherwise it fails and
    latches the error naming the first such node, in the order of the list,
    with the text of its status. *)
Theorem ha_check_standalone_config_spec (info : zbx_ha_info_t)
    (nodes : list zbx_ha_node_t) (db_time : Z) :
  ha_status info <> ZBX_NODE_STATUS_ERROR ->
  (forall n, In n nodes -> is_int (node_lastaccess n + failover_delay info)) ->
  (fst (ha_check_standalone_config info nodes db_time) = SUCCEED
   <-> forall n, In n nodes -> ~ blocks_standalone (failover_delay info) db_time n)
  /\ (fst (ha_check_standalone_config info nodes db_time) = SUCCEED ->
      snd (ha_check_standalone_config info nodes db_time) = info)
  /\ (fst (ha_check_standalone_config info nodes db_time) = FAIL ->
      exists before n after,
        nodes = (before ++ n :: after)%list
        /\ (forall m, In m before -> ~ blocks_standalone (failover_delay info) db_time m)
        /\ blocks_standalone (failover_delay info) db_time n
        /\ ha_status (snd (ha_check_standalone_config info nodes db_time))
           = ZBX_NODE_STATUS_ERROR
        /\ error (snd (ha_check_standalone_config info nodes db_time))
           = Some (standalone_error n)).
Proof.
  intros Hst Hr. induction nodes as [|n rest IH].
  - simpl. repeat split; auto; try congruence.
  - assert (Hn : is_int (node_lastaccess n + failover_delay info))
      by (apply Hr; left; reflexivity).
    assert (Hrest : forall m, In m rest -> is_int (node_lastaccess m + failover_delay info))
      by (intros m Hm; apply Hr; right; exact Hm).
    specialize (IH Hrest). destruct IH as (IH1 & IH2 & IH3).
    pose proof (standalone_step_blocks info db_time n Hn) as Hb.
    simpl ha_check_standalone_config.
    destruct (str_empty (node_name n)) eqn:En; simpl negb in Hb; simpl andb in Hb.
    + assert (Hnb : ~ blocks_standalone (failover_delay info) db_time n)
        by (intros B; apply Hb in B; discriminate).
      split; [|split].
      * rewrite IH1. split.
        -- intros H m [<-|Hm]; auto.
        -- intros H m Hm. apply H. right. exact Hm.
      * exact IH2.
      * intros F. destruct (IH3 F) as (before & x & after & -> & Hbef & Hx & Hs & He).
        exists (n :: before), x, after.
        split; [reflexivity|]. split; [|split; [exact Hx|split; [exact Hs|exact He]]].
        intros m [<-|Hm]; auto.
    + destruct (negb (node_status n =? ZBX_NODE_STATUS_STOPPED)
                && ret_eqb (ha_is_available info (node_lastaccess n) db_time) SUCCEED) eqn:Ec.
      * assert (B : blocks_standalone (failover_delay info) db_time n)
          by (apply Hb; reflexivity).
        simpl fst. simpl snd. split; [|split].
        -- split; [discriminate|]. intros H. exfalso. apply (H n); [left; reflexivity|exact B].
        -- discriminate.
        -- intros _. exists [], n, rest.
           destruct (ha_set_error_fresh info (standalone_error n) Hst) as [Hs He].
           split; [reflexivity|]. split; [intros m []|].
           split; [exact B|]. split; [exact Hs|exact He].
      * assert (Hnb : ~ blocks_standalone (failover_delay info) db_time n)
          by (intros B; apply Hb in B; discriminate).
        split; [|split].
        -- rewrite IH1. split.
           ++ intros H m [<-|Hm]; auto.
           ++ intros H m Hm. apply H. right. exact Hm.
        -- exact IH2.
        -- intros F. destruct (IH3 F) as (before & x & after & -> & Hbef & Hx & Hs & He).
           exists (n :: before), x, after.
           split; [reflexivity|]. split; [|split; [exact Hx|split; [exact Hs|exact He]]].
           intros m [<-|Hm]; auto.
Qed.

(** ** The receiver of status notifications *)

Lemma recv_loop_quiet (incoming : list recv_event) (now_end : Z) (st : recv_statics)
    (err : option string) :
  Forall (quiet ZBX_NODE_STATUS_ACTIVE) incoming ->
  exists err',
    recv_loop incoming now_end st ZBX_NODE_STATUS_ACTIVE err
    = LoopDrained (mk_statics (last_hb st) (last_delay (ha_failover_delay st) incoming))
        ZBX_NODE_STATUS_ACTIVE err' now_end.
Proof.
  revert st err. induction incoming as [|ev rest IH]; intros st err Hq.
  - exists err. destruct st; reflexivity.
  - inversion Hq as [|? ? Hev Hrest]; subst.
    destruct ev as [|[s d e| |] now]; simpl in Hev; try contradiction.
    + subst s. simpl recv_loop. simpl last_delay.
      destruct (IH (mk_statics (last_hb st) d) e Hrest) as [err' E].
      exists err'. exact E.
    + simpl recv_loop. simpl last_delay.
      destruct (IH st err Hrest) as [err' E]. exists err'. exact E.
Qed.

(** Before any heartbeat or change of status has been recorded, a call that
    receives nothing returns the status it was given, however late it is. *)
Lemma recv_status_before_first_heartbeat (cfg : option string) (now : Z)
    (err : option string) :
  zbx_ha_recv_status cfg recv_statics_init [] now ZBX_NODE_STATUS_ACTIVE err
  = mk_recv_result SUCCEED ZBX_NODE_STATUS_ACTIVE err recv_statics_init.
Proof.
  unfold zbx_ha_recv_status. cbn [recv_loop recv_statics_init last_hb].
  rewrite Z.eqb_refl. cbn [negb]. rewrite andb_false_r. reflexivity.
Qed.

(** C9. On a cluster member, when the receive loop ends with the status
    active and a recorded heartbeat time, the call returns standby exactly
    when the last heartbeat is at least failover_delay - 5 seconds old or
    the time read is earlier than the recorded heartbeat time; so a clock
    that stepped backwards forces standby as well. *)
Theorem recv_status_clock_step_back (cfg : option string) (st : recv_statics)
    (incoming : list recv_event) (now_end : Z) (status : Z) (err : option string)
    (st' : recv_statics) (err' : option string) (now : Z) :
  recv_loop incoming now_end st status err
  = LoopDrained st' ZBX_NODE_STATUS_ACTIVE err' now ->
  ZBX_HA_IS_CLUSTER cfg = true ->
  last_hb st' <> 0 ->
  (recv_ha_status (zbx_ha_recv_status cfg st incoming now_end status err)
   = ZBX_NODE_STATUS_STANDBY
   <-> (last_hb st' + ha_failover_delay st' - ZBX_HA_POLL_PERIOD <= now
        \/ now < last_hb st'))
  /\ (now < last_hb st' ->
      zbx_ha_recv_status cfg st incoming now_end status err
      = mk_recv_result SUCCEED ZBX_NODE_STATUS_STANDBY err' st').
Proof.
  intros E Hc Hhb. unfold zbx_ha_recv_status. rewrite E, Hc, Z.eqb_refl.
  destruct (Z.eqb_spec (last_hb st') 0) as [E0|_]; [contradiction|].
  cbn [andb negb].
  destruct (Z.leb_spec (last_hb st' + ha_failover_delay st' - ZBX_HA_POLL_PERIOD) now)
    as [Hle|Hgt];
    destruct (Z.ltb_spec now (last_hb st')) as [Hlt|Hge]; cbn [orb recv_ha_status].
  - split; [split; auto|reflexivity].
  - split; [split; auto|intros; lia].
  - split; [split; auto|reflexivity].
  - split; [|intros; lia]. split; [intros H; discriminate H|intros [H|H]; lia].
Qed.

(** ** The driver and the node list *)

Lemma insert_row_perm (r : DB_ROW) (rows : list DB_ROW) :
  Permutation (insert_row r rows) (r :: rows).
Proof.
  induction rows as [|x rest IH]; simpl; [apply Permutation_refl|].
  destruct (String.leb (row_ha_nodeid r) (row_ha_nodeid x)); [apply Permutation_refl|].
  apply perm_trans with (x :: r :: rest); [now apply perm_skip|apply perm_swap].
Qed.

Lemma order_by_nodeid_perm (rows : list DB_ROW) :
  Permutation (order_by_nodeid rows) rows.
Proof.
  induction rows as [|x rest IH]; simpl; [apply perm_nil|].
  apply perm_trans with (x :: order_by_nodeid rest);
    [apply insert_row_perm|now apply perm_skip].
Qed.

Lemma insert_row_hdrel (a r : DB_ROW) (rows : list DB_ROW) :
  nodeid_le a r -> HdRel nodeid_le a rows -> HdRel nodeid_le a (insert_row r rows).
Proof.
  intros Har Hd. destruct rows as [|x rest]; simpl.
  - constructor. exact Har.
  - destruct (String.leb (row_ha_nodeid r) (row_ha_nodeid x)); constructor;
      [exact Har|now inversion Hd].
Qed.

Lemma insert_row_sorted (r : DB_ROW) (rows : list DB_ROW) :
  Sorted nodeid_le rows -> Sorted nodeid_le (insert_row r rows).
Proof.
  induction rows as [|x rest IH]; intros Hs; simpl.
  - repeat constructor.
  - destruct (String.leb (row_ha_nodeid r) (row_ha_nodeid x)) eqn:E.
    + constructor; [exact Hs|constructor; exact E].
    + inversion Hs as [|? ? Hrest Hhd]; subst. constructor; [now apply IH|].
      apply insert_row_hdrel; [|exact Hhd].
      destruct (String.leb_total (row_ha_nodeid r) (row_ha_nodeid x)) as [H|H];
        [congruence|exact H].
Qed.

Lemma order_by_nodeid_sorted (rows : list DB_ROW) :
  Sorted nodeid_le (order_by_nodeid rows).
Proof.
  induction rows as [|x rest IH]; simpl; [constructor|now apply insert_row_sorted].
Qed.

Lemma order_by_nodeid_In (rows : list DB_ROW) (r : DB_ROW) :
  In r (order_by_nodeid rows) <-> In r rows.
Proof.
  split; apply Permutation_in;
    [apply order_by_nodeid_perm|apply Permutation_sym, order_by_nodeid_perm].
Qed.

Lemma order_by_nodeid_length (rows : list DB_ROW) :
  List.length (order_by_nodeid rows) = List.length rows.
Proof. apply Permutation_length, order_by_nodeid_perm. Qed.

Lemma driver_call_ok (c : db_call) (w : world) :
  outcome 0 w = ZBX_DB_OK ->
  driver_call c w = (ZBX_DB_OK, after_ok c w).
Proof.
  unfold outcome, driver_call, after_ok. destruct w as [tbl tx cfg clk fl tr am ap].
  cbn [faults trace]. destruct fl as [|f fs]; cbn [nth tl]; intros H; [reflexivity|].
  subst f. reflexivity.
Qed.

Lemma outcome_tl (k : nat) (c : db_call) (w : world) :
  outcome k (after_ok c w) = outcome (S k) w.
Proof.
  unfold outcome, after_ok. destruct w as [tbl tx cfg clk fl tr am ap]. cbn [faults set_trace set_faults].
  destruct fl as [|f fs]; cbn [tl nth]; [now destruct k|reflexivity].
Qed.

Lemma ha_db_get_nodes_ok (info : zbx_ha_info_t) (lock : bool) (w : world) :
  db_status info = ZBX_DB_OK ->
  outcome 0 w = ZBX_DB_OK ->
  ha_db_get_nodes info lock w
  = (SUCCEED, map node_of_row (order_by_nodeid (view w)), info,
     after_ok (CallSelectNodes lock) w).
Proof.
  intros Hdb Ho. unfold ha_db_get_nodes, ha_db_select. rewrite Hdb. cbn [db_ok negb].
  rewrite (driver_call_ok _ w Ho). reflexivity.
Qed.

Lemma ha_db_get_time_ok (info : zbx_ha_info_t) (w : world) :
  db_status info = ZBX_DB_OK ->
  outcome 0 w = ZBX_DB_OK ->
  ha_db_get_time info w
  = (SUCCEED, match config w with Some _ => atoi (clock w) | None => 0 end, info,
     after_ok CallSelectTime w).
Proof.
  intros Hdb Ho. unfold ha_db_get_time, ha_db_select. rewrite Hdb. cbn [db_ok negb].
  rewrite (driver_call_ok _ w Ho).
  change (config (after_ok CallSelectTime w)) with (config w).
  change (clock (after_ok CallSelectTime w)) with (clock w).
  destruct (config w); reflexivity.
Qed.

Lemma node_json_address (db_time : Z) (n : zbx_ha_node_t) :
  (String.length (node_address n ++ ":" ++ fmt_hu (node_port n)) <= 511)%nat ->
  In (ZBX_PROTO_TAG_ADDRESS, JsonString (node_address n ++ ":" ++ fmt_hu (node_port n)))
     (node_json db_time n).
Proof.
  intros H. unfold node_json, zbx_snprintf. cbn [Nat.pred].
  rewrite (str_take_all 511 _ H). cbn [In]. auto 10.
Qed.

Lemma string_length_append (a b : string) :
  String.length (a ++ b) = (String.length a + String.length b)%nat.
Proof. induction a as [|c a IH]; simpl; [reflexivity|now rewrite IH]. Qed.

(** C10. The read of the node list succeeds whenever the driver returns the
    rows, whatever their port columns hold; a row whose port text the parser
    rejects yields a node with port 0, and the document of GetNodes then
    shows its address followed by :0. *)
Theorem ha_db_get_nodes_port_fallback (info : zbx_ha_info_t) (lock : bool) (w : world) :
  db_status info = ZBX_DB_OK ->
  outcome 0 w = ZBX_DB_OK ->
  (exists info' w',
     ha_db_get_nodes info lock w
     = (SUCCEED, map node_of_row (order_by_nodeid (view w)), info', w'))
  /\ (forall r, In r (view w) -> is_ushort (row_port r) = None ->
        In (node_of_row r) (map node_of_row (order_by_nodeid (view w)))
        /\ node_port (node_of_row r) = 0
        /\ ((String.length (row_address r) <= 509)%nat ->
            forall db_time,
              In (ZBX_PROTO_TAG_ADDRESS, JsonString (row_address r ++ ":0"))
                 (node_json db_time (node_of_row r))))
  /\ (outcome 1 w = ZBX_DB_OK ->
      exists db_time info' w',
        ha_db_get_nodes_json info w
        = (SUCCEED, Some (map (node_json db_time) (map node_of_row (order_by_nodeid (view w)))),
           None, info', w')).
Proof.
  intros Hdb Ho. split; [|split].
  - rewrite (ha_db_get_nodes_ok info lock w Hdb Ho). eauto.
  - intros r Hin Hbad.
    assert (Hp : node_port (node_of_row r) = 0)
      by (unfold node_of_row; cbn [node_port]; now rewrite Hbad).
    split; [|split; [exact Hp|]].
    + apply in_map. apply order_by_nodeid_In. exact Hin.
    + intros Hlen db_time.
      pose proof (node_json_address db_time (node_of_row r)) as Hj.
      rewrite Hp in Hj. cbn [node_of_row node_address] in Hj.
      change (fmt_hu 0) with "0" in Hj. apply Hj.
      rewrite string_length_append. simpl String.length. lia.
  - intros Ho1. unfold ha_db_get_nodes_json. rewrite Hdb. cbn [db_ok negb].
    rewrite (ha_db_get_time_ok info w Hdb Ho).
    rewrite ha_db_get_nodes_ok; [|exact Hdb|rewrite outcome_tl; exact Ho1].
    eauto.
Qed.

(** ** GetNodes *)

Lemma node_json_renders (db_time : Z) (r : DB_ROW) :
  row_renders db_time r ->
  node_json db_time (node_of_row r) = GetNodes_object db_time r.
Proof.
  intros (Hid & (p & Hp & Hfmt) & Hlen & Hage).
  unfold node_json, GetNodes_object, node_of_row.
  cbn [node_ha_nodeid node_name node_status node_lastaccess node_address node_port].
  rewrite Hp, Hfmt, (zbx_strlcpy_cuid _ Hid).
  unfold zbx_snprintf, int_sub. cbn [Nat.pred].
  rewrite (str_take_all 511 _ Hlen), (int_wrap_id _ Hage). reflexivity.
Qed.

(** C7, as the code has it.  When both reads of the request succeed, the
    configuration table has its row, the database time fits an [int], and
    every row can be rendered without loss (in particular its port column
    is a port the parser accepts), the document holds one object per row,
    in the order of the node identifiers, with the row's identifier, name,
    status, lastaccess and address as host:port, the database time of the
    request, and as age that time minus the row's lastaccess. *)
Theorem ha_db_get_nodes_json_rows (info : zbx_ha_info_t) (w : world) :
  db_status info = ZBX_DB_OK ->
  outcome 0 w = ZBX_DB_OK ->
  outcome 1 w = ZBX_DB_OK ->
  config w <> None ->
  is_int (clock w) ->
  (forall r, In r (view w) -> row_renders (clock w) r) ->
  exists rows info' w',
    ha_db_get_nodes_json info w
    = (SUCCEED, Some (map (GetNodes_object (clock w)) rows), None, info', w')
    /\ Permutation rows (view w)
    /\ Sorted nodeid_le rows
    /\ ha_node w' = ha_node w.
Proof.
  intros Hdb Ho0 Ho1 Hcfg Hclock Hrows.
  exists (order_by_nodeid (view w)).
  unfold ha_db_get_nodes_json. rewrite Hdb. cbn [db_ok negb].
  rewrite (ha_db_get_time_ok info w Hdb Ho0).
  rewrite ha_db_get_nodes_ok; [|exact Hdb|rewrite outcome_tl; exact Ho1].
  destruct (config w) as [c|] eqn:Ec; [|congruence].
  rewrite (atoi_int _ Hclock).
  assert (Em : map (node_json (clock w)) (map node_of_row (order_by_nodeid (view w)))
               = map (GetNodes_object (clock w)) (order_by_nodeid (view w))).
  { rewrite map_map. apply map_ext_in.
    intros r Hin. apply node_json_renders. apply Hrows.
    exact (proj1 (order_by_nodeid_In _ _) Hin). }
  do 2 eexists. split; [|split; [|split]].
  - change (view (after_ok CallSelectTime w)) with (view w).
    rewrite Em. reflexivity.
  - apply order_by_nodeid_perm.
  - apply order_by_nodeid_sorted.
  - reflexivity.
Qed.

(** ** The exit update *)

Lemma apply_update_status_one (now : Z) (v : Z) (nodeid : string) (rows : list DB_ROW) :
  apply_stmt now (SqlUpdateNode false (Some v) [nodeid]) rows
  = map (fun r => if String.eqb (row_ha_nodeid r) nodeid then set_row_status v r else r) rows.
Proof.
  unfold apply_stmt, str_in. apply map_ext. intros r. cbn [existsb].
  rewrite orb_false_r. reflexivity.
Qed.

(** C8. On exit, a manager whose last status is neither active nor standby
    makes no driver call at all, so nothing is written.  A manager whose
    last status is active or standby, with the database answering, runs one
    transaction whose only statement sets the status of the row with its
    own identifier to stopped, and commits it. *)
Theorem ha_db_update_exit_status_spec (info : zbx_ha_info_t) (w : world) :
  (ha_status info <> ZBX_NODE_STATUS_ACTIVE ->
   ha_status info <> ZBX_NODE_STATUS_STANDBY ->
   ha_db_update_exit_status info w = (info, w))
  /\ (ha_status info = ZBX_NODE_STATUS_ACTIVE \/ ha_status info = ZBX_NODE_STATUS_STANDBY ->
      db_status info <> ZBX_DB_FAIL ->
      txn w = None ->
      faults w = [] ->
      ha_node (snd (ha_db_update_exit_status info w))
      = map (mark_stopped (ha_nodeid info)) (ha_node w)
      /\ exists calls,
          trace (snd (ha_db_update_exit_status info w)) = (trace w ++ calls)%list
          /\ filter is_txn_call calls
             = [ (CallBegin, ZBX_DB_OK);
                 (CallExecute
                    (SqlUpdateNode false (Some ZBX_NODE_STATUS_STOPPED) [ha_nodeid info]),
                  ZBX_DB_OK);
                 (CallCommit, ZBX_DB_OK) ]).
Proof.
  split.
  - intros Ha Hs. unfold ha_db_update_exit_status.
    destruct (Z.eqb_spec (ha_status info) ZBX_NODE_STATUS_ACTIVE); [contradiction|].
    destruct (Z.eqb_spec (ha_status info) ZBX_NODE_STATUS_STANDBY); [contradiction|].
    reflexivity.
  - intros Hst Hdb Htx Hf.
    destruct w as [tbl tx cfg clk fl tr am ap]. cbn [txn faults ha_node trace] in *. subst tx fl.
    destruct info as [nid st dbs fd la ot al nm er].
    cbn [ha_status db_status ha_nodeid] in *.
    unfold ha_db_update_exit_status. cbn [ha_status].
    assert (Eg : negb (st =? ZBX_NODE_STATUS_ACTIVE) && negb (st =? ZBX_NODE_STATUS_STANDBY)
                 = false).
    { destruct Hst as [-> | ->]; reflexivity. }
    rewrite Eg.
    destruct dbs; [| congruence |];
      (destruct (al =? ZBX_AUDITLOG_ENABLED) eqn:Eal;
       cbv [ha_db_begin DBconnect zbx_db_begin driver_call ha_db_lock_nodes ha_db_select
            ha_db_execute zbx_db_vexecute ha_flush_audit zbx_audit_flush_once
            zbx_audit_ha_update_field_int zbx_audit_ha_create_entry zbx_audit_add
            zbx_audit_init ha_db_commit zbx_db_commit set_db_status set_trace set_faults
            set_txn set_ha_node set_view set_audit_mode set_audit_pending view db_ok negb
            faults trace txn ha_node db_status ha_status ha_nodeid auditlog name audit_mode
            audit_pending clock config fst snd];
       rewrite ?Eal;
       cbv [driver_call set_db_status set_trace set_faults set_txn set_ha_node
            set_audit_pending view db_ok negb faults trace txn ha_node db_status
            audit_pending clock fst snd];
       (split;
        [ apply apply_update_status_one
        | eexists; split;
          [ rewrite <- !app_assoc; reflexivity | reflexivity ] ])).
Qed.

(** ** RemoveNode *)

Lemma outcome_after (k : nat) (w w' : world) :
  faults w' = tl (faults w) -> outcome k w' = outcome (S k) w.
Proof.
  unfold outcome. intros ->. destruct (faults w) as [|f fs]; cbn [tl nth];
    [now destruct k|reflexivity].
Qed.

Lemma driver_call_frame (c : db_call) (w : world) :
  ha_node (snd (driver_call c w)) = ha_node w
  /\ txn (snd (driver_call c w)) = txn w.
Proof. unfold driver_call. destruct (faults w); split; reflexivity. Qed.

Lemma ha_db_rollback_frame (info : zbx_ha_info_t) (w : world) :
  ha_node (snd (ha_db_rollback info w)) = ha_node w
  /\ txn (snd (ha_db_rollback info w)) = None.
Proof.
  unfold ha_db_rollback, zbx_db_rollback.
  destruct (driver_call CallRollback w) as [r w1] eqn:E.
  pose proof (driver_call_frame CallRollback w) as [Hn _]. rewrite E in Hn. cbn [snd] in Hn.
  destruct r; cbn [snd]; split; try reflexivity; exact Hn.
Qed.

Lemma ha_db_begin_ok (info : zbx_ha_info_t) (w : world) :
  db_status info = ZBX_DB_OK ->
  outcome 0 w = ZBX_DB_OK ->
  ha_db_begin info w = (info, set_txn (Some (view w)) (after_ok CallBegin w)).
Proof.
  intros Hdb Ho. unfold ha_db_begin, zbx_db_begin. rewrite Hdb. cbn [db_ok].
  rewrite (driver_call_ok _ w Ho). cbn [db_ok db_status set_db_status].
  destruct info; cbn in Hdb; subst; reflexivity.
Qed.

Lemma remove_index_range (index n : Z) :
  is_int index -> 0 <= n <= INT_MAX ->
  ((int_sub index 1 <? 0) || (n <=? int_sub index 1) = false <-> 1 <= index <= n)
  /\ (1 <= index -> int_sub index 1 = index - 1).
Proof.
  unfold is_int, INT_MIN, INT_MAX. intros Hi Hn. split.
  - destruct (Z.eq_dec index (-2147483648)) as [->|Hne].
    + change (int_sub (-2147483648) 1) with 2147483647.
      rewrite orb_false_iff, Z.ltb_ge, Z.leb_gt. lia.
    + unfold int_sub. rewrite int_wrap_id by (unfold is_int, INT_MIN, INT_MAX; lia).
      rewrite orb_false_iff, Z.ltb_ge, Z.leb_gt. lia.
  - intros H1. unfold int_sub. apply int_wrap_id. unfold is_int, INT_MIN, INT_MAX. lia.
Qed.

Lemma delete_node_not_in (r : DB_ROW) (rows : list DB_ROW) :
  ~ In r (delete_node (row_ha_nodeid r) rows).
Proof.
  unfold delete_node. intros H. apply filter_In in H. destruct H as [_ H].
  rewrite String.eqb_refl in H. discriminate.
Qed.

(** C6. With the node list read, RemoveNode answers by the 1-based index
    into the list ordered by identifier: out of range, active and standby
    are refused with their messages and the table is left as it was; for any
    other row, with the database answering, the row of that identifier is
    deleted and no error is returned. *)
Theorem ha_remove_node_by_index_spec (info : zbx_ha_info_t) (index : Z) (w : world) :
  db_status info = ZBX_DB_OK ->
  txn w = None ->
  outcome 0 w = ZBX_DB_OK ->
  outcome 1 w = ZBX_DB_OK ->
  is_int index ->
  Z.of_nat (List.length (ha_node w)) <= INT_MAX ->
  (forall r, In r (ha_node w) -> (String.length (row_ha_nodeid r) <= 25)%nat) ->
  let rows := order_by_nodeid (ha_node w) in
  let result := ha_remove_node_by_index info index w in
  let ret := fst (fst (fst result)) in
  let err := snd (fst (fst result)) in
  let w' := snd result in
  (~ 1 <= index <= Z.of_nat (List.length rows) ->
   ret = FAIL /\ err = Some "node index out of range" /\ ha_node w' = ha_node w)
  /\ (forall r,
        1 <= index ->
        nth_error rows (Z.to_nat (index - 1)) = Some r ->
        (row_status r = ZBX_NODE_STATUS_ACTIVE ->
         ret = FAIL /\ err = Some "node is active" /\ ha_node w' = ha_node w)
        /\ (row_status r = ZBX_NODE_STATUS_STANDBY ->
            ret = FAIL /\ err = Some "node is standby" /\ ha_node w' = ha_node w)
        /\ (row_status r <> ZBX_NODE_STATUS_ACTIVE ->
            row_status r <> ZBX_NODE_STATUS_STANDBY ->
            faults w = [] ->
            ret = SUCCEED /\ err = None
            /\ ha_node w' = delete_node (row_ha_nodeid r) (ha_node w)
            /\ ~ In r (ha_node w'))).
Proof.
  intros Hdb Htx Ho0 Ho1 Hidx Hlen Hids rows result ret err w'.
  assert (Hview : view w = ha_node w) by (unfold view; now rewrite Htx).
  set (w1 := set_txn (Some (view w)) (after_ok CallBegin w)).
  set (w2 := after_ok (CallSelectNodes false) w1).
  set (nodes := map node_of_row rows).
  assert (Hn1 : ha_node w2 = ha_node w) by reflexivity.
  assert (Hnlen : Z.of_nat (List.length nodes) = Z.of_nat (List.length rows))
    by (unfold nodes; now rewrite length_map).
  assert (Hrlen : 0 <= Z.of_nat (List.length rows) <= INT_MAX).
  { unfold rows. rewrite order_by_nodeid_length. lia. }
  assert (Eres : result
    = let '(ret, err, info5, w5) :=
        let index' := int_sub index 1 in
        if (index' <? 0) || (Z.of_nat (List.length nodes) <=? index')
        then (FAIL, Some "node index out of range", info, w2)
        else
          match nth_error nodes (Z.to_nat index') with
          | None => (FAIL, Some "node index out of range", info, w2)
          | Some n =>
              if (node_status n =? ZBX_NODE_STATUS_ACTIVE)
                 || (node_status n =? ZBX_NODE_STATUS_STANDBY)
              then (FAIL, Some ("node is " ++ zbx_ha_status_str (node_status n)), info, w2)
              else
                match ha_db_execute info (SqlDeleteNode (node_ha_nodeid n)) w2 with
                | (FAIL, info3, w3) => (FAIL, Some "database connection problem", info3, w3)
                | (SUCCEED, info3, w3) =>
                    let w4 :=
                      zbx_audit_ha_create_entry AUDIT_ACTION_DELETE (node_ha_nodeid n)
                        (node_name n) (zbx_audit_init (auditlog info3) w3) in
                    let '(info4, w4') := ha_flush_audit info3 w4 in
                    (SUCCEED, @None string, info4, w4')
                end
          end in
      let '(info6, w6) := ha_remove_node_out ret info5 w5 in
      (ret, err, info6, w6)).
  { unfold result, ha_remove_node_by_index.
    rewrite (ha_db_begin_ok info w Hdb Ho0). rewrite Hdb. cbn [db_ok negb].
    rewrite (ha_db_get_nodes_ok info false _ Hdb)
      by (rewrite (outcome_after 0 w) by reflexivity; exact Ho1).
    unfold nodes, rows. rewrite <- Hview. reflexivity. }
  destruct (remove_index_range index (Z.of_nat (List.length rows)) Hidx Hrlen) as [Hrange Hsub].
  assert (Hrej : forall msg : string,
             ha_node (snd (let '(info6, w6) := ha_remove_node_out FAIL info w2 in
                           (FAIL, Some msg, info6, w6))) = ha_node w).
  { intros msg. cbn [ha_remove_node_out].
    pose proof (ha_db_rollback_frame info w2) as [Hr _].
    destruct (ha_db_rollback info w2) as [i6 w6]. cbn [snd] in *. now rewrite Hr. }
  split.
  - intros Hout.
    assert (Ec : (int_sub index 1 <? 0) || (Z.of_nat (List.length nodes) <=? int_sub index 1)
                 = true).
    { rewrite Hnlen. apply not_false_is_true. intros E. apply Hrange in E. contradiction. }
    unfold ret, err, w'. rewrite Eres. cbv zeta. rewrite Ec.
    specialize (Hrej "node index out of range").
    cbn [ha_remove_node_out] in *.
    destruct (ha_db_rollback info w2) as [i6 w6]. cbn [fst snd] in *. auto.
  - intros r H1 Hnth.
    assert (Hin : In r (ha_node w)).
    { apply (proj1 (order_by_nodeid_In _ _)). eapply nth_error_In. exact Hnth. }
    assert (Hr : 1 <= index <= Z.of_nat (List.length rows)).
    { split; [exact H1|].
      assert (Z.to_nat (index - 1) < List.length rows)%nat
        by (apply nth_error_Some; congruence).
      lia. }
    assert (Ec : (int_sub index 1 <? 0) || (Z.of_nat (List.length nodes) <=? int_sub index 1)
                 = false) by (rewrite Hnlen; apply Hrange; exact Hr).
    assert (Hnode : nth_error nodes (Z.to_nat (int_sub index 1)) = Some (node_of_row r)).
    { rewrite (Hsub H1). unfold nodes. now apply map_nth_error. }
    assert (Eres' : result
      = let '(ret, err, info5, w5) :=
          if (row_status r =? ZBX_NODE_STATUS_ACTIVE)
             || (row_status r =? ZBX_NODE_STATUS_STANDBY)
          then (FAIL, Some ("node is " ++ zbx_ha_status_str (row_status r)), info, w2)
          else
            match ha_db_execute info (SqlDeleteNode (row_ha_nodeid r)) w2 with
            | (FAIL, info3, w3) => (FAIL, Some "database connection problem", info3, w3)
            | (SUCCEED, info3, w3) =>
                let w4 :=
                  zbx_audit_ha_create_entry AUDIT_ACTION_DELETE (row_ha_nodeid r)
                    (row_name r) (zbx_audit_init (auditlog info3) w3) in
                let '(info4, w4') := ha_flush_audit info3 w4 in
                (SUCCEED, @None string, info4, w4')
            end in
        let '(info6, w6) := ha_remove_node_out ret info5 w5 in
        (ret, err, info6, w6)).
    { rewrite Eres. cbv zeta. rewrite Ec, Hnode.
      cbn [node_of_row node_status node_ha_nodeid node_name].
      rewrite (zbx_strlcpy_cuid _ (Hids r Hin)). reflexivity. }
    split; [|split].
    + intros Hs. unfold ret, err, w'. rewrite Eres', Hs. rewrite Z.eqb_refl. cbn [orb].
      change (zbx_ha_status_str ZBX_NODE_STATUS_ACTIVE) with "active".
      specialize (Hrej "node is active"). cbn [ha_remove_node_out] in *.
      destruct (ha_db_rollback info w2) as [i6 w6]. cbn [fst snd] in *. auto.
    + intros Hs. unfold ret, err, w'. rewrite Eres', Hs.
      change (ZBX_NODE_STATUS_STANDBY =? ZBX_NODE_STATUS_ACTIVE) with false.
      change (ZBX_NODE_STATUS_STANDBY =? ZBX_NODE_STATUS_STANDBY) with true. cbn [orb].
      change (zbx_ha_status_str ZBX_NODE_STATUS_STANDBY) with "standby".
      specialize (Hrej "node is standby"). cbn [ha_remove_node_out] in *.
      destruct (ha_db_rollback info w2) as [i6 w6]. cbn [fst snd] in *. auto.
    + intros Hna Hns Hf.
      assert (Es : (row_status r =? ZBX_NODE_STATUS_ACTIVE)
                   || (row_status r =? ZBX_NODE_STATUS_STANDBY) = false).
      { apply orb_false_iff. split; now apply Z.eqb_neq. }
      assert (Ew : ret = SUCCEED /\ err = None
                   /\ ha_node w' = delete_node (row_ha_nodeid r) (ha_node w)).
      { unfold ret, err, w'. rewrite Eres', Es. unfold w2, w1. rewrite Hview.
        destruct w as [tbl tx cfg clk fl tr am ap]. cbn [txn faults ha_node] in *. subst tx fl.
        destruct info as [nid st dbs fd la ot al nm er]. cbn [db_status] in Hdb. subst dbs.
        destruct (al =? ZBX_AUDITLOG_ENABLED) eqn:Eal;
          cbv [ha_db_execute zbx_db_vexecute driver_call after_ok ha_flush_audit
               zbx_audit_flush_once zbx_audit_ha_create_entry zbx_audit_add zbx_audit_init
               ha_remove_node_out ha_db_commit zbx_db_commit set_db_status set_trace
               set_faults set_txn set_ha_node set_view set_audit_mode set_audit_pending
               view db_ok negb faults trace txn ha_node db_status auditlog audit_mode
               audit_pending clock tl fst snd apply_stmt delete_node];
          rewrite ?Eal;
          cbv [driver_call set_db_status set_trace set_faults set_txn set_ha_node
               set_audit_pending view db_ok negb faults trace txn ha_node db_status
               audit_pending fst snd];
          auto. }
      destruct Ew as (E1 & E2 & E3). repeat split; auto.
      rewrite E3. apply delete_node_not_in.
Qed.

(** ** The tick *)

Lemma set_db_status_same (info : zbx_ha_info_t) :
  set_db_status (db_status info) info = info.
Proof. destruct info; reflexivity. Qed.

Lemma ha_db_update_config_ok (info : zbx_ha_info_t) (w : world) (cfg : config_row) (v : Z) :
  db_status info = ZBX_DB_OK ->
  outcome 0 w = ZBX_DB_OK ->
  config w = Some cfg ->
  is_time_suffix (cfg_ha_failover_delay cfg) = Some v ->
  ha_db_update_config info w
  = (SUCCEED, set_auditlog (cfg_auditlog_enabled cfg) (set_failover_delay v info),
     after_ok CallSelectConfig w).
Proof.
  intros Hdb Ho Hc Hv. unfold ha_db_update_config, ha_db_select. rewrite Hdb. cbn [db_ok negb].
  rewrite (driver_call_ok _ w Ho).
  change (config (after_ok CallSelectConfig w)) with (config w). rewrite Hc, Hv. reflexivity.
Qed.

Lemma ha_db_execute_ok (info : zbx_ha_info_t) (s : sql_stmt) (w : world) :
  db_status info = ZBX_DB_OK ->
  outcome 0 w = ZBX_DB_OK ->
  ha_db_execute info s w
  = (SUCCEED, info,
     set_view (apply_stmt (clock w) s (view w)) (after_ok (CallExecute s) w)).
Proof.
  intros Hdb Ho. unfold ha_db_execute, zbx_db_vexecute. rewrite Hdb. cbn [db_ok negb].
  rewrite (driver_call_ok _ w Ho). cbn [db_ok]. rewrite <- Hdb at 1.
  rewrite set_db_status_same. reflexivity.
Qed.

Lemma ha_flush_audit_ok (info : zbx_ha_info_t) (w : world) :
  db_status info = ZBX_DB_OK ->
  outcome 0 w = ZBX_DB_OK ->
  ha_flush_audit info w
  = (info,
     if audit_mode w =? ZBX_AUDITLOG_ENABLED
     then set_audit_pending [] (after_ok (CallAuditFlush (audit_pending w)) w)
     else set_audit_pending [] w).
Proof.
  intros Hdb Ho. unfold ha_flush_audit, zbx_audit_flush_once. rewrite Hdb. cbn [db_ok negb].
  destruct (audit_mode w =? ZBX_AUDITLOG_ENABLED).
  - rewrite (driver_call_ok _ w Ho). rewrite <- Hdb at 1.
    now rewrite set_db_status_same.
  - rewrite <- Hdb at 1. now rewrite set_db_status_same.
Qed.

Lemma ha_db_commit_ok (info : zbx_ha_info_t) (w : world) :
  db_status info = ZBX_DB_OK ->
  outcome 0 w = ZBX_DB_OK ->
  ha_db_commit info w
  = (info, set_txn None (set_ha_node (view w) (after_ok CallCommit w))).
Proof.
  intros Hdb Ho. unfold ha_db_commit, zbx_db_commit. rewrite Hdb. cbn [db_ok].
  rewrite (driver_call_ok _ w Ho). cbn [db_ok db_status set_db_status].
  rewrite <- Hdb at 1. now rewrite set_db_status_same.
Qed.

Tactic Notation "wsimpl" "in" hyp(H) :=
  cbv [ha_node txn config clock faults trace audit_mode audit_pending
       set_ha_node set_txn set_faults set_trace set_audit_mode set_audit_pending
       view set_view after_ok tl
       ha_nodeid ha_status db_status failover_delay lastaccess_active offline_ticks_active
       auditlog name error
       set_ha_nodeid set_ha_status set_db_status set_failover_delay set_lastaccess_active
       set_offline_ticks_active set_auditlog set_error
       db_ok negb andb orb fst snd] in H.

Tactic Notation "nsimpl" "in" hyp(H) :=
  cbn [node_ha_nodeid node_ha_sessionid node_name node_address node_port node_status
       node_lastaccess node_of_row] in H.

Tactic Notation "asimpl" "in" hyp(H) :=
  cbv [zbx_audit_ha_update_field_int zbx_audit_ha_create_entry zbx_audit_add zbx_audit_init
       set_audit_mode set_audit_pending audit_mode audit_pending
       ha_node txn config clock faults trace] in H.

Lemma ha_check_nodes_failover_run (info : zbx_ha_info_t) (w : world) (a b : DB_ROW)
    (cfg : config_row) (i : nat) :
  ZBX_HA_IS_CLUSTER CONFIG_HA_NODE_NAME = true ->
  row_name a <> EmptyString ->
  row_ha_nodeid b = ha_nodeid info ->
  row_ha_nodeid a <> row_ha_nodeid b ->
  (String.length (row_ha_nodeid a) <= 25)%nat ->
  (String.length (row_ha_nodeid b) <= 25)%nat ->
  String.length (row_ha_sessionid b) = 25%nat ->
  row_ha_sessionid b = ha_sessionid ->
  row_status b = ZBX_NODE_STATUS_STANDBY ->
  ha_status info = ZBX_NODE_STATUS_STANDBY ->
  config w = Some cfg ->
  is_time_suffix (cfg_ha_failover_delay cfg) = Some 10 ->
  db_status info = ZBX_DB_OK ->
  txn w = None ->
  faults w = [] ->
  lastaccess_active info = row_lastaccess a ->
  3 <= offline_ticks_active info < INT_MAX ->
  ha_find_node_by_name (map node_of_row (order_by_nodeid (ha_node w))) (name info)
  = Some (node_of_row b) ->
  find_active (map node_of_row (order_by_nodeid (ha_node w))) 0 = Some (i, node_of_row a) ->
  nth_error (map node_of_row (order_by_nodeid (ha_node w))) i = Some (node_of_row a) ->
  let upd_own := SqlUpdateNode true (Some ZBX_NODE_STATUS_ACTIVE) [row_ha_nodeid b] in
  let upd_peer := SqlUpdateNode false (Some ZBX_NODE_STATUS_UNAVAILABLE) [row_ha_nodeid a] in
  ha_status (fst (ha_check_nodes info w)) = ZBX_NODE_STATUS_ACTIVE
  /\ ha_node (snd (ha_check_nodes info w))
     = apply_stmt (clock w) upd_peer (apply_stmt (clock w) upd_own (ha_node w))
  /\ txn (snd (ha_check_nodes info w)) = None
  /\ exists calls,
      trace (snd (ha_check_nodes info w)) = (trace w ++ calls)%list
      /\ filter is_txn_call calls
         = [ (CallBegin, ZBX_DB_OK); (CallExecute upd_own, ZBX_DB_OK);
             (CallExecute upd_peer, ZBX_DB_OK); (CallCommit, ZBX_DB_OK) ].
Proof.
  intros Hcl Hnae Hidb Hidab Hla Hlb Hlsb Hsb Hstb Hsti Hcfg Hts Hdb Htx Hf Hlast Hticks
         Hfind Hact Hnth upd_own upd_peer.
  destruct w as [tbl tx cf clk fl tr am ap]. cbn [txn faults ha_node trace config clock] in *.
  subst tx fl cf.
  destruct info as [nid st dbs fd la ot al nm er].
  cbn [ha_status db_status ha_nodeid name lastaccess_active offline_ticks_active] in *.
  subst nid st dbs la.
  assert (E2 : String.eqb (row_ha_nodeid a) (row_ha_nodeid b) = false)
    by (now apply String.eqb_neq).
  assert (E4 : str_empty (row_name a) = false) by (now apply str_empty_false).
  assert (E5 : int_add ot 1 = ot + 1)
    by (apply int_wrap_id; unfold is_int, INT_MIN, INT_MAX in *; lia).
  assert (E6 : (3 <? ot + 1) = true) by (apply Z.ltb_lt; lia).
  assert (E7 : int_add (int_div 10 ZBX_HA_POLL_PERIOD) 1 = 3) by reflexivity.
  pose proof (zbx_strlcpy_cuid _ Hla) as T1.
  pose proof (zbx_strlcpy_cuid _ Hlb) as T2.
  assert (T3 : zbx_strlcpy (row_ha_sessionid b) CUID_LEN = row_ha_sessionid b)
    by (apply zbx_strlcpy_cuid; rewrite Hlsb; apply le_n).
  assert (Hown : String.length ha_sessionid = 25%nat) by (rewrite <- Hsb; exact Hlsb).
  assert (F1 : (ZBX_NODE_STATUS_STANDBY =? ZBX_NODE_STATUS_ACTIVE) = false) by reflexivity.
  assert (F2 : (ZBX_NODE_STATUS_STANDBY =? ZBX_NODE_STATUS_ERROR) = false) by reflexivity.
  assert (F3 : (ZBX_NODE_STATUS_ACTIVE =? ZBX_NODE_STATUS_STANDBY) = false) by reflexivity.
  assert (F4 : (ZBX_NODE_STATUS_ACTIVE =? ZBX_NODE_STATUS_ERROR) = false) by reflexivity.
  remember (ha_check_nodes
              (mk_info (row_ha_nodeid b) ZBX_NODE_STATUS_STANDBY ZBX_DB_OK fd (row_lastaccess a)
                 ot al nm er)
              (mk_world tbl None (Some cfg) clk [] tr am ap)) as res eqn:Erun.
  unfold ha_check_nodes in Erun. rewrite ha_db_begin_ok in Erun by reflexivity.
  wsimpl in Erun. unfold ha_check_nodes_body in Erun.
  rewrite ha_db_get_nodes_ok in Erun by reflexivity. wsimpl in Erun.
  rewrite Hfind in Erun. wsimpl in Erun. nsimpl in Erun.
  rewrite T2, T3, Hsb in Erun. rewrite (zbx_cuid_compare_same _ _ Hown) in Erun.
  wsimpl in Erun.
  match type of Erun with
  | context [if zbx_cuid_empty ?x then ?i else ?i] =>
      replace (if zbx_cuid_empty x then i else i) with i in Erun
        by (destruct (zbx_cuid_empty x); reflexivity)
  end.
  rewrite (ha_db_update_config_ok _ _ cfg 10) in Erun by (try reflexivity; exact Hts).
  rewrite ha_db_get_time_ok in Erun by reflexivity.
  rewrite Hcl in Erun. wsimpl in Erun. rewrite F1 in Erun.
  unfold ha_check_active_node in Erun. rewrite Hact in Erun. wsimpl in Erun. nsimpl in Erun.
  rewrite E4, T1 in Erun. rewrite (zbx_cuid_compare_differ _ _ _ Hidab) in Erun.
  rewrite Z.eqb_refl in Erun. wsimpl in Erun.
  rewrite E5, E7, E6 in Erun.
  unfold ha_check_nodes_update in Erun. wsimpl in Erun. nsimpl in Erun.
  rewrite Hstb, F3 in Erun. wsimpl in Erun.
  destruct (cfg_auditlog_enabled cfg =? ZBX_AUDITLOG_ENABLED) eqn:Eal.
  all: asimpl in Erun; rewrite ?Eal in Erun.
  all: rewrite ha_db_execute_ok in Erun by reflexivity.
  all: rewrite Hnth in Erun.
  all: rewrite ha_db_execute_ok in Erun by reflexivity.
  all: nsimpl in Erun; rewrite T1 in Erun.
  all: asimpl in Erun; wsimpl in Erun; rewrite ?Eal in Erun.
  all: rewrite ha_flush_audit_ok in Erun by reflexivity.
  all: wsimpl in Erun; asimpl in Erun; rewrite ?Eal in Erun.
  all: unfold ha_check_nodes_out in Erun; wsimpl in Erun; rewrite F2 in Erun.
  all: rewrite ha_db_commit_ok in Erun by reflexivity.
  all: wsimpl in Erun; rewrite F2 in Erun.
  all: subst res; cbn [fst snd ha_status ha_node txn trace].
  all: split; [reflexivity|]; split; [reflexivity|]; split; [reflexivity|].
  all: eexists; split; [rewrite <- !app_assoc; reflexivity|reflexivity].
Qed.

(** The count at which a standby node gives up on the active peer: with the
    peer's lastaccess unchanged the counter goes up by one, and the peer is
    marked for this tick exactly when failover_delay / 5 + 1 is below the
    new count. *)
Lemma ha_check_active_node_threshold (info : zbx_ha_info_t) (nodes : list zbx_ha_node_t)
    (i : nat) (n : zbx_ha_node_t) (ui : option nat) (st : Z) :
  find_active nodes 0 = Some (i, n) ->
  node_name n <> EmptyString ->
  node_ha_nodeid n <> ha_nodeid info ->
  node_lastaccess n = lastaccess_active info ->
  is_int (offline_ticks_active info + 1) ->
  is_int (Z.quot (failover_delay info) ZBX_HA_POLL_PERIOD) ->
  is_int (Z.quot (failover_delay info) ZBX_HA_POLL_PERIOD + 1) ->
  ha_check_active_node info nodes ui st
  = (SUCCEED, set_offline_ticks_active (offline_ticks_active info + 1) info,
     if Z.quot (failover_delay info) ZBX_HA_POLL_PERIOD + 1 <? offline_ticks_active info + 1
     then Some i else ui,
     if Z.quot (failover_delay info) ZBX_HA_POLL_PERIOD + 1 <? offline_ticks_active info + 1
     then ZBX_NODE_STATUS_ACTIVE else st).
Proof.
  intros Hact Hname Hid Hla Ht Hq Hq1. unfold ha_check_active_node. rewrite Hact.
  rewrite (str_empty_false _ Hname). rewrite (zbx_cuid_compare_differ _ _ _ Hid).
  rewrite Hla, Z.eqb_refl. cbn [negb].
  destruct info as [nid s dbs fd la ot al nm er].
  cbn [failover_delay offline_ticks_active set_offline_ticks_active] in *.
  unfold int_add, int_div. rewrite (int_wrap_id _ Ht), (int_wrap_id _ Hq), (int_wrap_id _ Hq1).
  destruct (Z.quot fd ZBX_HA_POLL_PERIOD + 1 <? ot + 1); reflexivity.
Qed.

Lemma two_rows_sorted (a b : DB_ROW) (tbl : list DB_ROW) :
  tbl = [a; b] \/ tbl = [b; a] ->
  order_by_nodeid tbl = [a; b] \/ order_by_nodeid tbl = [b; a].
Proof.
  intros [-> | ->]; cbn [order_by_nodeid fold_right insert_row].
  - destruct (String.leb (row_ha_nodeid a) (row_ha_nodeid b)); auto.
  - destruct (String.leb (row_ha_nodeid b) (row_ha_nodeid a)); auto.
Qed.

(** C1, as the code has it.  In a cluster of two rows, the active peer [a]
    and this standby node [b], whose row bears the session identifier of
    this process (a generated identifier, 25 characters), with a failover
    delay of 10 seconds and the database answering: when the peer's
    lastaccess has been seen unchanged for at least 3 ticks and this tick
    finds it unchanged again, the tick runs one transaction that sets this
    node's row to active, sets the peer's row to unavailable, and commits;
    the manager's status becomes active. *)
Theorem ha_check_nodes_failover (info : zbx_ha_info_t) (w : world) (a b : DB_ROW)
    (cfg : config_row) :
  ha_node w = [a; b] \/ ha_node w = [b; a] ->
  ZBX_HA_IS_CLUSTER CONFIG_HA_NODE_NAME = true ->
  row_name b = name info ->
  row_name a <> name info ->
  row_name a <> EmptyString ->
  row_ha_nodeid b = ha_nodeid info ->
  row_ha_nodeid a <> row_ha_nodeid b ->
  (String.length (row_ha_nodeid a) <= 25)%nat ->
  (String.length (row_ha_nodeid b) <= 25)%nat ->
  String.length (row_ha_sessionid b) = 25%nat ->
  row_ha_sessionid b = ha_sessionid ->
  row_status a = ZBX_NODE_STATUS_ACTIVE ->
  row_status b = ZBX_NODE_STATUS_STANDBY ->
  ha_status info = ZBX_NODE_STATUS_STANDBY ->
  config w = Some cfg ->
  is_time_suffix (cfg_ha_failover_delay cfg) = Some 10 ->
  db_status info = ZBX_DB_OK ->
  txn w = None ->
  faults w = [] ->
  lastaccess_active info = row_lastaccess a ->
  3 <= offline_ticks_active info < INT_MAX ->
  let info' := fst (ha_check_nodes info w) in
  let w' := snd (ha_check_nodes info w) in
  let a' := set_row_status ZBX_NODE_STATUS_UNAVAILABLE a in
  let b' := set_row_status ZBX_NODE_STATUS_ACTIVE (set_row_lastaccess (clock w) b) in
  ha_status info' = ZBX_NODE_STATUS_ACTIVE
  /\ (ha_node w = [a; b] -> ha_node w' = [a'; b'])
  /\ (ha_node w = [b; a] -> ha_node w' = [b'; a'])
  /\ txn w' = None
  /\ exists calls,
      trace w' = (trace w ++ calls)%list
      /\ filter is_txn_call calls
         = [ (CallBegin, ZBX_DB_OK);
             (CallExecute (SqlUpdateNode true (Some ZBX_NODE_STATUS_ACTIVE) [row_ha_nodeid b]),
              ZBX_DB_OK);
             (CallExecute
                (SqlUpdateNode false (Some ZBX_NODE_STATUS_UNAVAILABLE) [row_ha_nodeid a]),
              ZBX_DB_OK);
             (CallCommit, ZBX_DB_OK) ].
Proof.
  intros Htbl Hcl Hnb Hna Hnae Hidb Hidab Hla Hlb Hlsb Hsb Hsa Hstb Hsti Hcfg Hts Hdb Htx Hf
         Hlast Hticks info' w' a' b'.
  assert (E1 : String.eqb (row_name a) (name info) = false) by (now apply String.eqb_neq).
  assert (E2 : String.eqb (row_ha_nodeid a) (row_ha_nodeid b) = false)
    by (now apply String.eqb_neq).
  assert (E3 : String.eqb (row_ha_nodeid b) (row_ha_nodeid a) = false)
    by (rewrite String.eqb_sym; exact E2).
  assert (F1 : (ZBX_NODE_STATUS_STANDBY =? ZBX_NODE_STATUS_ACTIVE) = false) by reflexivity.
  assert (Hrun : exists i,
             ha_find_node_by_name (map node_of_row (order_by_nodeid (ha_node w))) (name info)
             = Some (node_of_row b)
             /\ find_active (map node_of_row (order_by_nodeid (ha_node w))) 0
                = Some (i, node_of_row a)
             /\ nth_error (map node_of_row (order_by_nodeid (ha_node w))) i
                = Some (node_of_row a)).
  { destruct (two_rows_sorted a b _ Htbl) as [-> | ->];
      [exists 0%nat | exists 1%nat];
      cbn [map ha_find_node_by_name find_active nth_error node_of_row node_name node_status];
      rewrite ?E1, ?Hnb, ?String.eqb_refl, ?Hsa, ?Hstb, ?F1, ?Z.eqb_refl; auto. }
  destruct Hrun as (i & Hfind & Hact & Hnth).
  destruct (ha_check_nodes_failover_run info w a b cfg i Hcl Hnae Hidb Hidab Hla Hlb Hlsb Hsb
              Hstb Hsti Hcfg Hts Hdb Htx Hf Hlast Hticks Hfind Hact Hnth)
    as (R1 & R2 & R3 & R4).
  split; [exact R1|]. split; [|split; [|split; [exact R3|exact R4]]].
  - intros Ht. unfold w'. rewrite R2, Ht.
    unfold a', b'. cbn [apply_stmt map str_in existsb].
    rewrite ?E2, ?E3, ?String.eqb_refl. cbn [orb].
    unfold set_row_status, set_row_lastaccess. cbn [row_ha_nodeid].
    rewrite ?E2, ?E3, ?String.eqb_refl. cbn [orb].
    reflexivity.
  - intros Ht. unfold w'. rewrite R2, Ht.
    unfold a', b'. cbn [apply_stmt map str_in existsb].
    rewrite ?E2, ?E3, ?String.eqb_refl. cbn [orb].
    unfold set_row_status, set_row_lastaccess. cbn [row_ha_nodeid].
    rewrite ?E2, ?E3, ?String.eqb_refl. cbn [orb].
    reflexivity.
Qed.

Lemma ha_find_node_by_name_unique (rows : list DB_ROW) (r : DB_ROW) (nm : string) :
  In r rows ->
  row_name r = nm ->
  (forall r', In r' rows -> row_name r' = nm -> r' = r) ->
  ha_find_node_by_name (map node_of_row rows) nm = Some (node_of_row r).
Proof.
  intros Hin Hnm Huniq. induction rows as [|x rest IH]; [destruct Hin|].
  cbn [map ha_find_node_by_name node_of_row node_name].
  destruct (String.eqb_spec (row_name x) nm) as [Ex|Ex].
  - rewrite (Huniq x (or_introl eq_refl) Ex). reflexivity.
  - destruct Hin as [->|Hin]; [contradiction|].
    apply IH; [exact Hin|]. intros r' Hr'. apply Huniq. right. exact Hr'.
Qed.

Lemma ha_db_rollback_latched (info : zbx_ha_info_t) (w : world) :
  ha_status info = ZBX_NODE_STATUS_ERROR ->
  ha_status (fst (ha_db_rollback info w)) = ZBX_NODE_STATUS_ERROR
  /\ error (fst (ha_db_rollback info w)) = error info.
Proof.
  intros He. unfold ha_db_rollback. destruct (zbx_db_rollback w) as [r w1].
  assert (Hs : ha_status (set_db_status r info) = ZBX_NODE_STATUS_ERROR) by exact He.
  destruct r; cbn [fst]; try (split; [exact He|reflexivity]).
  rewrite (ha_set_error_latched _ _ Hs). split; [exact He|reflexivity].
Qed.

Lemma ha_db_rollback_trace (info : zbx_ha_info_t) (w : world) :
  exists calls,
    trace (snd (ha_db_rollback info w)) = (trace w ++ calls)%list
    /\ map fst (filter is_txn_call calls) = [CallRollback].
Proof.
  unfold ha_db_rollback, zbx_db_rollback, driver_call.
  destruct w as [tbl tx cf clk fl tr am ap]. cbn [faults trace].
  destruct fl as [|[| |] fs];
    cbv [set_trace set_faults set_txn DBclose trace snd ha_node txn config clock faults
         audit_mode audit_pending].
  - exists [(CallRollback, ZBX_DB_OK)]. split; reflexivity.
  - exists [(CallRollback, ZBX_DB_OK)]. split; reflexivity.
  - exists [(CallRollback, ZBX_DB_FAIL)]. split; reflexivity.
  - exists [(CallRollback, ZBX_DB_DOWN); (CallClose, ZBX_DB_OK)]. split;
      [rewrite <- app_assoc; reflexivity|reflexivity].
Qed.

(** C4, as the code has it.  On a tick that reads the node list and finds,
    under this node's name, a row whose session identifier differs from the
    one in memory, the manager's status becomes error with the message
    "the server HA registry record has changed ownership"; the transaction
    of the tick is rolled back without any statement having been executed,
    and the table is as before. *)
Theorem ha_check_nodes_ownership (info : zbx_ha_info_t) (w : world) (r : DB_ROW) :
  ha_status info <> ZBX_NODE_STATUS_ERROR ->
  db_status info = ZBX_DB_OK ->
  txn w = None ->
  outcome 0 w = ZBX_DB_OK ->
  outcome 1 w = ZBX_DB_OK ->
  In r (ha_node w) ->
  row_name r = name info ->
  (forall r', In r' (ha_node w) -> row_name r' = name info -> r' = r) ->
  (String.length (row_ha_sessionid r) <= 25)%nat ->
  row_ha_sessionid r <> ha_sessionid ->
  let info' := fst (ha_check_nodes info w) in
  let w' := snd (ha_check_nodes info w) in
  ha_status info' = ZBX_NODE_STATUS_ERROR
  /\ error info' = Some "the server HA registry record has changed ownership"
  /\ ha_node w' = ha_node w
  /\ txn w' = None
  /\ exists calls,
      trace w' = (trace w ++ calls)%list
      /\ map fst (filter is_txn_call calls) = [CallBegin; CallRollback].
Proof.
  intros Hst Hdb Htx Ho0 Ho1 Hin Hnm Huniq Hlen Hsess info' w'.
  assert (Hview : view w = ha_node w) by (unfold view; now rewrite Htx).
  set (msg := "the server HA registry record has changed ownership").
  set (w2 := after_ok (CallSelectNodes true) (set_txn (Some (view w)) (after_ok CallBegin w))).
  assert (Hfind : ha_find_node_by_name (map node_of_row (order_by_nodeid (view w))) (name info)
                  = Some (node_of_row r)).
  { rewrite Hview. apply ha_find_node_by_name_unique.
    - apply order_by_nodeid_In. exact Hin.
    - exact Hnm.
    - intros r' Hr'. apply Huniq. exact (proj1 (order_by_nodeid_In _ _) Hr'). }
  assert (Ecmp : zbx_cuid_compare unwritten_equal ha_sessionid
                   (node_ha_sessionid (node_of_row r)) = false).
  { cbn [node_of_row node_ha_sessionid]. rewrite (zbx_strlcpy_cuid _ Hlen).
    apply zbx_cuid_compare_differ. congruence. }
  destruct (ha_set_error_fresh info msg Hst) as [Hes Hem].
  assert (Erun : ha_check_nodes info w = ha_db_rollback (ha_set_error info msg) w2).
  { unfold ha_check_nodes. rewrite (ha_db_begin_ok info w Hdb Ho0). rewrite Hdb.
    cbn [db_ok negb]. unfold ha_check_nodes_body.
    rewrite (ha_db_get_nodes_ok info true _ Hdb)
      by (rewrite (outcome_after 0 w) by reflexivity; exact Ho1).
    change (view (set_txn (Some (view w)) (after_ok CallBegin w))) with (view w).
    rewrite Hfind, Ecmp. cbn [negb]. unfold ha_check_nodes_out. fold msg. rewrite Hes.
    rewrite Z.eqb_refl. cbn [negb].
    pose proof (ha_db_rollback_latched (ha_set_error info msg) w2 Hes) as [Hl _].
    fold w2. destruct (ha_db_rollback (ha_set_error info msg) w2) as [i1 w1].
    cbn [fst] in Hl. rewrite Hl, Z.eqb_refl. reflexivity. }
  unfold info', w'. rewrite Erun.
  destruct (ha_db_rollback_latched (ha_set_error info msg) w2 Hes) as [L1 L2].
  destruct (ha_db_rollback_frame (ha_set_error info msg) w2) as [R1 R2].
  destruct (ha_db_rollback_trace (ha_set_error info msg) w2) as (calls & C1 & C2).
  split; [exact L1|]. split; [rewrite L2; exact Hem|]. split; [rewrite R1; reflexivity|].
  split; [exact R2|].
  exists ([(CallBegin, ZBX_DB_OK); (CallSelectNodes true, ZBX_DB_OK)] ++ calls)%list.
  split.
  - rewrite C1. unfold w2. cbn [after_ok trace set_trace set_txn set_faults].
    rewrite <- !app_assoc. reflexivity.
  - cbn [app filter is_txn_call fst map]. rewrite C2. reflexivity.
Qed.

(** * Further properties *)

(** ** Cluster admission *)

Lemma cluster_step_running (info : zbx_ha_info_t) (db_time : Z) (n : zbx_ha_node_t) :
  is_int (node_lastaccess n + failover_delay info) ->
  ((node_status n =? ZBX_NODE_STATUS_STOPPED)
   || negb (ret_eqb (ha_is_available info (node_lastaccess n) db_time) SUCCEED) = false)
  <-> shown_running (failover_delay info) db_time n.
Proof.
  intros Hr. unfold shown_running.
  pose proof (ha_is_available_iff info (node_lastaccess n) db_time Hr) as Ha.
  rewrite orb_false_iff, negb_false_iff, Z.eqb_neq.
  destruct (ha_is_available info (node_lastaccess n) db_time); cbn [ret_eqb]; split.
  - intros [H1 _]. split; [exact H1|]. apply Ha. reflexivity.
  - intros [H1 _]. split; [exact H1|reflexivity].
  - intros [_ H2]. discriminate H2.
  - intros [_ H2]. apply Ha in H2. discriminate H2.
Qed.

Lemma ha_check_cluster_loop_spec (info : zbx_ha_info_t) (nodes : list zbx_ha_node_t)
    (db_time : Z) (activate : zbx_ret_t) :
  ha_status info <> ZBX_NODE_STATUS_ERROR ->
  (forall n, In n nodes -> is_int (node_lastaccess n + failover_delay info)) ->
  let res := ha_check_cluster_loop info nodes db_time activate in
  (fst (fst res) = SUCCEED
   <-> forall n, In n nodes -> ~ blocks_cluster info db_time n)
  /\ (fst (fst res) = SUCCEED ->
      snd res = info
      /\ (snd (fst res) = FAIL
          <-> activate = FAIL
              \/ exists n, In n nodes /\ can_serve (failover_delay info) db_time n))
  /\ (fst (fst res) = FAIL ->
      exists before n after,
        nodes = (before ++ n :: after)%list
        /\ (forall m, In m before -> ~ blocks_cluster info db_time m)
        /\ blocks_cluster info db_time n
        /\ ha_status (snd res) = ZBX_NODE_STATUS_ERROR
        /\ error (snd res) = Some (cluster_error info n)).
Proof.
  intros Hst Hr. revert activate. induction nodes as [|n rest IH]; intros activate res.
  - subst res. cbn. split; [split; [intros _ m []|reflexivity]|].
    split; [|discriminate].
    intros _. split; [reflexivity|]. split; [auto|]. intros [H|(m & [] & _)]. exact H.
  - assert (Hn : is_int (node_lastaccess n + failover_delay info))
      by (apply Hr; left; reflexivity).
    assert (Hrest : forall m, In m rest -> is_int (node_lastaccess m + failover_delay info))
      by (intros m Hm; apply Hr; right; exact Hm).
    specialize (IH Hrest).
    pose proof (cluster_step_running info db_time n Hn) as Hrun.
    subst res. cbn [ha_check_cluster_loop].
    destruct ((node_status n =? ZBX_NODE_STATUS_STOPPED)
              || negb (ret_eqb (ha_is_available info (node_lastaccess n) db_time) SUCCEED))
      eqn:Eskip.
    + (* the node is stopped or its lease has run out *)
      assert (Hnr : ~ shown_running (failover_delay info) db_time n)
        by (intros R; apply Hrun in R; discriminate).
      destruct (IH activate) as (I1 & I2 & I3). split; [|split].
      * rewrite I1. split.
        -- intros H m [<-|Hm]; [intros [R _]; exact (Hnr R)|exact (H m Hm)].
        -- intros H m Hm. apply H. right. exact Hm.
      * intros S. destruct (I2 S) as [J1 J2]. split; [exact J1|]. rewrite J2. split.
        -- intros [H|(m & Hm & Hc)]; [left; exact H|right; exists m; split; [right|]; auto].
        -- intros [H|(m & [<-|Hm] & Hc)]; [left; exact H| |right; exists m; auto].
           destruct Hc as [R _]. contradiction.
      * intros F. destruct (I3 F) as (before & x & after & -> & Hb & Hx & Hs & He).
        exists (n :: before), x, after.
        split; [reflexivity|]. split; [|split; [exact Hx|split; [exact Hs|exact He]]].
        intros m [<-|Hm]; [intros [R _]; exact (Hnr R)|exact (Hb m Hm)].
    + assert (R : shown_running (failover_delay info) db_time n) by (apply Hrun; reflexivity).
      destruct (str_empty (node_name n)) eqn:Ee.
      * (* the standalone node is running *)
        assert (B : blocks_cluster info db_time n).
        { split; [exact R|left]. now apply str_empty_true_iff. }
        cbn [fst snd]. split; [|split; [discriminate|]].
        -- split; [discriminate|]. intros H. exfalso. exact (H n (or_introl eq_refl) B).
        -- intros _. exists [], n, rest.
           destruct (ha_set_error_fresh info (cluster_error info n) Hst) as [Hs He].
           unfold cluster_error in Hs, He. rewrite Ee in Hs, He.
           split; [reflexivity|]. split; [intros m []|].
           split; [exact B|]. split; [exact Hs|].
           unfold cluster_error. rewrite Ee. exact He.
      * destruct (String.eqb_spec (name info) (node_name n)) as [En|En].
        -- (* a node of the same name is running *)
           assert (B : blocks_cluster info db_time n).
           { split; [exact R|right]. congruence. }
           cbn [fst snd]. split; [|split; [discriminate|]].
           ++ split; [discriminate|]. intros H. exfalso. exact (H n (or_introl eq_refl) B).
           ++ intros _. exists [], n, rest.
              destruct (ha_set_error_fresh info (cluster_error info n) Hst) as [Hs He].
              unfold cluster_error in Hs, He. rewrite Ee in Hs, He.
              split; [reflexivity|]. split; [intros m []|].
              split; [exact B|]. split; [exact Hs|].
              unfold cluster_error. rewrite Ee. exact He.
        -- (* a running peer *)
           assert (Hnb : ~ blocks_cluster info db_time n).
           { intros [_ [H|H]]; [apply str_empty_true_iff in H|]; congruence. }
           set (act := if (node_status n =? ZBX_NODE_STATUS_ACTIVE)
                          || (node_status n =? ZBX_NODE_STATUS_STANDBY)
                       then FAIL else activate).
           assert (Hact : act = FAIL
                          <-> activate = FAIL \/ can_serve (failover_delay info) db_time n).
           { unfold act, can_serve.
             destruct (Z.eqb_spec (node_status n) ZBX_NODE_STATUS_ACTIVE) as [Ea|Ea];
               destruct (Z.eqb_spec (node_status n) ZBX_NODE_STATUS_STANDBY) as [Es|Es];
               cbn [orb].
             - split; [intros _; right; split; [exact R|left; exact Ea]|reflexivity].
             - split; [intros _; right; split; [exact R|left; exact Ea]|reflexivity].
             - split; [intros _; right; split; [exact R|right; exact Es]|reflexivity].
             - split; [intros H; left; exact H|].
               intros [H|[_ [H|H]]]; [exact H|contradiction|contradiction]. }
           destruct (IH act) as (I1 & I2 & I3). split; [|split].
           ++ rewrite I1. split.
              ** intros H m [<-|Hm]; [exact Hnb|exact (H m Hm)].
              ** intros H m Hm. apply H. right. exact Hm.
           ++ intros S. destruct (I2 S) as [J1 J2]. split; [exact J1|]. rewrite J2, Hact.
              split.
              ** intros [[H|H]|(m & Hm & Hc)];
                   [left; exact H|right; exists n; split; [left; reflexivity|exact H]
                   |right; exists m; split; [right; exact Hm|exact Hc]].
              ** intros [H|(m & [<-|Hm] & Hc)];
                   [left; left; exact H|left; right; exact Hc|right; exists m; auto].
           ++ intros F. destruct (I3 F) as (before & x & after & -> & Hb & Hx & Hs & He).
              exists (n :: before), x, after.
              split; [reflexivity|]. split; [|split; [exact Hx|split; [exact Hs|exact He]]].
              intros m [<-|Hm]; [exact Hnb|exact (Hb m Hm)].
Qed.

(** X1. With no overflow in the lease sums and no error latched, cluster
    admission succeeds exactly when no running node (any status but stopped,
    lease not run out) is the standalone node or bears this node's name; on
    failure the error names the first such node in the order of the list:
    a standalone survivor, or a duplicate. *)
Theorem ha_check_cluster_config_admission (info : zbx_ha_info_t)
    (nodes : list zbx_ha_node_t) (db_time : Z) :
  ha_status info <> ZBX_NODE_STATUS_ERROR ->
  (forall n, In n nodes -> is_int (node_lastaccess n + failover_delay info)) ->
  (fst (fst (ha_check_cluster_config info nodes db_time)) = SUCCEED
   <-> forall n, In n nodes -> ~ blocks_cluster info db_time n)
  /\ (fst (fst (ha_check_cluster_config info nodes db_time)) = FAIL ->
      exists before n after,
        nodes = (before ++ n :: after)%list
        /\ (forall m, In m before -> ~ blocks_cluster info db_time m)
        /\ blocks_cluster info db_time n
        /\ ha_status (snd (ha_check_cluster_config info nodes db_time))
           = ZBX_NODE_STATUS_ERROR
        /\ error (snd (ha_check_cluster_config info nodes db_time))
           = Some (cluster_error info n)).
Proof.
  intros Hst Hr.
  destruct (ha_check_cluster_loop_spec info nodes db_time SUCCEED Hst Hr) as (H1 & _ & H3).
  split; [exact H1|exact H3].
Qed.

(** X2. When cluster admission succeeds it leaves the record alone, and it
    tells the node to start as standby exactly when some running node is
    active or standby; otherwise the node is to start as active. *)
Theorem ha_check_cluster_config_activate (info : zbx_ha_info_t)
    (nodes : list zbx_ha_node_t) (db_time : Z) :
  ha_status info <> ZBX_NODE_STATUS_ERROR ->
  (forall n, In n nodes -> is_int (node_lastaccess n + failover_delay info)) ->
  fst (fst (ha_check_cluster_config info nodes db_time)) = SUCCEED ->
  snd (ha_check_cluster_config info nodes db_time) = info
  /\ (snd (fst (ha_check_cluster_config info nodes db_time)) = FAIL
      <-> exists n, In n nodes /\ can_serve (failover_delay info) db_time n)
  /\ (snd (fst (ha_check_cluster_config info nodes db_time)) = SUCCEED
      <-> forall n, In n nodes -> ~ can_serve (failover_delay info) db_time n).
Proof.
  intros Hst Hr S.
  destruct (ha_check_cluster_loop_spec info nodes db_time SUCCEED Hst Hr) as (_ & H2 & _).
  destruct (H2 S) as [J1 J2]. split; [exact J1|].
  assert (J3 : snd (fst (ha_check_cluster_config info nodes db_time)) = FAIL
               <-> exists n, In n nodes /\ can_serve (failover_delay info) db_time n).
  { unfold ha_check_cluster_config. rewrite J2. split.
    - intros [H|H]; [discriminate H|exact H].
    - intros H. right. exact H. }
  split; [exact J3|].
  destruct (snd (fst (ha_check_cluster_config info nodes db_time))) eqn:Ea.
  - split; [|reflexivity]. intros _ n Hn Hc.
    assert (F : SUCCEED = FAIL) by (apply J3; exists n; auto). discriminate F.
  - split; [discriminate|]. intros H. exfalso.
    destruct (proj1 J3 eq_refl) as (n & Hn & Hc). exact (H n Hn Hc).
Qed.

(** ** What a call can change *)

Lemma ha_set_error_db_status (info : zbx_ha_info_t) (msg : string) :
  db_status (ha_set_error info msg) = db_status info.
Proof. unfold ha_set_error. destruct (ha_status info =? ZBX_NODE_STATUS_ERROR); reflexivity. Qed.

Lemma ha_set_error_keeps (info : zbx_ha_info_t) (msg : string) :
  ha_nodeid (ha_set_error info msg) = ha_nodeid info
  /\ name (ha_set_error info msg) = name info.
Proof.
  unfold ha_set_error. destruct (ha_status info =? ZBX_NODE_STATUS_ERROR); split; reflexivity.
Qed.

Lemma reads_only_refl (w : world) : reads_only w w.
Proof. repeat split. Qed.

Lemma reads_only_trans (w1 w2 w3 : world) :
  reads_only w1 w2 -> reads_only w2 w3 -> reads_only w1 w3.
Proof. unfold reads_only. intros (A1 & A2 & A3 & A4) (B1 & B2 & B3 & B4). repeat split; congruence. Qed.

Lemma keeps_role_refl (info : zbx_ha_info_t) : keeps_role info info.
Proof. repeat split. Qed.

Lemma keeps_role_trans (i1 i2 i3 : zbx_ha_info_t) :
  keeps_role i1 i2 -> keeps_role i2 i3 -> keeps_role i1 i3.
Proof. unfold keeps_role. intros (A1 & A2 & A3 & A4) (B1 & B2 & B3 & B4). repeat split; congruence. Qed.

Lemma reads_only_view (w w' : world) : reads_only w w' -> view w' = view w.
Proof. intros (A1 & A2 & _). unfold view. now rewrite A1, A2. Qed.

Lemma driver_call_reads (c : db_call) (w : world) :
  reads_only w (snd (driver_call c w)).
Proof. unfold driver_call. destruct (faults w); repeat split. Qed.

Lemma driver_call_trace (c : db_call) (w : world) :
  trace (snd (driver_call c w)) = (trace w ++ [(c, fst (driver_call c w))])%list.
Proof. unfold driver_call. destruct (faults w); reflexivity. Qed.

Lemma ha_db_select_frame {A : Type} (c : db_call) (read : world -> A)
    (info : zbx_ha_info_t) (w : world) :
  reads_only w (snd (ha_db_select c read info w))
  /\ keeps_role info (snd (fst (ha_db_select c read info w)))
  /\ (fst (fst (ha_db_select c read info w)) <> None ->
      snd (fst (ha_db_select c read info w)) = info)
  /\ (fst (fst (ha_db_select c read info w)) = None ->
      db_status (snd (fst (ha_db_select c read info w))) <> ZBX_DB_OK).
Proof.
  unfold ha_db_select. destruct (db_ok (db_status info)) eqn:Edb; cbn [negb].
  - pose proof (driver_call_reads c w) as Hr.
    destruct (driver_call c w) as [r w1]. cbn [snd] in Hr.
    destruct r; cbn [fst snd]; (split; [exact Hr|]); (split; [repeat split|]);
      split; try congruence; try (intros _; discriminate).
  - cbn [fst snd]. split; [apply reads_only_refl|]. split; [apply keeps_role_refl|].
    split; [congruence|]. intros _ E. rewrite E in Edb. discriminate.
Qed.

Lemma audit_add_reads (e : list audit_entry) (w : world) : reads_only w (zbx_audit_add e w).
Proof. unfold zbx_audit_add. destruct (audit_mode w =? ZBX_AUDITLOG_ENABLED); repeat split. Qed.

Lemma ha_flush_audit_frame (info : zbx_ha_info_t) (w : world) :
  reads_only w (snd (ha_flush_audit info w)) /\ keeps_role info (fst (ha_flush_audit info w)).
Proof.
  unfold ha_flush_audit, zbx_audit_flush_once.
  destruct (db_ok (db_status info)); cbn [negb fst snd]; [|split; repeat split].
  destruct (audit_mode w =? ZBX_AUDITLOG_ENABLED); [|split; repeat split].
  pose proof (driver_call_reads (CallAuditFlush (audit_pending w)) w) as Hr.
  destruct (driver_call (CallAuditFlush (audit_pending w)) w) as [r w1]. cbn [fst snd] in *.
  split; [|repeat split]. destruct Hr as (A1 & A2 & A3 & A4). repeat split; assumption.
Qed.

(** A statement inside a transaction works on the transaction's table only. *)
Lemma ha_db_execute_frame (info : zbx_ha_info_t) (s : sql_stmt) (w : world) :
  txn w <> None ->
  let res := ha_db_execute info s w in
  ha_node (snd res) = ha_node w
  /\ txn (snd res) <> None
  /\ clock (snd res) = clock w
  /\ config (snd res) = config w
  /\ keeps_role info (snd (fst res))
  /\ ((fst (fst res) = FAIL /\ view (snd res) = view w
       /\ (db_status info = ZBX_DB_OK -> db_status (snd (fst res)) <> ZBX_DB_OK))
      \/ (fst (fst res) = SUCCEED /\ db_status (snd (fst res)) = ZBX_DB_OK
          /\ view (snd res) = apply_stmt (clock w) s (view w))).
Proof.
  intros Htx res. subst res. unfold ha_db_execute, zbx_db_vexecute.
  destruct (db_status info) eqn:Edb; cbn [db_ok negb fst snd];
    try (repeat split; try assumption; left; repeat split; intros; congruence).
  pose proof (driver_call_reads (CallExecute s) w) as (A1 & A2 & A3 & A4).
  destruct (driver_call (CallExecute s) w) as [r w1]. cbn [snd] in *.
  destruct r; cbn [db_ok fst snd].
  - unfold set_view, view. rewrite A2. destruct (txn w) as [t|] eqn:Et; [|congruence].
    cbn [ha_node txn clock config set_txn]. rewrite A1, A3, A4.
    repeat split; try congruence. right. repeat split.
  - repeat split; try congruence. left. repeat split; [now rewrite (reads_only_view w w1)|].
    cbn. discriminate.
  - repeat split; try congruence. left. repeat split; [now rewrite (reads_only_view w w1)|].
    cbn. discriminate.
Qed.

(** The begin of a transaction, by the status it returns. *)
Lemma ha_db_begin_cases (info : zbx_ha_info_t) (w : world) :
  ha_node (snd (ha_db_begin info w)) = ha_node w
  /\ (db_status (fst (ha_db_begin info w)) = ZBX_DB_OK ->
      txn (snd (ha_db_begin info w)) = Some (view w)
      /\ keeps_role info (fst (ha_db_begin info w)))
  /\ (db_status (fst (ha_db_begin info w)) = ZBX_DB_DOWN ->
      txn (snd (ha_db_begin info w)) = txn w
      /\ keeps_role info (fst (ha_db_begin info w)))
  /\ (db_status (fst (ha_db_begin info w)) = ZBX_DB_FAIL ->
      txn (snd (ha_db_begin info w)) = txn w
      /\ ha_status (fst (ha_db_begin info w)) = ZBX_NODE_STATUS_ERROR)
  /\ (db_status info = ZBX_DB_FAIL ->
      snd (ha_db_begin info w) = w
      /\ ha_status (fst (ha_db_begin info w)) = ZBX_NODE_STATUS_ERROR).
Proof.
  destruct info as [nid st dbs fd la ot al nm er]. destruct w as [tbl tx cf clk fl tr am ap].
  unfold keeps_role.
  destruct dbs; destruct fl as [|[| |] [|[| |] fs]];
    destruct (st =? ZBX_NODE_STATUS_ERROR) eqn:Est;
    cbv [ha_db_begin DBconnect zbx_db_begin driver_call ha_set_error set_db_status
         set_ha_status set_error set_trace set_faults set_txn view db_ok
         ha_node txn config clock faults trace audit_mode audit_pending
         ha_nodeid ha_status db_status failover_delay lastaccess_active
         offline_ticks_active auditlog name error fst snd];
    rewrite ?Est;
    repeat split; intros; try discriminate; try reflexivity;
    try (apply Z.eqb_eq; exact Est).
Qed.

(** The commit, by the status it returns. *)
Lemma ha_db_commit_cases (info : zbx_ha_info_t) (w : world) :
  txn (snd (ha_db_commit info w)) = None
  /\ (db_status (fst (ha_db_commit info w)) = ZBX_DB_OK ->
      db_status info = ZBX_DB_OK
      /\ ha_node (snd (ha_db_commit info w)) = view w
      /\ keeps_role info (fst (ha_db_commit info w)))
  /\ (db_status (fst (ha_db_commit info w)) <> ZBX_DB_OK ->
      ha_node (snd (ha_db_commit info w)) = ha_node w)
  /\ (db_status (fst (ha_db_commit info w)) = ZBX_DB_FAIL ->
      ha_status (fst (ha_db_commit info w)) = ZBX_NODE_STATUS_ERROR)
  /\ (db_status (fst (ha_db_commit info w)) = ZBX_DB_DOWN ->
      keeps_role info (fst (ha_db_commit info w))).
Proof.
  destruct info as [nid st dbs fd la ot al nm er]. destruct w as [tbl tx cf clk fl tr am ap].
  unfold keeps_role.
  destruct dbs; destruct fl as [|[| |] [|[| |] fs]];
    destruct (st =? ZBX_NODE_STATUS_ERROR) eqn:Est;
    cbv [ha_db_commit zbx_db_commit zbx_db_rollback DBclose driver_call ha_set_error
         set_db_status set_ha_status set_error set_trace set_faults set_txn set_ha_node
         view db_ok ha_node txn config clock faults trace audit_mode audit_pending
         ha_nodeid ha_status db_status failover_delay lastaccess_active
         offline_ticks_active auditlog name error fst snd];
    rewrite ?Est;
    repeat split; intros; try discriminate; try reflexivity; try congruence;
    try (apply Z.eqb_eq; exact Est).
Qed.

(** ** The tick under any answers of the driver *)

Lemma ha_db_get_nodes_frame (info : zbx_ha_info_t) (lock : bool) (w : world) :
  reads_only w (snd (ha_db_get_nodes info lock w))
  /\ keeps_role info (snd (fst (ha_db_get_nodes info lock w))).
Proof.
  unfold ha_db_get_nodes.
  pose proof (ha_db_select_frame (CallSelectNodes lock)
                (fun w' => order_by_nodeid (view w')) info w) as (A & B & _).
  destruct (ha_db_select (CallSelectNodes lock) (fun w' => order_by_nodeid (view w')) info w)
    as [[[rows|] i1] w1]; cbn [fst snd] in *; auto.
Qed.

Lemma ha_db_update_config_frame (info : zbx_ha_info_t) (w : world) :
  reads_only w (snd (ha_db_update_config info w))
  /\ keeps_role info (snd (fst (ha_db_update_config info w))).
Proof.
  unfold ha_db_update_config.
  pose proof (ha_db_select_frame CallSelectConfig config info w) as (A & B & _).
  destruct (ha_db_select CallSelectConfig config info w) as [[[[row|]|] i1] w1];
    cbn [fst snd] in *; auto.
  split; [exact A|]. destruct (is_time_suffix (cfg_ha_failover_delay row)); exact B.
Qed.

Lemma ha_db_get_time_frame (info : zbx_ha_info_t) (w : world) :
  reads_only w (snd (ha_db_get_time info w))
  /\ keeps_role info (snd (fst (ha_db_get_time info w))).
Proof.
  unfold ha_db_get_time.
  pose proof (ha_db_select_frame CallSelectTime (fun w' => (config w', clock w')) info w)
    as (A & B & _).
  destruct (ha_db_select CallSelectTime (fun w' => (config w', clock w')) info w)
    as [[[[[c|] t]|] i1] w1]; cbn [fst snd] in *; auto.
Qed.

Lemma ha_db_lock_nodes_frame (info : zbx_ha_info_t) (w : world) :
  reads_only w (snd (ha_db_lock_nodes info w))
  /\ keeps_role info (snd (fst (ha_db_lock_nodes info w))).
Proof.
  unfold ha_db_lock_nodes.
  pose proof (ha_db_select_frame CallSelectLock (fun _ => tt) info w) as (A & B & _).
  destruct (ha_db_select CallSelectLock (fun _ => tt) info w) as [[[u|] i1] w1];
    cbn [fst snd] in *; auto.
Qed.

(** Inside a transaction: the committed table is as before and the
    transaction is still open. *)
Lemma reads_only_inside (w w' : world) :
  reads_only w w' -> txn w <> None -> ha_node w' = ha_node w /\ txn w' <> None.
Proof. intros (A1 & A2 & _) H. split; congruence. Qed.

Lemma audit_fold_reads {A : Type} (f : world -> A -> world) (l : list A) (w : world) :
  (forall x a, reads_only x (f x a)) -> reads_only w (fold_left f l w).
Proof.
  intros Hf. revert w. induction l as [|a l IH]; intros w; cbn [fold_left].
  - apply reads_only_refl.
  - eapply reads_only_trans; [apply Hf|apply IH].
Qed.

Lemma ha_check_standby_nodes_frame (info : zbx_ha_info_t) (nodes : list zbx_ha_node_t)
    (db_time : Z) (w : world) :
  txn w <> None ->
  ha_node (snd (ha_check_standby_nodes info nodes db_time w)) = ha_node w
  /\ txn (snd (ha_check_standby_nodes info nodes db_time w)) <> None
  /\ keeps_role info (snd (fst (ha_check_standby_nodes info nodes db_time w))).
Proof.
  intros Htx. unfold ha_check_standby_nodes.
  set (w1 := fold_left _ _ _).
  assert (R1 : reads_only w w1).
  { unfold w1. eapply reads_only_trans; [|apply audit_fold_reads].
    - unfold zbx_audit_init. repeat split.
    - intros x a. unfold zbx_audit_ha_update_field_int, zbx_audit_ha_create_entry.
      eapply reads_only_trans; apply audit_add_reads. }
  destruct (reads_only_inside w w1 R1 Htx) as [N1 T1].
  assert (Hex : forall s,
             ha_node (snd (ha_db_execute info s w1)) = ha_node w
             /\ txn (snd (ha_db_execute info s w1)) <> None
             /\ keeps_role info (snd (fst (ha_db_execute info s w1)))).
  { intros s. destruct (ha_db_execute_frame info s w1 T1) as (E1 & E2 & _ & _ & E5 & _).
    split; [congruence|]. split; assumption. }
  match goal with
  | |- context [match ?l with [] => (SUCCEED, info, w1) | _ :: _ => ?e end] =>
      assert (Hm : ha_node (snd (match l with [] => (SUCCEED, info, w1) | _ :: _ => e end))
                   = ha_node w
                   /\ txn (snd (match l with [] => (SUCCEED, info, w1) | _ :: _ => e end))
                      <> None
                   /\ keeps_role info
                        (snd (fst (match l with [] => (SUCCEED, info, w1) | _ :: _ => e end))));
      [destruct l; [cbn [fst snd]; split; [exact N1|split; [exact T1|apply keeps_role_refl]]
                   |apply Hex]|];
      destruct (match l with [] => (SUCCEED, info, w1) | _ :: _ => e end) as [[ret i2] w2]
  end.
  cbn [fst snd] in Hm. destruct Hm as (M1 & M2 & M3).
  destruct ret.
  - destruct (ha_flush_audit_frame i2 w2) as [F1 F2].
    destruct (ha_flush_audit i2 w2) as [i3 w3]. cbn [fst snd] in *.
    destruct (reads_only_inside w2 w3 F1 M2) as [G1 G2].
    split; [congruence|]. split; [exact G2|]. eapply keeps_role_trans; eassumption.
  - cbn [fst snd]. split; [exact M1|]. split; [exact M2|exact M3].
Qed.

Lemma ha_check_active_node_role (info : zbx_ha_info_t) (nodes : list zbx_ha_node_t)
    (ui : option nat) (st : Z) :
  let res := ha_check_active_node info nodes ui st in
  (ha_status (snd (fst (fst res))) = ha_status info
   \/ ha_status (snd (fst (fst res))) = ZBX_NODE_STATUS_ERROR)
  /\ db_status (snd (fst (fst res))) = db_status info
  /\ (snd res = st \/ snd res = ZBX_NODE_STATUS_ACTIVE)
  /\ (fst (fst (fst res)) = FAIL -> ha_status (snd (fst (fst res))) = ZBX_NODE_STATUS_ERROR)
  /\ (fst (fst (fst res)) = SUCCEED -> keeps_role info (snd (fst (fst res)))).
Proof.
  intros res. subst res. unfold ha_check_active_node.
  destruct (find_active nodes 0) as [[i n]|]; cbn [fst snd].
  2: { repeat split; auto; discriminate. }
  destruct (str_empty (node_name n)); cbn [fst snd].
  { split; [right; apply ha_set_error_status|]. split; [apply ha_set_error_db_status|].
    split; [auto|]. split; [intros _; apply ha_set_error_status|discriminate]. }
  destruct (zbx_cuid_compare unwritten_equal (node_ha_nodeid n) (ha_nodeid info));
    cbn [fst snd].
  { repeat split; auto; discriminate. }
  destruct info as [nid s dbs fd la ot al nm er].
  destruct (negb (node_lastaccess n =? lastaccess_active (mk_info nid s dbs fd la ot al nm er)));
    match goal with
    | |- context [if ?c then _ else _] => destruct c
    end; cbn [fst snd]; unfold keeps_role;
    cbv [set_offline_ticks_active set_lastaccess_active ha_status db_status error ha_nodeid name];
    repeat split; auto; discriminate.
Qed.

Lemma ha_check_nodes_update_frame (info : zbx_ha_info_t) (nodes : list zbx_ha_node_t)
    (node : zbx_ha_node_t) (ui : option nat) (st : Z) (w : world) :
  txn w <> None ->
  ha_node (snd (ha_check_nodes_update info nodes node ui st w)) = ha_node w
  /\ txn (snd (ha_check_nodes_update info nodes node ui st w)) <> None
  /\ keeps_role info (fst (ha_check_nodes_update info nodes node ui st w)).
Proof.
  intros Htx. unfold ha_check_nodes_update. cbv zeta.
  match goal with
  | |- context [ha_db_execute info ?s ?x] => set (sql := s); set (w1 := x)
  end.
  assert (R1 : reads_only w w1).
  { unfold w1. destruct (negb (st =? node_status node)).
    - unfold zbx_audit_ha_update_field_int, zbx_audit_ha_create_entry, zbx_audit_init.
      eapply reads_only_trans; [|apply audit_add_reads].
      eapply reads_only_trans; [|apply audit_add_reads]. repeat split.
    - unfold zbx_audit_init. repeat split. }
  destruct (reads_only_inside w w1 R1 Htx) as [N1 T1].
  destruct (ha_db_execute_frame info sql w1 T1) as (E1 & E2 & _ & _ & E5 & _).
  destruct (ha_db_execute info sql w1) as [[ret i2] w2]. cbn [fst snd] in *.
  assert (Hfl : forall i3 w3,
             ha_node w3 = ha_node w -> txn w3 <> None -> keeps_role info i3 ->
             ha_node (snd (ha_flush_audit i3 w3)) = ha_node w
             /\ txn (snd (ha_flush_audit i3 w3)) <> None
             /\ keeps_role info (fst (ha_flush_audit i3 w3))).
  { intros i3 w3 K1 K2 K3. destruct (ha_flush_audit_frame i3 w3) as [F1 F2].
    destruct (reads_only_inside _ _ F1 K2) as [G1 G2].
    split; [congruence|]. split; [exact G2|]. eapply keeps_role_trans; eassumption. }
  destruct ret; [destruct ui as [i|]; [destruct (nth_error nodes i) as [la|]|]|];
    try (apply Hfl; [congruence|assumption|assumption]).
  match goal with
  | |- context [ha_db_execute i2 ?s w2] => set (s2 := s)
  end.
  destruct (ha_db_execute_frame i2 s2 w2 E2) as (P1 & P2 & _ & _ & P5 & _).
  destruct (ha_db_execute i2 s2 w2) as [[r' i'] w']. cbn [fst snd] in *.
  match goal with
  | |- context [ha_flush_audit i' ?x] => set (w3 := x)
  end.
  assert (R : reads_only w' w3).
  { unfold w3, zbx_audit_ha_update_field_int, zbx_audit_ha_create_entry.
    eapply reads_only_trans; apply audit_add_reads. }
  destruct (reads_only_inside _ _ R P2) as [Q1 Q2].
  apply Hfl; [congruence|exact Q2|eapply keeps_role_trans; eassumption].
Qed.

Lemma keeps_role_status (info info' : zbx_ha_info_t) :
  keeps_role info info' -> ha_status info' = ha_status info.
Proof. intros (A & _). exact A. Qed.

Lemma ha_check_nodes_body_frame (info : zbx_ha_info_t) (w : world) :
  txn w <> None ->
  let res := ha_check_nodes_body info w in
  ha_node (snd res) = ha_node w
  /\ txn (snd res) <> None
  /\ (ha_status (snd (fst res)) = ha_status info
      \/ ha_status (snd (fst res)) = ZBX_NODE_STATUS_ERROR)
  /\ (fst (fst res) = ha_status info \/ fst (fst res) = ZBX_NODE_STATUS_ACTIVE).
Proof.
  intros Htx res. subst res. unfold ha_check_nodes_body. cbv zeta.
  destruct (ha_db_get_nodes_frame info true w) as [A1 A2].
  destruct (ha_db_get_nodes info true w) as [[[r nodes] i1] w1]. cbn [fst snd] in A1, A2.
  destruct (reads_only_inside _ _ A1 Htx) as [N1 T1].
  pose proof (keeps_role_status _ _ A2) as S1.
  destruct r; [|cbn [fst snd]; auto].
  destruct (ha_find_node_by_name nodes (name i1)) as [node|];
    [|cbn [fst snd]; rewrite ha_set_error_status; auto].
  destruct (negb (zbx_cuid_compare unwritten_equal ha_sessionid (node_ha_sessionid node)));
    [cbn [fst snd]; rewrite ha_set_error_status; auto|].
  match goal with
  | |- context [ha_db_update_config ?x w1] => set (i2 := x)
  end.
  assert (S2 : ha_status i2 = ha_status info).
  { unfold i2. destruct (zbx_cuid_empty (ha_nodeid i1)); [|exact S1].
    destruct i1; exact S1. }
  destruct (ha_db_update_config_frame i2 w1) as [B1 B2].
  destruct (ha_db_update_config i2 w1) as [[r3 i3] w3]. cbn [fst snd] in B1, B2.
  destruct (reads_only_inside _ _ B1 T1) as [N3 T3].
  pose proof (keeps_role_status _ _ B2) as S3.
  destruct r3; [|cbn [fst snd]; split; [congruence|]; split; [exact T3|];
                 split; [left; congruence|auto]].
  destruct (ha_db_get_time_frame i3 w3) as [C1 C2].
  destruct (ha_db_get_time i3 w3) as [[[r4 db_time] i4] w4]. cbn [fst snd] in C1, C2.
  destruct (reads_only_inside _ _ C1 T3) as [N4 T4].
  pose proof (keeps_role_status _ _ C2) as S4.
  destruct r4; [|cbn [fst snd]; split; [congruence|]; split; [exact T4|];
                 split; [left; congruence|auto]].
  assert (Hup : forall i5 ui st w5,
             ha_node w5 = ha_node w -> txn w5 <> None ->
             ha_status i5 = ha_status info ->
             st = ha_status info \/ st = ZBX_NODE_STATUS_ACTIVE ->
             let r := ha_check_nodes_update i5 nodes node ui st w5 in
             ha_node (snd r) = ha_node w /\ txn (snd r) <> None
             /\ (ha_status (fst r) = ha_status info
                 \/ ha_status (fst r) = ZBX_NODE_STATUS_ERROR)
             /\ (st = ha_status info \/ st = ZBX_NODE_STATUS_ACTIVE)).
  { intros i5 ui st w5 K1 K2 K3 K4 r.
    destruct (ha_check_nodes_update_frame i5 nodes node ui st w5 K2) as (U1 & U2 & U3).
    fold r in U1, U2, U3. pose proof (keeps_role_status _ _ U3) as S6.
    split; [congruence|]. split; [exact U2|]. split; [left; congruence|exact K4]. }
  destruct (ZBX_HA_IS_CLUSTER CONFIG_HA_NODE_NAME).
  2: { specialize (Hup i4 None (ha_status info) w4).
       destruct (ha_check_nodes_update i4 nodes node None (ha_status info) w4) as [i6 w6].
       cbn [fst snd] in *. apply Hup; [congruence|exact T4|congruence|auto]. }
  destruct (ha_status i4 =? ZBX_NODE_STATUS_ACTIVE).
  - destruct (ha_check_standby_nodes_frame i4 nodes db_time w4 T4) as (D1 & D2 & D3).
    destruct (ha_check_standby_nodes i4 nodes db_time w4) as [[r5 i5] w5].
    cbn [fst snd] in D1, D2, D3. pose proof (keeps_role_status _ _ D3) as S5.
    destruct r5.
    + specialize (Hup i5 None (ha_status info) w5).
      destruct (ha_check_nodes_update i5 nodes node None (ha_status info) w5) as [i6 w6].
      cbn [fst snd] in *. apply Hup; [congruence|exact D2|congruence|auto].
    + cbn [fst snd]. split; [congruence|]. split; [exact D2|].
      split; [left; congruence|auto].
  - pose proof (ha_check_active_node_role i4 nodes None (ha_status info)) as Hr.
    cbv zeta in Hr.
    destruct (ha_check_active_node i4 nodes None (ha_status info)) as [[[r5 i5] ui] st].
    cbn [fst snd] in Hr. destruct Hr as (H1 & _ & H3 & H4 & H5).
    destruct r5.
    + specialize (H5 eq_refl). pose proof (keeps_role_status _ _ H5) as S5.
      specialize (Hup i5 ui st w4).
      destruct (ha_check_nodes_update i5 nodes node ui st w4) as [i6 w6].
      cbn [fst snd] in *. apply Hup; [congruence|exact T4|congruence|exact H3].
    + cbn [fst snd]. split; [congruence|]. split; [exact T4|].
      split; [right; apply H4; reflexivity|exact H3].
Qed.

(** X5. One periodic check, whatever the driver answers to each of its
    calls: the committed table changes only when the check ends with the
    database answering and without error; an error never comes with a
    change of the table; and the manager's status moves away from its old
    value only to error, or to active after a commit that succeeded. *)
Theorem ha_check_nodes_commit_or_nothing (info : zbx_ha_info_t) (w : world) :
  (db_status (fst (ha_check_nodes info w)) <> ZBX_DB_OK ->
   ha_node (snd (ha_check_nodes info w)) = ha_node w)
  /\ (ha_status (fst (ha_check_nodes info w)) = ZBX_NODE_STATUS_ERROR ->
      ha_node (snd (ha_check_nodes info w)) = ha_node w)
  /\ (ha_status (fst (ha_check_nodes info w)) = ha_status info
      \/ ha_status (fst (ha_check_nodes info w)) = ZBX_NODE_STATUS_ERROR
      \/ (ha_status (fst (ha_check_nodes info w)) = ZBX_NODE_STATUS_ACTIVE
          /\ db_status (fst (ha_check_nodes info w)) = ZBX_DB_OK)).
Proof.
  unfold ha_check_nodes.
  pose proof (ha_db_begin_cases info w) as (B0 & B1 & B2 & B3 & _).
  destruct (ha_db_begin info w) as [i1 w1]. cbn [fst snd] in B0, B1, B2, B3.
  destruct (db_status i1) eqn:Edb; cbn [db_ok negb fst snd].
  2: { split; [intros _; exact B0|]. split; [intros _; exact B0|].
       right. left. apply B3. reflexivity. }
  2: { split; [intros _; exact B0|]. split; [intros _; exact B0|].
       left. apply keeps_role_status. apply B2. reflexivity. }
  destruct (B1 eq_refl) as [T1 K1]. pose proof (keeps_role_status _ _ K1) as S1.
  assert (Htx : txn w1 <> None) by (rewrite T1; discriminate).
  pose proof (ha_check_nodes_body_frame i1 w1 Htx) as Hb. cbv zeta in Hb.
  destruct (ha_check_nodes_body i1 w1) as [[loc i2] w2]. cbn [fst snd] in Hb.
  destruct Hb as (N2 & _ & S2 & L2).
  unfold ha_check_nodes_out.
  destruct (ha_status i2 =? ZBX_NODE_STATUS_ERROR) eqn:Eerr; cbn [negb].
  - apply Z.eqb_eq in Eerr.
    destruct (ha_db_rollback_frame i2 w2) as [R1 _].
    destruct (ha_db_rollback_latched i2 w2 Eerr) as [R2 _].
    destruct (ha_db_rollback i2 w2) as [i3 w3]. cbn [fst snd] in R1, R2.
    rewrite R2. cbn [Z.eqb negb andb fst snd].
    replace (ZBX_NODE_STATUS_ERROR =? ZBX_NODE_STATUS_ERROR) with true by reflexivity.
    cbn [negb andb fst snd].
    split; [intros _; congruence|]. split; [intros _; congruence|]. right. left. exact R2.
  - apply Z.eqb_neq in Eerr.
    assert (S2' : ha_status i2 = ha_status i1) by (destruct S2; [assumption|contradiction]).
    assert (Lne : loc <> ZBX_NODE_STATUS_ERROR).
    { destruct L2 as [L|L]; rewrite L; [congruence|discriminate]. }
    pose proof (ha_db_commit_cases i2 w2) as (_ & C1 & C2 & C3 & C4).
    destruct (ha_db_commit i2 w2) as [i3 w3]. cbn [fst snd] in C1, C2, C3, C4.
    destruct (db_status i3) eqn:Edb3.
    + destruct (C1 eq_refl) as (_ & _ & K3). pose proof (keeps_role_status _ _ K3) as S3.
      destruct (Z.eqb_spec (ha_status i3) ZBX_NODE_STATUS_ERROR) as [E|_]; [congruence|].
      cbn [negb andb db_ok fst snd].
      destruct i3 as [nid st dbs fd la ot al nm er].
      cbv [set_ha_status ha_status db_status] in *.
      split; [intros H; contradiction|]. split; [intros H; contradiction|].
      destruct L2 as [L|L]; [left; congruence|right; right; split; assumption].
    + rewrite Bool.andb_false_r. cbn [fst snd].
      assert (N3 : ha_node w3 = ha_node w2) by (apply C2; discriminate).
      split; [intros _; congruence|]. split; [intros _; congruence|].
      right. left. apply C3. reflexivity.
    + rewrite Bool.andb_false_r. cbn [fst snd].
      assert (N3 : ha_node w3 = ha_node w2) by (apply C2; discriminate).
      split; [intros _; congruence|]. split; [intros _; congruence|].
      left. rewrite (keeps_role_status _ _ (C4 eq_refl)). congruence.
Qed.

(** ** The requests under any answers of the driver *)

Lemma after_ok_reads (c : db_call) (w : world) : reads_only w (after_ok c w).
Proof. unfold after_ok. repeat split. Qed.

Lemma ha_db_select_cases {A : Type} (c : db_call) (read : world -> A)
    (info : zbx_ha_info_t) (w : world) :
  db_status info = ZBX_DB_OK ->
  (outcome 0 w = ZBX_DB_OK
   /\ ha_db_select c read info w = (Some (read (after_ok c w)), info, after_ok c w))
  \/ (outcome 0 w <> ZBX_DB_OK
      /\ exists w1,
           ha_db_select c read info w = (None, set_db_status (outcome 0 w) info, w1)
           /\ reads_only w w1).
Proof.
  intros Hdb. unfold ha_db_select. rewrite Hdb. cbn [db_ok negb].
  destruct (outcome 0 w) eqn:Ho.
  - left. split; [reflexivity|]. rewrite (driver_call_ok c w Ho). reflexivity.
  - right. split; [discriminate|].
    pose proof (driver_call_reads c w) as Hr.
    unfold outcome in Ho. unfold driver_call in *.
    destruct (faults w) as [|f fs]; cbn [nth] in Ho; [discriminate|]. subst f.
    eexists. split; [reflexivity|exact Hr].
  - right. split; [discriminate|].
    pose proof (driver_call_reads c w) as Hr.
    unfold outcome in Ho. unfold driver_call in *.
    destruct (faults w) as [|f fs]; cbn [nth] in Ho; [discriminate|]. subst f.
    eexists. split; [reflexivity|exact Hr].
Qed.

Lemma set_db_status_keeps (r : zbx_db_status) (info : zbx_ha_info_t) :
  keeps_role info (set_db_status r info) /\ db_status (set_db_status r info) = r.
Proof. destruct info; repeat split. Qed.

(** X6. The node list request, whatever the driver answers: it changes
    neither the table, nor an open transaction, nor the manager's role.  It
    succeeds exactly when the database was answering before and answers both
    reads; the document is then the snapshot of the table in the order of
    the identifiers, stamped with the database time as the code reads it
    into an [int] ([atoi] of the clock, which is the clock itself only when
    that fits an [int]; 0 when the configuration has no row).  Otherwise
    there is no document, the error is "database error", and the record no
    longer says that the database answers. *)
Theorem ha_db_get_nodes_json_outcomes (info : zbx_ha_info_t) (w : world) :
  let '(ret, json, err, info', w') := ha_db_get_nodes_json info w in
  reads_only w w'
  /\ keeps_role info info'
  /\ (ret = SUCCEED <->
      db_status info = ZBX_DB_OK /\ outcome 0 w = ZBX_DB_OK /\ outcome 1 w = ZBX_DB_OK)
  /\ (ret = SUCCEED ->
      info' = info /\ err = None
      /\ json = Some (map (node_json (match config w with
                                        | Some _ => atoi (clock w)
                                        | None => 0
                                        end))
                        (map node_of_row (order_by_nodeid (view w)))))
  /\ (ret = FAIL ->
      json = None /\ err = Some "database error"%string /\ db_status info' <> ZBX_DB_OK)
  /\ (db_status info <> ZBX_DB_OK -> info' = info /\ w' = w).
Proof.
  unfold ha_db_get_nodes_json.
  destruct (db_status info) eqn:Edb; cbn [db_ok negb].
  2,3: (split; [apply reads_only_refl|]; split; [apply keeps_role_refl|];
        split; [split; [discriminate|intros (H & _); discriminate]|];
        split; [discriminate|]; split; [intros _; rewrite Edb; repeat split; discriminate|];
        intros _; split; reflexivity).
  unfold ha_db_get_time.
  destruct (ha_db_select_cases CallSelectTime (fun w' => (config w', clock w')) info w Edb)
    as [[Ho E]|[Ho (w1 & E & R)]]; rewrite E.
  2: { destruct (set_db_status_keeps (outcome 0 w) info) as [K D].
       split; [exact R|]. split; [exact K|].
       split; [split; [discriminate|intros (_ & H & _); contradiction]|].
       split; [discriminate|].
       split; [intros _; rewrite D; repeat split; exact Ho|].
       intros H; contradiction H; reflexivity. }
  change (config (after_ok CallSelectTime w)) with (config w).
  change (clock (after_ok CallSelectTime w)) with (clock w).
  set (db_time := match config w with Some _ => atoi (clock w) | None => 0 end).
  replace (match config w with
           | Some _ => (SUCCEED, atoi (clock w), info, after_ok CallSelectTime w)
           | None => (SUCCEED, 0, info, after_ok CallSelectTime w)
           end) with (SUCCEED, db_time, info, after_ok CallSelectTime w)
    by (unfold db_time; destruct (config w); reflexivity).
  unfold ha_db_get_nodes.
  destruct (ha_db_select_cases (CallSelectNodes false)
              (fun w' => order_by_nodeid (view w')) info (after_ok CallSelectTime w) Edb)
    as [[Ho2 E2]|[Ho2 (w2 & E2 & R2)]]; rewrite outcome_tl in Ho2.
  - rewrite E2.
    split; [eapply reads_only_trans; apply after_ok_reads|].
    split; [apply keeps_role_refl|].
    split; [split; [intros _; repeat split; assumption|reflexivity]|].
    split; [intros _; repeat split|]. split; [discriminate|].
    intros H; contradiction H; reflexivity.
  - rewrite outcome_tl in E2. rewrite E2.
    destruct (set_db_status_keeps (outcome 1 w) info) as [K D].
    split; [eapply reads_only_trans; [apply after_ok_reads|exact R2]|].
    split; [exact K|].
    split; [split; [discriminate|intros (_ & _ & H); contradiction]|].
    split; [discriminate|].
    split; [intros _; rewrite D; repeat split; exact Ho2|].
    intros H; contradiction H; reflexivity.
Qed.

Lemma ha_db_get_nodes_cases (info : zbx_ha_info_t) (lock : bool) (w : world) :
  db_status info = ZBX_DB_OK ->
  (exists w1,
     ha_db_get_nodes info lock w
     = (SUCCEED, map node_of_row (order_by_nodeid (view w)), info, w1)
     /\ reads_only w w1)
  \/ (exists info1 w1,
        ha_db_get_nodes info lock w = (FAIL, [], info1, w1)
        /\ reads_only w w1 /\ keeps_role info info1 /\ db_status info1 <> ZBX_DB_OK).
Proof.
  intros Hdb. unfold ha_db_get_nodes.
  destruct (ha_db_select_cases (CallSelectNodes lock)
              (fun w' => order_by_nodeid (view w')) info w Hdb)
    as [[Ho E]|[Ho (w1 & E & R)]]; rewrite E.
  - left. eexists. split; [reflexivity|apply after_ok_reads].
  - right. destruct (set_db_status_keeps (outcome 0 w) info) as [K D].
    eexists. eexists. split; [reflexivity|]. split; [exact R|]. split; [exact K|].
    rewrite D. exact Ho.
Qed.

(** X7. The removal request, whatever the driver answers.  A refusal
    always comes with an error text and leaves the table as it was.  Success
    comes without error text, and only for an indexed row that is neither
    active nor standby; the table has then lost exactly the rows of that
    identifier when the commit went through, and is as it was when the
    commit did not. *)
Theorem ha_remove_node_by_index_outcomes (info : zbx_ha_info_t) (index : Z) (w : world) :
  let '(ret, err, info', w') := ha_remove_node_by_index info index w in
  (ret = FAIL -> err <> None /\ ha_node w' = ha_node w)
  /\ (ret = SUCCEED ->
      err = None
      /\ exists n,
           nth_error (map node_of_row (order_by_nodeid (view w)))
             (Z.to_nat (int_sub index 1)) = Some n
           /\ node_status n <> ZBX_NODE_STATUS_ACTIVE
           /\ node_status n <> ZBX_NODE_STATUS_STANDBY
           /\ ((db_status info' = ZBX_DB_OK
                /\ ha_node w' = delete_node (node_ha_nodeid n) (view w))
               \/ (db_status info' <> ZBX_DB_OK /\ ha_node w' = ha_node w)))
  /\ (db_status info' = ZBX_DB_OK -> txn w' = None).
Proof.
  unfold ha_remove_node_by_index.
  set (target := nth_error (map node_of_row (order_by_nodeid (view w)))
                   (Z.to_nat (int_sub index 1))).
  pose proof (ha_db_begin_cases info w) as (B0 & B1 & _).
  destruct (ha_db_begin info w) as [i1 w1]. cbn [fst snd] in B0, B1.
  destruct (db_status i1) eqn:Edb; cbn [db_ok negb];
    try (split; [intros _; split; [discriminate|exact B0]|];
         split; [discriminate|]; rewrite Edb; discriminate).
  destruct (B1 eq_refl) as [T1 _].
  assert (V1 : view w1 = view w) by (unfold view; rewrite T1; reflexivity).
  assert (Hfail : forall (e : string) i5 w5,
             ha_node w5 = ha_node w ->
             let '(ret, err, info', w') :=
               let '(info6, w6) := ha_remove_node_out FAIL i5 w5 in
               (FAIL, Some e, info6, w6) in
             (ret = FAIL -> err <> None /\ ha_node w' = ha_node w)
             /\ (ret = SUCCEED ->
                 err = None
                 /\ exists n,
                      target = Some n
                      /\ node_status n <> ZBX_NODE_STATUS_ACTIVE
                      /\ node_status n <> ZBX_NODE_STATUS_STANDBY
                      /\ ((db_status info' = ZBX_DB_OK
                           /\ ha_node w' = delete_node (node_ha_nodeid n) (view w))
                          \/ (db_status info' <> ZBX_DB_OK /\ ha_node w' = ha_node w)))
             /\ (db_status info' = ZBX_DB_OK -> txn w' = None)).
  { intros e i5 w5 N5. unfold ha_remove_node_out.
    destruct (ha_db_rollback_frame i5 w5) as [R1 R2].
    destruct (ha_db_rollback i5 w5) as [i6 w6]. cbn [fst snd] in R1, R2.
    split; [intros _; split; [discriminate|congruence]|].
    split; [discriminate|]. intros _; exact R2. }
  destruct (ha_db_get_nodes_cases i1 false w1 Edb)
    as [(w2 & E & R)|(i2 & w2 & E & R & _)]; rewrite E;
    destruct (reads_only_inside w1 w2 R ltac:(rewrite T1; discriminate)) as [N2 T2];
    [|apply Hfail; congruence].
  rewrite V1. set (nodes := map node_of_row (order_by_nodeid (view w))).
  destruct ((int_sub index 1 <? 0) || (Z.of_nat (Datatypes.length nodes) <=? int_sub index 1));
    [apply Hfail; congruence|].
  destruct (nth_error nodes (Z.to_nat (int_sub index 1))) as [n|] eqn:En;
    [|apply Hfail; congruence].
  destruct ((node_status n =? ZBX_NODE_STATUS_ACTIVE)
            || (node_status n =? ZBX_NODE_STATUS_STANDBY)) eqn:Est;
    [apply Hfail; congruence|].
  apply Bool.orb_false_iff in Est. destruct Est as [Ea Es].
  apply Z.eqb_neq in Ea, Es.
  set (s := SqlDeleteNode (node_ha_nodeid n)).
  destruct (ha_db_execute_frame i1 s w2 T2) as (X1 & X2 & _ & _ & _ & X6).
  destruct (ha_db_execute i1 s w2) as [[r3 i3] w3]. cbn [fst snd] in X1, X2, X6.
  destruct X6 as [(-> & _)|(-> & D3 & V3)]; [apply Hfail; congruence|].
  match goal with
  | |- context [ha_flush_audit i3 ?x] => set (w4 := x)
  end.
  assert (R4 : reads_only w3 w4).
  { unfold w4, zbx_audit_ha_create_entry, zbx_audit_init.
    eapply reads_only_trans; [|apply audit_add_reads]. repeat split. }
  destruct (ha_flush_audit_frame i3 w4) as [F1 _].
  destruct (ha_flush_audit i3 w4) as [i4 w4']. cbn [fst snd] in F1.
  pose proof (reads_only_trans _ _ _ R4 F1) as R5.
  pose proof (reads_only_view _ _ R5) as V5.
  destruct R5 as (N5 & _).
  unfold ha_remove_node_out.
  pose proof (ha_db_commit_cases i4 w4') as (C0 & C1 & C2 & _).
  destruct (ha_db_commit i4 w4') as [i6 w6]. cbn [fst snd] in C0, C1, C2.
  split; [discriminate|]. split; [|intros _; exact C0].
  intros _. split; [reflexivity|]. exists n. split; [exact En|].
  split; [exact Ea|]. split; [exact Es|].
  destruct (db_status i6) eqn:D6.
  - left. split; [reflexivity|]. destruct (C1 eq_refl) as (_ & C & _).
    rewrite C, V5, V3. rewrite (reads_only_view _ _ R), V1. reflexivity.
  - right. split; [discriminate|]. rewrite C2 by discriminate. congruence.
  - right. split; [discriminate|]. rewrite C2 by discriminate. congruence.
Qed.

(** X8. The reply of the removal request is fixed before the commit: for
    a row that may be removed, with the begin, the read and the delete
    answered, a commit that the driver does not accept leaves the table as
    it was, and the request still returns success without an error text
    (auditing disabled, so that the commit is the fourth call). *)
Theorem ha_remove_node_by_index_lost_commit (info : zbx_ha_info_t) (index : Z) (w : world)
    (n : zbx_ha_node_t) :
  db_status info = ZBX_DB_OK ->
  auditlog info <> ZBX_AUDITLOG_ENABLED ->
  outcome 0 w = ZBX_DB_OK -> outcome 1 w = ZBX_DB_OK -> outcome 2 w = ZBX_DB_OK ->
  outcome 3 w <> ZBX_DB_OK ->
  0 <= int_sub index 1 ->
  nth_error (map node_of_row (order_by_nodeid (view w))) (Z.to_nat (int_sub index 1))
  = Some n ->
  node_status n <> ZBX_NODE_STATUS_ACTIVE ->
  node_status n <> ZBX_NODE_STATUS_STANDBY ->
  let '(ret, err, info', w') := ha_remove_node_by_index info index w in
  ret = SUCCEED /\ err = None /\ db_status info' = outcome 3 w /\ ha_node w' = ha_node w.
Proof.
  intros Hdb Hal Ho0 Ho1 Ho2 Ho3 Hidx Hnth Hna Hns.
  unfold ha_remove_node_by_index.
  rewrite (ha_db_begin_ok info w Hdb Ho0). rewrite Hdb. cbn [db_ok negb].
  rewrite (ha_db_get_nodes_ok info false _ Hdb)
    by (rewrite (outcome_after 0 w) by reflexivity; exact Ho1).
  change (view (set_txn (Some (view w)) (after_ok CallBegin w))) with (view w).
  cbv zeta.
  assert (Ec : (int_sub index 1 <? 0)
               || (Z.of_nat (Datatypes.length (map node_of_row (order_by_nodeid (view w))))
                   <=? int_sub index 1) = false).
  { assert (Hlt : (Z.to_nat (int_sub index 1)
                   < Datatypes.length (map node_of_row (order_by_nodeid (view w))))%nat)
      by (apply nth_error_Some; congruence).
    apply Bool.orb_false_iff. split; [apply Z.ltb_ge; lia|apply Z.leb_gt; lia]. }
  rewrite Ec, Hnth.
  replace ((node_status n =? ZBX_NODE_STATUS_ACTIVE)
           || (node_status n =? ZBX_NODE_STATUS_STANDBY)) with false
    by (symmetry; apply Bool.orb_false_iff; split; apply Z.eqb_neq; assumption).
  rewrite (ha_db_execute_ok info _ _ Hdb)
    by (rewrite outcome_tl, (outcome_after 1 w) by reflexivity; exact Ho2).
  apply Z.eqb_neq in Hal.
  unfold outcome in *.
  generalize (node_ha_nodeid n) (node_name n). intros id nm.
  clear Hnth Ec Hidx Hna Hns.
  destruct w as [tbl tx cfg clk fl tr am ap]. cbn [faults] in *.
  destruct info as [nid st dbs fd la ot al inm er]. cbn [db_status auditlog] in *. subst dbs.
  destruct fl as [|f0 [|f1 [|f2 [|f3 fs]]]]; cbn [nth] in *; try congruence.
  subst f0 f1 f2.
  destruct f3; try congruence; destruct fs as [|[| |] fs];
    destruct (st =? ZBX_NODE_STATUS_ERROR) eqn:Est;
    cbv [ha_flush_audit zbx_audit_flush_once zbx_audit_ha_create_entry zbx_audit_add
         zbx_audit_init ha_remove_node_out ha_db_commit zbx_db_commit zbx_db_rollback DBclose
         driver_call after_ok ha_set_error set_db_status set_ha_status set_error set_trace
         set_faults set_txn set_ha_node set_view set_audit_mode set_audit_pending
         view db_ok negb faults trace txn ha_node db_status auditlog audit_mode
         audit_pending clock tl fst snd ha_status];
    rewrite ?Hal;
    cbv [ha_flush_audit zbx_audit_flush_once zbx_audit_ha_create_entry zbx_audit_add
         zbx_audit_init ha_remove_node_out ha_db_commit zbx_db_commit zbx_db_rollback DBclose
         driver_call after_ok ha_set_error set_db_status set_ha_status set_error set_trace
         set_faults set_txn set_ha_node set_view set_audit_mode set_audit_pending
         view db_ok negb faults trace txn ha_node db_status auditlog audit_mode
         audit_pending clock tl fst snd ha_status];
    rewrite ?Est; repeat split.
Qed.

(** ** The refresh of the paused manager and the exit *)

Lemma apply_refresh_lastaccess (now : Z) (nodeid : string) (rows : list DB_ROW) :
  apply_stmt now (SqlUpdateNode true None [nodeid]) rows
  = map (refresh_lastaccess nodeid now) rows.
Proof.
  unfold apply_stmt, str_in, refresh_lastaccess. apply map_ext. intros r. cbn [existsb].
  rewrite orb_false_r. reflexivity.
Qed.

Lemma ha_db_lock_nodes_ok (info : zbx_ha_info_t) (w : world) :
  db_status info = ZBX_DB_OK ->
  outcome 0 w = ZBX_DB_OK ->
  ha_db_lock_nodes info w = (SUCCEED, info, after_ok CallSelectLock w).
Proof.
  intros Hdb Ho. unfold ha_db_lock_nodes, ha_db_select. rewrite Hdb. cbn [db_ok negb].
  rewrite (driver_call_ok _ w Ho). reflexivity.
Qed.

Lemma faults_set_view (rows : list DB_ROW) (w : world) :
  faults (set_view rows w) = faults w.
Proof. unfold set_view. destruct (txn w); reflexivity. Qed.

Lemma faults_after_ok (c : db_call) (w : world) : faults (after_ok c w) = tl (faults w).
Proof. reflexivity. Qed.

Lemma faults_set_txn (t : option (list DB_ROW)) (w : world) :
  faults (set_txn t w) = faults w.
Proof. reflexivity. Qed.

Lemma ha_db_begin_clock (info : zbx_ha_info_t) (w : world) :
  clock (snd (ha_db_begin info w)) = clock w /\ config (snd (ha_db_begin info w)) = config w.
Proof.
  destruct info as [nid st dbs fd la ot al nm er]. destruct w as [tbl tx cf clk fl tr am ap].
  destruct dbs; destruct fl as [|[| |] [|[| |] fs]]; split; reflexivity.
Qed.

Lemma ha_db_rollback_status (info : zbx_ha_info_t) (w : world) :
  ha_status (fst (ha_db_rollback info w)) = ha_status info
  \/ ha_status (fst (ha_db_rollback info w)) = ZBX_NODE_STATUS_ERROR.
Proof.
  unfold ha_db_rollback. destruct (zbx_db_rollback w) as [r x].
  destruct r; cbn [fst]; [left; destruct info; reflexivity
                         |right; apply ha_set_error_status
                         |left; destruct info; reflexivity].
Qed.

Lemma ha_db_commit_status (info : zbx_ha_info_t) (w : world) :
  ha_status (fst (ha_db_commit info w)) = ha_status info
  \/ ha_status (fst (ha_db_commit info w)) = ZBX_NODE_STATUS_ERROR.
Proof.
  pose proof (ha_db_commit_cases info w) as (_ & C1 & _ & C3 & C4).
  destruct (db_status (fst (ha_db_commit info w))).
  - left. apply keeps_role_status. apply C1. reflexivity.
  - right. apply C3. reflexivity.
  - left. apply keeps_role_status. apply C4. reflexivity.
Qed.

(** The statement on the manager's own row, run inside the transaction that
    the begin has opened on the table of [w]. *)
Lemma own_row_statement (info i1 : zbx_ha_info_t) (w w1 : world) (s : sql_stmt) :
  ha_node w1 = ha_node w -> txn w1 = Some (view w) -> clock w1 = clock w ->
  (ha_status i1 = ha_status info \/ ha_status i1 = ZBX_NODE_STATUS_ERROR) ->
  let res := ha_db_execute i1 s w1 in
  ha_node (snd res) = ha_node w
  /\ txn (snd res) <> None
  /\ (ha_status (snd (fst res)) = ha_status info
      \/ ha_status (snd (fst res)) = ZBX_NODE_STATUS_ERROR)
  /\ (fst (fst res) = SUCCEED -> view (snd res) = apply_stmt (clock w) s (view w)).
Proof.
  intros N1 T1 C1 S1 res. subst res.
  assert (Htx : txn w1 <> None) by (rewrite T1; discriminate).
  assert (V1 : view w1 = view w) by (unfold view; rewrite T1; reflexivity).
  destruct (ha_db_execute_frame i1 s w1 Htx) as (X1 & X2 & X3 & _ & X5 & X6).
  split; [congruence|]. split; [exact X2|].
  split; [rewrite (keeps_role_status _ _ X5); exact S1|].
  destruct X6 as [(R & _)|(_ & _ & V)]; [rewrite R; discriminate|].
  intros _. rewrite V, V1, C1. reflexivity.
Qed.

(** X9. The refresh of the paused manager, whatever the driver answers:
    the table is as it was, or the transaction went through and the only
    change is the lastaccess of the manager's own row, set to the database
    clock; the manager's status is as it was or has become error. *)
Theorem ha_db_update_lastaccess_outcomes (info : zbx_ha_info_t) (w : world) :
  let '(info', w') := ha_db_update_lastaccess info w in
  (ha_node w' = ha_node w
   \/ (db_status info' = ZBX_DB_OK
       /\ ha_node w' = map (refresh_lastaccess (ha_nodeid info) (clock w)) (view w)))
  /\ (ha_status info' = ha_status info \/ ha_status info' = ZBX_NODE_STATUS_ERROR).
Proof.
  unfold ha_db_update_lastaccess.
  pose proof (ha_db_begin_cases info w) as (B0 & B1 & B2 & B3 & _).
  pose proof (ha_db_begin_clock info w) as (BC & _).
  destruct (ha_db_begin info w) as [i1 w1]. cbn [fst snd] in B0, B1, B2, B3, BC.
  destruct (db_status i1) eqn:Edb; cbn [db_ok negb].
  2: { split; [left; exact B0|right; apply B3; reflexivity]. }
  2: { split; [left; exact B0|left; apply keeps_role_status; apply B2; reflexivity]. }
  destruct (B1 eq_refl) as [T1 K1].
  destruct (ha_db_lock_nodes_frame i1 w1) as [L1 L2].
  destruct (ha_db_lock_nodes i1 w1) as [[r2 i2] w2]. cbn [fst snd] in L1, L2.
  destruct L1 as (LN & LT & LC & _).
  assert (S2 : ha_status i2 = ha_status info)
    by (rewrite (keeps_role_status _ _ L2); apply keeps_role_status; exact K1).
  assert (Hid : ha_nodeid i2 = ha_nodeid info).
  { destruct L2 as (_ & _ & -> & _). destruct K1 as (_ & _ & -> & _). reflexivity. }
  assert (Hrb : forall i5 w5,
             ha_node w5 = ha_node w ->
             ha_status i5 = ha_status info \/ ha_status i5 = ZBX_NODE_STATUS_ERROR ->
             let '(info', w') := ha_db_rollback i5 w5 in
             (ha_node w' = ha_node w
              \/ (db_status info' = ZBX_DB_OK
                  /\ ha_node w'
                     = map (refresh_lastaccess (ha_nodeid info) (clock w)) (view w)))
             /\ (ha_status info' = ha_status info
                 \/ ha_status info' = ZBX_NODE_STATUS_ERROR)).
  { intros i5 w5 N5 S5. destruct (ha_db_rollback_frame i5 w5) as [R1 _].
    pose proof (ha_db_rollback_status i5 w5) as R2.
    destruct (ha_db_rollback i5 w5) as [i6 w6]. cbn [fst snd] in R1, R2.
    split; [left; congruence|]. destruct R2 as [R2|R2]; [rewrite R2; exact S5|right; exact R2]. }
  destruct r2; [|apply Hrb; [congruence|left; exact S2]].
  rewrite Hid.
  pose proof (own_row_statement info i2 w w2
                (SqlUpdateNode true None [ha_nodeid info]) ltac:(congruence)
                ltac:(congruence) ltac:(congruence) (or_introl S2)) as Hx.
  cbv zeta in Hx.
  destruct (ha_db_execute i2 (SqlUpdateNode true None [ha_nodeid info]) w2)
    as [[r3 i3] w3]. cbn [fst snd] in Hx. destruct Hx as (N3 & T3 & S3 & V3).
  destruct r3; [|apply Hrb; assumption].
  specialize (V3 eq_refl). rewrite apply_refresh_lastaccess in V3.
  pose proof (ha_db_commit_cases i3 w3) as (_ & C1 & C2 & _).
  pose proof (ha_db_commit_status i3 w3) as C5.
  destruct (ha_db_commit i3 w3) as [i4 w4]. cbn [fst snd] in C1, C2, C5.
  split.
  - destruct (db_status i4) eqn:D4.
    + right. split; [reflexivity|]. destruct (C1 eq_refl) as (_ & N4 & _). congruence.
    + left. rewrite C2 by discriminate. exact N3.
    + left. rewrite C2 by discriminate. exact N3.
  - destruct C5 as [C5|C5]; [rewrite C5; exact S3|right; exact C5].
Qed.

(** X10. The refresh of the paused manager with the database answering
    (begin, lock, update, commit): the record is as it was, no transaction
    is left open, and the table is the one the transaction started from with
    the lastaccess of the manager's own row set to the database clock. *)
Theorem ha_db_update_lastaccess_healthy (info : zbx_ha_info_t) (w : world) :
  db_status info = ZBX_DB_OK ->
  outcome 0 w = ZBX_DB_OK -> outcome 1 w = ZBX_DB_OK ->
  outcome 2 w = ZBX_DB_OK -> outcome 3 w = ZBX_DB_OK ->
  let '(info', w') := ha_db_update_lastaccess info w in
  info' = info
  /\ txn w' = None
  /\ ha_node w' = map (refresh_lastaccess (ha_nodeid info) (clock w)) (view w)
  /\ map fst (filter is_txn_call (skipn (List.length (trace w)) (trace w')))
     = [CallBegin; CallExecute (SqlUpdateNode true None [ha_nodeid info]); CallCommit].
Proof.
  intros Hdb Ho0 Ho1 Ho2 Ho3. unfold ha_db_update_lastaccess.
  rewrite (ha_db_begin_ok info w Hdb Ho0). rewrite Hdb. cbn [db_ok negb].
  rewrite (ha_db_lock_nodes_ok info _ Hdb)
    by (rewrite (outcome_after 0 w) by reflexivity; exact Ho1).
  rewrite (ha_db_execute_ok info _ _ Hdb)
    by (rewrite outcome_tl, (outcome_after 1 w) by reflexivity; exact Ho2).
  rewrite (ha_db_commit_ok info _ Hdb).
  2: { unfold outcome in *.
       rewrite faults_set_view, !faults_after_ok, faults_set_txn, faults_after_ok.
       destruct (faults w) as [|f0 [|f1 [|f2 [|f3 fs]]]]; cbn [tl nth] in *;
         try reflexivity; exact Ho3. }
  split; [reflexivity|]. split; [reflexivity|].
  rewrite <- apply_refresh_lastaccess.
  destruct w as [tbl tx cfg clk fl tr am ap].
  split; [reflexivity|].
  cbv [trace set_txn set_ha_node set_view after_ok set_trace set_faults txn ha_node config
       clock faults audit_mode audit_pending view].
  rewrite <- !app_assoc. rewrite skipn_app, skipn_all, Nat.sub_diag. reflexivity.
Qed.

Lemma ha_db_execute_fail (info : zbx_ha_info_t) (s : sql_stmt) (w : world) :
  fst (fst (ha_db_execute info s w)) = FAIL ->
  db_status (snd (fst (ha_db_execute info s w))) <> ZBX_DB_OK.
Proof.
  unfold ha_db_execute. destruct (db_status info) eqn:Edb; cbn [db_ok negb fst snd];
    try (intros _; rewrite Edb; discriminate).
  destruct (zbx_db_vexecute s w) as [r w1].
  destruct r; cbn [db_ok fst snd]; intros H; try discriminate H;
    destruct info; cbn; discriminate.
Qed.

Lemma ha_db_lock_nodes_fail (info : zbx_ha_info_t) (w : world) :
  fst (fst (ha_db_lock_nodes info w)) = FAIL ->
  db_status (snd (fst (ha_db_lock_nodes info w))) <> ZBX_DB_OK.
Proof.
  unfold ha_db_lock_nodes.
  pose proof (ha_db_select_frame CallSelectLock (fun _ => tt) info w) as (_ & _ & _ & H).
  destruct (ha_db_select CallSelectLock (fun _ => tt) info w) as [[[u|] i1] w1];
    cbn [fst snd] in *; [discriminate|]. intros _. apply H. reflexivity.
Qed.

Lemma ha_flush_audit_db_status (info : zbx_ha_info_t) (w : world) :
  db_status (fst (ha_flush_audit info w)) = ZBX_DB_OK -> db_status info = ZBX_DB_OK.
Proof.
  unfold ha_flush_audit. destruct (db_status info) eqn:Edb; cbn [db_ok negb fst];
    intros H; try reflexivity; rewrite Edb in H; exact H.
Qed.

(** X11. The exit, whatever the driver answers: the table is as it was, or
    the transaction went through and the only change is the status of the
    manager's own row, set to stopped; the manager's status is as it was or
    has become error; and once the begin has returned ok the transaction is
    closed again on every path. *)
Theorem ha_db_update_exit_status_outcomes (info : zbx_ha_info_t) (w : world) :
  let '(info', w') := ha_db_update_exit_status info w in
  (ha_node w' = ha_node w
   \/ (db_status info' = ZBX_DB_OK
       /\ ha_node w' = map (mark_stopped (ha_nodeid info)) (view w)))
  /\ (ha_status info' = ha_status info \/ ha_status info' = ZBX_NODE_STATUS_ERROR)
  /\ (ha_status info = ZBX_NODE_STATUS_ACTIVE \/ ha_status info = ZBX_NODE_STATUS_STANDBY ->
      db_status (fst (ha_db_begin info w)) = ZBX_DB_OK -> txn w' = None).
Proof.
  unfold ha_db_update_exit_status.
  destruct (negb (ha_status info =? ZBX_NODE_STATUS_ACTIVE)
            && negb (ha_status info =? ZBX_NODE_STATUS_STANDBY)) eqn:Eg.
  { split; [left; reflexivity|]. split; [left; reflexivity|].
    intros [H|H]; rewrite H in Eg; discriminate Eg. }
  pose proof (ha_db_begin_cases info w) as (B0 & B1 & B2 & B3 & _).
  pose proof (ha_db_begin_clock info w) as (BC & _).
  destruct (ha_db_begin info w) as [i1 w1]. cbn [fst snd] in B0, B1, B2, B3, BC |- *.
  destruct (db_status i1) eqn:Edb; cbn [db_ok negb].
  2: { split; [left; exact B0|]. split; [right; apply B3; reflexivity|]. discriminate. }
  2: { split; [left; exact B0|].
       split; [left; apply keeps_role_status; apply B2; reflexivity|]. discriminate. }
  destruct (B1 eq_refl) as [T1 K1].
  destruct (ha_db_lock_nodes_frame i1 w1) as [L1 L2].
  pose proof (ha_db_lock_nodes_fail i1 w1) as L3.
  destruct (ha_db_lock_nodes i1 w1) as [[r2 i2] w2]. cbn [fst snd] in L1, L2, L3.
  destruct L1 as (LN & LT & LC & _).
  assert (S2 : ha_status i2 = ha_status info)
    by (rewrite (keeps_role_status _ _ L2); apply keeps_role_status; exact K1).
  assert (Hid : ha_nodeid i2 = ha_nodeid info).
  { destruct L2 as (_ & _ & -> & _). destruct K1 as (_ & _ & -> & _). reflexivity. }
  assert (Hcm : forall i5 w5,
             ha_node w5 = ha_node w ->
             (db_status i5 = ZBX_DB_OK ->
              view w5 = map (mark_stopped (ha_nodeid info)) (view w)) ->
             ha_status i5 = ha_status info \/ ha_status i5 = ZBX_NODE_STATUS_ERROR ->
             let '(info', w') := ha_db_commit i5 w5 in
             (ha_node w' = ha_node w
              \/ (db_status info' = ZBX_DB_OK
                  /\ ha_node w' = map (mark_stopped (ha_nodeid info)) (view w)))
             /\ (ha_status info' = ha_status info
                 \/ ha_status info' = ZBX_NODE_STATUS_ERROR)
             /\ (ha_status info = ZBX_NODE_STATUS_ACTIVE
                 \/ ha_status info = ZBX_NODE_STATUS_STANDBY ->
                 ZBX_DB_OK = ZBX_DB_OK -> txn w' = None)).
  { intros i5 w5 N5 V5 S5.
    pose proof (ha_db_commit_cases i5 w5) as (C0 & C1 & C2 & _).
    pose proof (ha_db_commit_status i5 w5) as C5.
    destruct (ha_db_commit i5 w5) as [i6 w6]. cbn [fst snd] in C0, C1, C2, C5.
    split; [|split; [|intros _ _; exact C0]].
    - destruct (db_status i6) eqn:D6.
      + destruct (C1 eq_refl) as (D5 & N6 & _).
        right. split; [reflexivity|]. rewrite N6. apply V5. exact D5.
      + left. rewrite C2 by discriminate. exact N5.
      + left. rewrite C2 by discriminate. exact N5.
    - destruct C5 as [C5|C5]; [rewrite C5; exact S5|right; exact C5]. }
  destruct r2.
  2: { apply Hcm; [congruence| |left; exact S2].
       intros H. exfalso. apply L3; [reflexivity|exact H]. }
  rewrite Hid.
  set (s := SqlUpdateNode false (Some ZBX_NODE_STATUS_STOPPED) [ha_nodeid info]).
  pose proof (own_row_statement info i2 w w2 s ltac:(congruence)
                ltac:(congruence) ltac:(congruence) (or_introl S2)) as Hx.
  pose proof (ha_db_execute_fail i2 s w2) as Hf.
  cbv zeta in Hx.
  destruct (ha_db_execute i2 s w2) as [[r3 i3] w3]. cbn [fst snd] in Hx, Hf.
  destruct Hx as (N3 & T3 & S3 & V3).
  destruct r3.
  2: { apply Hcm; [exact N3| |exact S3].
       intros H. exfalso. apply Hf; [reflexivity|exact H]. }
  specialize (V3 eq_refl). unfold s in V3. rewrite apply_update_status_one in V3.
  match goal with
  | |- context [ha_flush_audit i3 ?x] => set (w4 := x)
  end.
  assert (R4 : reads_only w3 w4).
  { unfold w4, zbx_audit_ha_update_field_int, zbx_audit_ha_create_entry, zbx_audit_init.
    eapply reads_only_trans; [|apply audit_add_reads].
    eapply reads_only_trans; [|apply audit_add_reads]. repeat split. }
  destruct (ha_flush_audit_frame i3 w4) as [F1 F2].
  destruct (ha_flush_audit i3 w4) as [i4 w4']. cbn [fst snd] in F1, F2.
  pose proof (reads_only_trans _ _ _ R4 F1) as R5.
  pose proof (reads_only_view _ _ R5) as V5. destruct R5 as (N5 & _).
  apply Hcm; [congruence| |rewrite (keeps_role_status _ _ F2); exact S3].
  intros _. rewrite V5, V3. reflexivity.
Qed.

(** ** The standby node's look at the active node *)

Lemma find_active_none (nodes : list zbx_ha_node_t) (k : nat) :
  find_active nodes k = None <->
  forall n, In n nodes -> node_status n <> ZBX_NODE_STATUS_ACTIVE.
Proof.
  revert k. induction nodes as [|x rest IH]; intros k; cbn [find_active].
  - split; [intros _ n []|reflexivity].
  - destruct (Z.eqb_spec (node_status x) ZBX_NODE_STATUS_ACTIVE) as [E|E].
    + split; [discriminate|]. intros H. exfalso. apply (H x); [left; reflexivity|exact E].
    + rewrite IH. split.
      * intros H n [<-|Hin]; [exact E|apply H; exact Hin].
      * intros H n Hin. apply H. right. exact Hin.
Qed.

Lemma find_active_first (nodes : list zbx_ha_node_t) (k i : nat) (n : zbx_ha_node_t) :
  find_active nodes k = Some (i, n) <->
  exists j, i = (k + j)%nat /\ first_active nodes j n.
Proof.
  revert k. induction nodes as [|x rest IH]; intros k; cbn [find_active].
  - split; [discriminate|]. intros (j & _ & H & _). destruct j; discriminate H.
  - destruct (Z.eqb_spec (node_status x) ZBX_NODE_STATUS_ACTIVE) as [E|E].
    + split.
      * intros [= <- <-]. exists 0%nat. split; [lia|].
        split; [reflexivity|]. split; [exact E|]. intros j m Hj. lia.
      * intros (j & -> & Hn & Hs & Hb). destruct j as [|j].
        -- cbn in Hn. injection Hn as <-. now rewrite Nat.add_0_r.
        -- exfalso. apply (Hb 0%nat x); [lia|reflexivity|exact E].
    + rewrite IH. split.
      * intros (j & -> & Hn & Hs & Hb). exists (S j). split; [lia|].
        split; [exact Hn|]. split; [exact Hs|].
        intros j' m Hj Hm. destruct j' as [|j'].
        -- cbn in Hm. injection Hm as <-. exact E.
        -- apply (Hb j' m); [lia|exact Hm].
      * intros (j & -> & Hn & Hs & Hb). destruct j as [|j].
        -- cbn in Hn. injection Hn as ->. contradiction.
        -- exists j. split; [lia|]. split; [exact Hn|]. split; [exact Hs|].
           intros j' m Hj Hm. apply (Hb (S j') m); [lia|exact Hm].
Qed.

Lemma poll_threshold (fd : Z) :
  0 <= fd <= INT_MAX ->
  int_add (int_div fd ZBX_HA_POLL_PERIOD) 1 = Z.quot fd ZBX_HA_POLL_PERIOD + 1
  /\ 1 <= Z.quot fd ZBX_HA_POLL_PERIOD + 1.
Proof.
  intros H. unfold int_add, int_div, ZBX_HA_POLL_PERIOD, INT_MAX in *.
  assert (Hq : 0 <= Z.quot fd 5 <= fd).
  { rewrite Z.quot_div_nonneg by lia. split; [apply Z.div_pos; lia|].
    apply Z.div_le_upper_bound; lia. }
  rewrite (int_wrap_id (Z.quot fd 5)) by (unfold is_int, INT_MIN, INT_MAX; lia).
  assert (Hq2 : Z.quot fd 5 < 429496730).
  { rewrite Z.quot_div_nonneg by lia. apply Z.div_lt_upper_bound; lia. }
  rewrite int_wrap_id by (unfold is_int, INT_MIN, INT_MAX; lia). lia.
Qed.

(** X12. When a node that is not active looks for the active node, with a
    failover delay that is not negative and its own identifier a generated
    one (25 characters, so that the comparison of identifiers reads no
    unwritten byte): it marks a node as unavailable
    only together with taking the active role; and it takes the active role
    only when no node is shown active, or the first node shown active is
    itself, or that node is another named node whose lastaccess has not
    moved since the last look and whose count of silent ticks, raised by
    one, is now above failover_delay / 5 + 1, that node being the one
    marked.  It fails exactly when the first node shown active has no
    name. *)
Theorem ha_check_active_node_promotion (info : zbx_ha_info_t) (nodes : list zbx_ha_node_t)
    (st : Z) :
  0 <= failover_delay info <= INT_MAX ->
  st <> ZBX_NODE_STATUS_ACTIVE ->
  String.length (ha_nodeid info) = 25%nat ->
  let '(ret, info', ui, st') := ha_check_active_node info nodes None st in
  (ui <> None -> st' = ZBX_NODE_STATUS_ACTIVE)
  /\ (st' <> ZBX_NODE_STATUS_ACTIVE -> st' = st)
  /\ (st' = ZBX_NODE_STATUS_ACTIVE ->
      ret = SUCCEED
      /\ (((forall n, In n nodes -> node_status n <> ZBX_NODE_STATUS_ACTIVE)
           /\ ui = None /\ info' = info)
          \/ exists i n,
               first_active nodes i n /\ node_name n <> EmptyString
               /\ ((node_ha_nodeid n = ha_nodeid info /\ ui = None /\ info' = info)
                   \/ (node_ha_nodeid n <> ha_nodeid info /\ ui = Some i
                       /\ node_lastaccess n = lastaccess_active info
                       /\ offline_ticks_active info'
                          = int_add (offline_ticks_active info) 1
                       /\ Z.quot (failover_delay info) ZBX_HA_POLL_PERIOD + 1
                          < offline_ticks_active info'))))
  /\ (ret = FAIL <-> exists i n, first_active nodes i n /\ node_name n = EmptyString)
  /\ (ret = FAIL ->
      info' = ha_set_error info "found active standalone node in HA mode" /\ st' = st).
Proof.
  intros Hfd Hst Hlen. unfold ha_check_active_node.
  destruct (poll_threshold _ Hfd) as [Hth Hth1].
  destruct (find_active nodes 0) as [[i n]|] eqn:Ef.
  2: { split; [intros H; contradiction H; reflexivity|]. split; [intros H; contradiction|].
       split.
       - intros _. split; [reflexivity|]. left.
         split; [apply (find_active_none nodes 0); exact Ef|split; reflexivity].
       - split; [|discriminate]. split; [discriminate|]. intros (i & n & Hfa & _).
         assert (H : find_active nodes 0 = Some (i, n))
           by (apply find_active_first; exists i; split; [reflexivity|exact Hfa]).
         congruence. }
  apply find_active_first in Ef. destruct Ef as (j & -> & Hfa). cbn [Nat.add].
  assert (Huniq : forall i' n', first_active nodes i' n' -> i' = j /\ n' = n).
  { intros i' n' Hfa'.
    assert (H1 : find_active nodes 0 = Some (j, n))
      by (apply find_active_first; exists j; split; [reflexivity|exact Hfa]).
    assert (H2 : find_active nodes 0 = Some (i', n'))
      by (apply find_active_first; exists i'; split; [reflexivity|exact Hfa']).
    rewrite H1 in H2. injection H2 as <- <-. split; reflexivity. }
  destruct (str_empty (node_name n)) eqn:Ene.
  { apply str_empty_true_iff in Ene.
    split; [intros H; contradiction H; reflexivity|]. split; [reflexivity|].
    split; [intros H; contradiction|].
    split; [split; [intros _; exists j, n; split; assumption|reflexivity]|].
    intros _. split; reflexivity. }
  assert (Hname : node_name n <> EmptyString).
  { intros H. apply str_empty_true_iff in H. congruence. }
  assert (Hnofail : forall (x : zbx_ha_info_t) (y : Z),
             (SUCCEED = FAIL <->
              exists i n0, first_active nodes i n0 /\ node_name n0 = EmptyString)
             /\ (SUCCEED = FAIL ->
                 x = ha_set_error info "found active standalone node in HA mode"
                 /\ y = st)).
  { intros x y. split; [|discriminate]. split; [discriminate|].
    intros (i' & n' & Hfa' & Hn'). destruct (Huniq _ _ Hfa') as [_ ->]. contradiction. }
  destruct (zbx_cuid_compare unwritten_equal (node_ha_nodeid n) (ha_nodeid info)) eqn:Ecmp.
  { apply zbx_cuid_compare_true in Ecmp. rename Ecmp into Eid.
    split; [intros H; contradiction H; reflexivity|]. split; [intros H; contradiction H; reflexivity|].
    split; [|apply Hnofail].
    intros _. split; [reflexivity|]. right. exists j, n.
    split; [exact Hfa|]. split; [exact Hname|]. left. repeat split; assumption. }
  assert (Eid : node_ha_nodeid n <> ha_nodeid info).
  { intros E. rewrite E, (zbx_cuid_compare_same _ _ Hlen) in Ecmp. discriminate Ecmp. }
  clear Ecmp Hlen.
  generalize (Hnofail). clear Hnofail.
  generalize (ha_set_error info "found active standalone node in HA mode"). intros ierr Hnofail.
  destruct info as [nid s dbs fd la ot al nm er].
  cbn [failover_delay lastaccess_active offline_ticks_active ha_nodeid] in *.
  destruct (Z.eqb_spec (node_lastaccess n) la) as [Ela|Ela]; cbn [negb];
    cbv [set_offline_ticks_active set_lastaccess_active failover_delay offline_ticks_active
         lastaccess_active ha_nodeid]; rewrite Hth.
  - destruct (Z.ltb_spec (Z.quot fd ZBX_HA_POLL_PERIOD + 1) (int_add ot 1)) as [Hlt|Hge].
    + split; [reflexivity|]. split; [intros H; contradiction H; reflexivity|].
      split; [|apply Hnofail].
      intros _. split; [reflexivity|]. right. exists j, n.
      split; [exact Hfa|]. split; [exact Hname|]. right.
      split; [exact Eid|]. split; [reflexivity|]. split; [exact Ela|].
      split; [reflexivity|exact Hlt].
    + split; [intros H; contradiction H; reflexivity|]. split; [reflexivity|].
      split; [intros H; contradiction|apply Hnofail].
  - destruct (Z.ltb_spec (Z.quot fd ZBX_HA_POLL_PERIOD + 1) 0) as [Hlt|Hge]; [lia|].
    split; [intros H; contradiction H; reflexivity|]. split; [reflexivity|].
    split; [intros H; contradiction|apply Hnofail].
Qed.

(** ** The active node's look at the standby nodes *)

Lemma fold_left_preserves {A B S : Type} (p : S -> B) (f : S -> A -> S) (l : list A) (s : S) :
  (forall x a, p (f x a) = p x) -> p (fold_left f l s) = p s.
Proof.
  intros Hf. revert s. induction l as [|a l IH]; intros s; cbn [fold_left]; [reflexivity|].
  rewrite IH. apply Hf.
Qed.

Lemma zbx_audit_add_faults (e : list audit_entry) (w : world) :
  faults (zbx_audit_add e w) = faults w.
Proof. unfold zbx_audit_add. destruct (audit_mode w =? ZBX_AUDITLOG_ENABLED); reflexivity. Qed.

Lemma nodup_ids_inj (rows : list DB_ROW) (r r' : DB_ROW) :
  NoDup (map row_ha_nodeid rows) ->
  In r rows -> In r' rows -> row_ha_nodeid r = row_ha_nodeid r' -> r = r'.
Proof.
  induction rows as [|x rest IH]; intros Hnd Hr Hr' E; [destruct Hr|].
  cbn [map] in Hnd. inversion Hnd as [|? ? Hnot Hnd']; subst.
  destruct Hr as [->|Hr]; destruct Hr' as [->|Hr']; try reflexivity.
  - exfalso. apply Hnot. rewrite E. apply in_map. exact Hr'.
  - exfalso. apply Hnot. rewrite <- E. apply in_map. exact Hr.
  - apply IH; assumption.
Qed.

Lemma expired_ids (info : zbx_ha_info_t) (db_time : Z) (rows : list DB_ROW) (r : DB_ROW) :
  NoDup (map row_ha_nodeid rows) ->
  (forall x, In x rows -> (String.length (row_ha_nodeid x) <= 25)%nat) ->
  (forall x, In x rows -> is_int (row_lastaccess x + failover_delay info)) ->
  In r rows ->
  str_in (row_ha_nodeid r)
    (map node_ha_nodeid
       (filter (standby_expired info db_time) (map node_of_row (order_by_nodeid rows))))
  = (row_status r =? ZBX_NODE_STATUS_STANDBY)
    && (row_lastaccess r + failover_delay info <=? db_time).
Proof.
  intros Hnd Hlen Hint Hin.
  assert (Hexp : forall x, In x rows ->
                   standby_expired info db_time (node_of_row x)
                   = (row_status x =? ZBX_NODE_STATUS_STANDBY)
                     && (row_lastaccess x + failover_delay info <=? db_time)).
  { intros x Hx. unfold standby_expired, int_add. cbn [node_of_row node_status node_lastaccess].
    rewrite (int_wrap_id _ (Hint x Hx)). reflexivity. }
  assert (Hid : forall x, In x rows -> node_ha_nodeid (node_of_row x) = row_ha_nodeid x).
  { intros x Hx. cbn [node_of_row node_ha_nodeid]. apply zbx_strlcpy_cuid. apply Hlen, Hx. }
  apply Bool.eq_true_iff_eq. unfold str_in. rewrite existsb_exists. split.
  - intros (id & Hid_in & Heq). apply String.eqb_eq in Heq. subst id.
    apply in_map_iff in Hid_in. destruct Hid_in as (n & Hn & Hnf).
    apply filter_In in Hnf. destruct Hnf as [Hnin Hne].
    apply in_map_iff in Hnin. destruct Hnin as (r' & <- & Hr').
    apply (proj1 (order_by_nodeid_In _ _)) in Hr'.
    rewrite (Hid r' Hr') in Hn.
    assert (r' = r) by (apply (nodup_ids_inj rows); assumption). subst r'.
    rewrite <- (Hexp r Hin). exact Hne.
  - intros He. exists (row_ha_nodeid r). split; [|apply String.eqb_refl].
    apply in_map_iff. exists (node_of_row r). split; [apply Hid; exact Hin|].
    apply filter_In. split.
    + apply in_map. apply (proj2 (order_by_nodeid_In _ _)). exact Hin.
    + rewrite (Hexp r Hin). exact He.
Qed.

Lemma set_view_in_txn (new : list DB_ROW) (w : world) (t : list DB_ROW) :
  txn w = Some t ->
  txn (set_view new w) = Some new /\ ha_node (set_view new w) = ha_node w.
Proof. intros H. unfold set_view. rewrite H. split; reflexivity. Qed.

Lemma ha_check_standby_nodes_run (info : zbx_ha_info_t) (rows : list DB_ROW)
    (db_time : Z) (w : world) :
  db_status info = ZBX_DB_OK ->
  txn w = Some rows ->
  NoDup (map row_ha_nodeid rows) ->
  (forall r, In r rows -> (String.length (row_ha_nodeid r) <= 25)%nat) ->
  (forall r, In r rows -> is_int (row_lastaccess r + failover_delay info)) ->
  outcome 0 w = ZBX_DB_OK -> outcome 1 w = ZBX_DB_OK ->
  let nodes := map node_of_row (order_by_nodeid rows) in
  let un := filter (standby_expired info db_time) nodes in
  exists w',
    ha_check_standby_nodes info nodes db_time w = (SUCCEED, info, w')
    /\ ha_node w' = ha_node w
    /\ txn w' = Some (map (expire_standby (failover_delay info) db_time) rows)
    /\ clock w' = clock w /\ config w' = config w
    /\ (faults w = [] -> faults w' = [])
    /\ exists calls,
         trace w' = (trace w ++ calls)%list
         /\ map fst (filter is_txn_call calls)
            = match un with
              | [] => []
              | _ :: _ =>
                  [CallExecute (SqlUpdateNode false (Some ZBX_NODE_STATUS_UNAVAILABLE)
                                  (map node_ha_nodeid un))]
              end.
Proof.
  intros Hdb Htx Hnd Hlen Hint Ho0 Ho1 nodes un0. unfold ha_check_standby_nodes. cbv zeta.
  pose proof (fun r => expired_ids info db_time rows r Hnd Hlen Hint) as Hkey.
  subst nodes. subst un0.
  set (un := filter (standby_expired info db_time) (map node_of_row (order_by_nodeid rows)))
    in *.
  set (w1 := fold_left _ un _).
  assert (Hstep : forall (B : Type) (p : world -> B),
             (forall e x, p (zbx_audit_add e x) = p x) ->
             p (zbx_audit_init (auditlog info) w) = p w -> p w1 = p w).
  { intros B p Hp Hinit. unfold w1. rewrite fold_left_preserves; [exact Hinit|].
    intros x a. unfold zbx_audit_ha_update_field_int, zbx_audit_ha_create_entry.
    rewrite !Hp. reflexivity. }
  assert (H1 : (txn w1, ha_node w1, faults w1, clock w1, config w1, trace w1)
               = (txn w, ha_node w, faults w, clock w, config w, trace w)).
  { apply (Hstep _ (fun x => (txn x, ha_node x, faults x, clock x, config x, trace x)));
      [|reflexivity].
    intros e x. unfold zbx_audit_add. destruct (audit_mode x =? ZBX_AUDITLOG_ENABLED);
      reflexivity. }
  injection H1 as T1 N1 F1 C1 G1 R1.
  assert (Hmap : map (fun r => if str_in (row_ha_nodeid r) (map node_ha_nodeid un)
                               then set_row_status ZBX_NODE_STATUS_UNAVAILABLE r else r) rows
                 = map (expire_standby (failover_delay info) db_time) rows).
  { apply map_ext_in. intros r Hr. rewrite (Hkey r Hr). reflexivity. }
  assert (Hflush : forall w2 (calls2 : list (db_call * zbx_db_status)),
             ha_node w2 = ha_node w ->
             txn w2 = Some (map (expire_standby (failover_delay info) db_time) rows) ->
             clock w2 = clock w -> config w2 = config w ->
             (faults w = [] -> faults w2 = []) ->
             trace w2 = (trace w ++ calls2)%list ->
             outcome 0 w2 = ZBX_DB_OK ->
             exists w',
               (let '(info3, w3) := ha_flush_audit info w2 in (SUCCEED, info3, w3))
               = (SUCCEED, info, w')
               /\ ha_node w' = ha_node w
               /\ txn w' = Some (map (expire_standby (failover_delay info) db_time) rows)
               /\ clock w' = clock w /\ config w' = config w
               /\ (faults w = [] -> faults w' = [])
               /\ exists calls,
                    trace w' = (trace w ++ calls)%list
                    /\ map fst (filter is_txn_call calls)
                       = map fst (filter is_txn_call calls2)).
  { intros w2 calls2 N2 T2 C2 G2 F2 R2 O2. rewrite (ha_flush_audit_ok info w2 Hdb O2).
    destruct (audit_mode w2 =? ZBX_AUDITLOG_ENABLED).
    - eexists. split; [reflexivity|]. split; [exact N2|]. split; [exact T2|].
      split; [exact C2|]. split; [exact G2|].
      split; [intros H; change (tl (faults w2) = []); rewrite (F2 H); reflexivity|].
      exists (calls2 ++ [(CallAuditFlush (audit_pending w2), ZBX_DB_OK)])%list.
      split; [|rewrite filter_app, map_app; cbn; apply app_nil_r].
      change (trace w2 ++ [(CallAuditFlush (audit_pending w2), ZBX_DB_OK)]
              = trace w ++ calls2 ++ [(CallAuditFlush (audit_pending w2), ZBX_DB_OK)])%list.
      rewrite R2, app_assoc. reflexivity.
    - eexists. split; [reflexivity|]. split; [exact N2|]. split; [exact T2|].
      split; [exact C2|]. split; [exact G2|]. split; [exact F2|].
      exists calls2. split; [exact R2|reflexivity]. }
  destruct un as [|u us] eqn:Eun.
  - destruct (Hflush w1 []) as (w' & E & Hw').
    + congruence.
    + rewrite T1, Htx, <- Hmap. cbn [map str_in existsb]. now rewrite map_id.
    + congruence.
    + congruence.
    + intros H. congruence.
    + rewrite R1, app_nil_r. reflexivity.
    + unfold outcome in *. rewrite F1. exact Ho0.
    + exists w'. split; [exact E|exact Hw'].
  - set (s := SqlUpdateNode false (Some ZBX_NODE_STATUS_UNAVAILABLE)
                (map node_ha_nodeid (u :: us))) in *.
    rewrite (ha_db_execute_ok info s w1 Hdb)
      by (unfold outcome in *; rewrite F1; exact Ho0).
    set (w2 := set_view _ _).
    assert (Ta : txn (after_ok (CallExecute s) w1) = Some rows)
      by (rewrite <- Htx, <- T1; reflexivity).
    destruct (set_view_in_txn (apply_stmt (clock w1) s (view w1))
                (after_ok (CallExecute s) w1) rows Ta) as [T2 N2].
    fold w2 in T2, N2.
    assert (P2 : (clock w2, config w2, faults w2, trace w2)
                 = (clock w1, config w1, tl (faults w1),
                    (trace w1 ++ [(CallExecute s, ZBX_DB_OK)])%list)).
    { unfold w2, set_view. destruct (txn (after_ok (CallExecute s) w1)); reflexivity. }
    injection P2 as C2 G2 F2 R2.
    destruct (Hflush w2 [(CallExecute s, ZBX_DB_OK)]) as (w' & E & Hw').
    + rewrite N2. exact N1.
    + rewrite T2. f_equal. unfold view. rewrite T1, Htx. unfold s, apply_stmt. exact Hmap.
    + congruence.
    + congruence.
    + intros H. rewrite F2, F1, H. reflexivity.
    + rewrite R2, R1. reflexivity.
    + unfold outcome in *. rewrite F2, F1.
      destruct (faults w) as [|f0 [|f1 fs]]; cbn [tl nth] in *; try reflexivity; exact Ho1.
    + exists w'. split; [exact E|exact Hw'].
Qed.

(** X13. The active node's look at the standby nodes, inside the tick's
    transaction and with the database answering: every standby row whose
    lastaccess + failover_delay is not after the database time becomes
    unavailable, and every other row, like the committed table, stays as it
    is.  Identifiers are distinct and of at most 25 characters. *)
Theorem ha_check_standby_nodes_expires (info : zbx_ha_info_t) (rows : list DB_ROW)
    (db_time : Z) (w : world) :
  db_status info = ZBX_DB_OK ->
  txn w = Some rows ->
  NoDup (map row_ha_nodeid rows) ->
  (forall r, In r rows -> (String.length (row_ha_nodeid r) <= 25)%nat) ->
  (forall r, In r rows -> is_int (row_lastaccess r + failover_delay info)) ->
  outcome 0 w = ZBX_DB_OK -> outcome 1 w = ZBX_DB_OK ->
  let '(ret, info', w') :=
    ha_check_standby_nodes info (map node_of_row (order_by_nodeid rows)) db_time w in
  ret = SUCCEED /\ info' = info /\ ha_node w' = ha_node w
  /\ txn w' = Some (map (expire_standby (failover_delay info) db_time) rows)
  /\ forall r, In r rows ->
       In (expire_standby (failover_delay info) db_time r) (view w')
       /\ (row_status r <> ZBX_NODE_STATUS_STANDBY ->
           expire_standby (failover_delay info) db_time r = r)
       /\ (row_lastaccess r + failover_delay info > db_time ->
           expire_standby (failover_delay info) db_time r = r).
Proof.
  intros Hdb Htx Hnd Hlen Hint Ho0 Ho1.
  destruct (ha_check_standby_nodes_run info rows db_time w Hdb Htx Hnd Hlen Hint Ho0 Ho1)
    as (w' & E & N & T & _).
  rewrite E. split; [reflexivity|]. split; [reflexivity|]. split; [exact N|].
  split; [exact T|]. intros r Hr. split; [|split].
  - unfold view. rewrite T. apply in_map. exact Hr.
  - intros Hs. unfold expire_standby.
    destruct (Z.eqb_spec (row_status r) ZBX_NODE_STATUS_STANDBY); [contradiction|reflexivity].
  - intros Hl. unfold expire_standby.
    destruct (Z.leb_spec (row_lastaccess r + failover_delay info) db_time); [lia|].
    now rewrite Bool.andb_false_r.
Qed.

(** ** Ticks that end in an error or leave the role alone *)

Lemma ha_find_node_by_name_none (nodes : list zbx_ha_node_t) (nm : string) :
  ha_find_node_by_name nodes nm = None <-> forall n, In n nodes -> node_name n <> nm.
Proof.
  induction nodes as [|x rest IH]; cbn [ha_find_node_by_name].
  - split; [intros _ n []|reflexivity].
  - destruct (String.eqb_spec (node_name x) nm) as [E|E].
    + split; [discriminate|]. intros H. exfalso. apply (H x); [left; reflexivity|exact E].
    + rewrite IH. split.
      * intros H n [<-|Hin]; [exact E|apply H; exact Hin].
      * intros H n Hin. apply H. right. exact Hin.
Qed.

Lemma ha_find_node_by_name_some (nodes : list zbx_ha_node_t) (nm : string)
    (n : zbx_ha_node_t) :
  ha_find_node_by_name nodes nm = Some n -> In n nodes /\ node_name n = nm.
Proof.
  induction nodes as [|x rest IH]; cbn [ha_find_node_by_name]; [discriminate|].
  destruct (String.eqb_spec (node_name x) nm) as [E|E].
  - intros [= <-]. split; [left; reflexivity|exact E].
  - intros H. destruct (IH H) as [Hin Hn]. split; [right; exact Hin|exact Hn].
Qed.

(** X14. A tick that reads the node list and finds no row under this
    node's name: the manager's status becomes error with the message
    "cannot find server node "<name>" in registry", the transaction is
    rolled back without any statement having been executed, and the table
    is as before, whatever the driver answers to the rollback. *)
Theorem ha_check_nodes_missing_row (info : zbx_ha_info_t) (w : world) :
  ha_status info <> ZBX_NODE_STATUS_ERROR ->
  db_status info = ZBX_DB_OK ->
  outcome 0 w = ZBX_DB_OK ->
  outcome 1 w = ZBX_DB_OK ->
  (forall r, In r (view w) -> row_name r <> name info) ->
  let info' := fst (ha_check_nodes info w) in
  let w' := snd (ha_check_nodes info w) in
  ha_status info' = ZBX_NODE_STATUS_ERROR
  /\ error info'
     = Some ("cannot find server node " ++ DQUOTE ++ name info ++ DQUOTE ++ " in registry")
  /\ ha_node w' = ha_node w
  /\ txn w' = None
  /\ exists calls,
      trace w' = (trace w ++ calls)%list
      /\ map fst (filter is_txn_call calls) = [CallBegin; CallRollback].
Proof.
  intros Hst Hdb Ho0 Ho1 Hnone info' w'.
  set (msg := "cannot find server node " ++ DQUOTE ++ name info ++ DQUOTE ++ " in registry").
  set (w2 := after_ok (CallSelectNodes true) (set_txn (Some (view w)) (after_ok CallBegin w))).
  assert (Hfind : ha_find_node_by_name (map node_of_row (order_by_nodeid (view w))) (name info)
                  = None).
  { apply ha_find_node_by_name_none. intros n Hin.
    apply in_map_iff in Hin. destruct Hin as (r & <- & Hr).
    cbn [node_of_row node_name]. apply Hnone. exact (proj1 (order_by_nodeid_In _ _) Hr). }
  destruct (ha_set_error_fresh info msg Hst) as [Hes Hem].
  assert (Erun : ha_check_nodes info w = ha_db_rollback (ha_set_error info msg) w2).
  { unfold ha_check_nodes. rewrite (ha_db_begin_ok info w Hdb Ho0). rewrite Hdb.
    cbn [db_ok negb]. unfold ha_check_nodes_body.
    rewrite (ha_db_get_nodes_ok info true _ Hdb)
      by (rewrite (outcome_after 0 w) by reflexivity; exact Ho1).
    change (view (set_txn (Some (view w)) (after_ok CallBegin w))) with (view w).
    rewrite Hfind. unfold ha_check_nodes_out. fold msg. rewrite Hes.
    rewrite Z.eqb_refl. cbn [negb].
    pose proof (ha_db_rollback_latched (ha_set_error info msg) w2 Hes) as [Hl _].
    fold w2. destruct (ha_db_rollback (ha_set_error info msg) w2) as [i1 w1].
    cbn [fst] in Hl. rewrite Hl, Z.eqb_refl. reflexivity. }
  unfold info', w'. rewrite Erun.
  destruct (ha_db_rollback_latched (ha_set_error info msg) w2 Hes) as [L1 L2].
  destruct (ha_db_rollback_frame (ha_set_error info msg) w2) as [R1 R2].
  destruct (ha_db_rollback_trace (ha_set_error info msg) w2) as (calls & C1 & C2).
  split; [exact L1|]. split; [rewrite L2; exact Hem|]. split; [rewrite R1; reflexivity|].
  split; [exact R2|].
  exists ([(CallBegin, ZBX_DB_OK); (CallSelectNodes true, ZBX_DB_OK)] ++ calls)%list.
  split.
  - rewrite C1. unfold w2. cbn [after_ok trace set_trace set_txn set_faults].
    rewrite <- !app_assoc. reflexivity.
  - cbn [app filter is_txn_call fst map]. rewrite C2. reflexivity.
Qed.

(** X15. A tick of a standby node that does not take over, in a cluster
    with the database answering, the node's row bearing the session
    identifier of this process (25 characters): the active peer [a] is
    named, and either
    its lastaccess has moved since the last tick, or the count of silent
    ticks, raised by one, is still at most failover_delay / 5 + 1.  The
    manager stays standby, records the peer's lastaccess, and sets the count
    to 0 in the first case and one higher in the second; the transaction
    holds one statement, which sets the lastaccess of the node's own row to
    the database clock, and is committed. *)
Theorem ha_check_nodes_standby_waits (info : zbx_ha_info_t) (w : world) (a b : DB_ROW)
    (cfg : config_row) (v : Z) (i : nat) :
  ZBX_HA_IS_CLUSTER CONFIG_HA_NODE_NAME = true ->
  row_name a <> EmptyString ->
  row_ha_nodeid b = ha_nodeid info ->
  row_ha_nodeid a <> row_ha_nodeid b ->
  (String.length (row_ha_nodeid a) <= 25)%nat ->
  (String.length (row_ha_nodeid b) <= 25)%nat ->
  String.length (row_ha_sessionid b) = 25%nat ->
  row_ha_sessionid b = ha_sessionid ->
  row_status b = ZBX_NODE_STATUS_STANDBY ->
  ha_status info = ZBX_NODE_STATUS_STANDBY ->
  config w = Some cfg ->
  is_time_suffix (cfg_ha_failover_delay cfg) = Some v ->
  0 <= v <= INT_MAX ->
  db_status info = ZBX_DB_OK ->
  txn w = None ->
  faults w = [] ->
  0 <= offline_ticks_active info < INT_MAX ->
  (row_lastaccess a = lastaccess_active info ->
   offline_ticks_active info + 1 <= Z.quot v ZBX_HA_POLL_PERIOD + 1) ->
  ha_find_node_by_name (map node_of_row (order_by_nodeid (ha_node w))) (name info)
  = Some (node_of_row b) ->
  find_active (map node_of_row (order_by_nodeid (ha_node w))) 0 = Some (i, node_of_row a) ->
  let info' := fst (ha_check_nodes info w) in
  let w' := snd (ha_check_nodes info w) in
  ha_status info' = ZBX_NODE_STATUS_STANDBY
  /\ failover_delay info' = v
  /\ lastaccess_active info' = row_lastaccess a
  /\ offline_ticks_active info'
     = (if row_lastaccess a =? lastaccess_active info
        then offline_ticks_active info + 1 else 0)
  /\ ha_node w' = map (refresh_lastaccess (ha_nodeid info) (clock w)) (ha_node w)
  /\ txn w' = None
  /\ exists calls,
      trace w' = (trace w ++ calls)%list
      /\ map fst (filter is_txn_call calls)
         = [CallBegin; CallExecute (SqlUpdateNode true None [ha_nodeid info]); CallCommit].
Proof.
  intros Hcl Hnae Hidb Hidab Hla Hlb Hlsb Hsb Hstb Hsti Hcfg Hts Hv Hdb Htx Hf Hticks Hwait
         Hfind Hact info' w'.
  subst info' w'. rewrite <- apply_refresh_lastaccess.
  destruct w as [tbl tx cf clk fl tr am ap]. cbn [txn faults ha_node trace config clock] in *.
  subst tx fl cf.
  destruct info as [nid st dbs fd la ot al nm er].
  cbn [ha_status db_status ha_nodeid name lastaccess_active offline_ticks_active] in *.
  subst nid st dbs.
  assert (E2 : String.eqb (row_ha_nodeid a) (row_ha_nodeid b) = false)
    by (now apply String.eqb_neq).
  assert (E4 : str_empty (row_name a) = false) by (now apply str_empty_false).
  assert (E5 : int_add ot 1 = ot + 1)
    by (apply int_wrap_id; unfold is_int, INT_MIN, INT_MAX in *; lia).
  destruct (poll_threshold v Hv) as [E7 E8].
  pose proof (zbx_strlcpy_cuid _ Hla) as T1.
  pose proof (zbx_strlcpy_cuid _ Hlb) as T2.
  assert (T3 : zbx_strlcpy (row_ha_sessionid b) CUID_LEN = row_ha_sessionid b)
    by (apply zbx_strlcpy_cuid; rewrite Hlsb; apply le_n).
  assert (Hown : String.length ha_sessionid = 25%nat) by (rewrite <- Hsb; exact Hlsb).
  assert (F1 : (ZBX_NODE_STATUS_STANDBY =? ZBX_NODE_STATUS_ACTIVE) = false) by reflexivity.
  assert (F2 : (ZBX_NODE_STATUS_STANDBY =? ZBX_NODE_STATUS_ERROR) = false) by reflexivity.
  assert (F3 : (ZBX_NODE_STATUS_STANDBY =? ZBX_NODE_STATUS_STANDBY) = true) by reflexivity.
  remember (ha_check_nodes
              (mk_info (row_ha_nodeid b) ZBX_NODE_STATUS_STANDBY ZBX_DB_OK fd la
                 ot al nm er)
              (mk_world tbl None (Some cfg) clk [] tr am ap)) as res eqn:Erun.
  unfold ha_check_nodes in Erun. rewrite ha_db_begin_ok in Erun by reflexivity.
  wsimpl in Erun. unfold ha_check_nodes_body in Erun.
  rewrite ha_db_get_nodes_ok in Erun by reflexivity. wsimpl in Erun.
  rewrite Hfind in Erun. wsimpl in Erun. nsimpl in Erun.
  rewrite T2, T3, Hsb in Erun. rewrite (zbx_cuid_compare_same _ _ Hown) in Erun.
  wsimpl in Erun.
  match type of Erun with
  | context [if zbx_cuid_empty ?x then ?i else ?i] =>
      replace (if zbx_cuid_empty x then i else i) with i in Erun
        by (destruct (zbx_cuid_empty x); reflexivity)
  end.
  rewrite (ha_db_update_config_ok _ _ cfg v) in Erun by (try reflexivity; exact Hts).
  rewrite ha_db_get_time_ok in Erun by reflexivity.
  rewrite Hcl in Erun. wsimpl in Erun. rewrite F1 in Erun.
  unfold ha_check_active_node in Erun. rewrite Hact in Erun. wsimpl in Erun. nsimpl in Erun.
  rewrite E4, T1 in Erun. rewrite (zbx_cuid_compare_differ _ _ _ Hidab) in Erun.
  destruct (Z.eqb_spec (row_lastaccess a) la) as [Ela|Ela]; wsimpl in Erun.
  1: assert (E6 : (Z.quot v ZBX_HA_POLL_PERIOD + 1 <? ot + 1) = false)
       by (apply Z.ltb_ge; apply Hwait; exact Ela).
  2: assert (E6 : (Z.quot v ZBX_HA_POLL_PERIOD + 1 <? 0) = false) by (apply Z.ltb_ge; lia).
  all: rewrite ?E5, E7, E6 in Erun.
  all: unfold ha_check_nodes_update in Erun; wsimpl in Erun; nsimpl in Erun.
  all: rewrite Hstb, F3 in Erun; wsimpl in Erun.
  all: destruct (cfg_auditlog_enabled cfg =? ZBX_AUDITLOG_ENABLED) eqn:Eal.
  all: asimpl in Erun; rewrite ?Eal in Erun.
  all: rewrite ha_db_execute_ok in Erun by reflexivity.
  all: wsimpl in Erun; asimpl in Erun; rewrite ?Eal in Erun.
  all: rewrite ha_flush_audit_ok in Erun by reflexivity.
  all: wsimpl in Erun; asimpl in Erun; rewrite ?Eal in Erun.
  all: unfold ha_check_nodes_out in Erun; wsimpl in Erun; rewrite F2 in Erun.
  all: rewrite ha_db_commit_ok in Erun by reflexivity.
  all: wsimpl in Erun; rewrite F2 in Erun.
  all: subst res; cbn [fst snd ha_status ha_node txn trace failover_delay lastaccess_active
                       offline_ticks_active].
  all: split; [reflexivity|]; split; [reflexivity|]; split; [congruence|].
  all: split; [reflexivity|]; split; [reflexivity|]; split; [reflexivity|].
  all: eexists; split; [rewrite <- !app_assoc; reflexivity|reflexivity].
Qed.

(** X16. A tick of the active node in a cluster with the database
    answering, identifiers distinct and of at most 25 characters, the
    node's row bearing the session identifier of this process (25
    characters): the manager stays active and takes the failover delay from
    the configuration; one transaction is committed in which every standby
    row whose lease has run out becomes unavailable and the node's own row
    gets the database clock as lastaccess; no other row changes.  A lease
    has run out when lastaccess + failover_delay is at most the database
    time as the code reads it into an [int] ([atoi] of the clock).  The
    statement on the standby rows is only sent when there is such a row. *)
Theorem ha_check_nodes_active_tick (info : zbx_ha_info_t) (w : world) (b : DB_ROW)
    (cfg : config_row) (v : Z) :
  ZBX_HA_IS_CLUSTER CONFIG_HA_NODE_NAME = true ->
  row_ha_nodeid b = ha_nodeid info ->
  (String.length (row_ha_nodeid b) <= 25)%nat ->
  String.length (row_ha_sessionid b) = 25%nat ->
  row_ha_sessionid b = ha_sessionid ->
  row_status b = ZBX_NODE_STATUS_ACTIVE ->
  ha_status info = ZBX_NODE_STATUS_ACTIVE ->
  config w = Some cfg ->
  is_time_suffix (cfg_ha_failover_delay cfg) = Some v ->
  db_status info = ZBX_DB_OK ->
  txn w = None ->
  faults w = [] ->
  NoDup (map row_ha_nodeid (ha_node w)) ->
  (forall r, In r (ha_node w) -> (String.length (row_ha_nodeid r) <= 25)%nat) ->
  (forall r, In r (ha_node w) -> is_int (row_lastaccess r + v)) ->
  ha_find_node_by_name (map node_of_row (order_by_nodeid (ha_node w))) (name info)
  = Some (node_of_row b) ->
  let info' := fst (ha_check_nodes info w) in
  let w' := snd (ha_check_nodes info w) in
  let expired :=
    filter (standby_expired (set_failover_delay v info) (atoi (clock w)))
      (map node_of_row (order_by_nodeid (ha_node w))) in
  ha_status info' = ZBX_NODE_STATUS_ACTIVE
  /\ failover_delay info' = v
  /\ ha_node w'
     = map (refresh_lastaccess (ha_nodeid info) (clock w))
         (map (expire_standby v (atoi (clock w))) (ha_node w))
  /\ txn w' = None
  /\ exists calls,
      trace w' = (trace w ++ calls)%list
      /\ map fst (filter is_txn_call calls)
         = ([CallBegin]
            ++ match expired with
               | [] => []
               | _ :: _ =>
                   [CallExecute (SqlUpdateNode false (Some ZBX_NODE_STATUS_UNAVAILABLE)
                                   (map node_ha_nodeid expired))]
               end
            ++ [CallExecute (SqlUpdateNode true None [ha_nodeid info]); CallCommit])%list.
Proof.
  intros Hcl Hidb Hlb Hlsb Hsb Hstb Hsti Hcfg Hts Hdb Htx Hf Hnd Hlen Hint Hfind
         info' w' expired.
  subst info' w'. rewrite <- apply_refresh_lastaccess.
  destruct w as [tbl tx cf clk fl tr am ap]. cbn [txn faults ha_node trace config clock] in *.
  subst tx fl cf.
  destruct info as [nid st dbs fd la ot al nm er].
  cbn [ha_status db_status ha_nodeid name lastaccess_active offline_ticks_active] in *.
  subst nid st dbs.
  pose proof (zbx_strlcpy_cuid _ Hlb) as T2.
  assert (T3 : zbx_strlcpy (row_ha_sessionid b) CUID_LEN = row_ha_sessionid b)
    by (apply zbx_strlcpy_cuid; rewrite Hlsb; apply le_n).
  assert (Hown : String.length ha_sessionid = 25%nat) by (rewrite <- Hsb; exact Hlsb).
  assert (F1 : (ZBX_NODE_STATUS_ACTIVE =? ZBX_NODE_STATUS_ACTIVE) = true) by reflexivity.
  assert (F2 : (ZBX_NODE_STATUS_ACTIVE =? ZBX_NODE_STATUS_ERROR) = false) by reflexivity.
  remember (ha_check_nodes
              (mk_info (row_ha_nodeid b) ZBX_NODE_STATUS_ACTIVE ZBX_DB_OK fd la
                 ot al nm er)
              (mk_world tbl None (Some cfg) clk [] tr am ap)) as res eqn:Erun.
  unfold ha_check_nodes in Erun. rewrite ha_db_begin_ok in Erun by reflexivity.
  wsimpl in Erun. unfold ha_check_nodes_body in Erun.
  rewrite ha_db_get_nodes_ok in Erun by reflexivity. wsimpl in Erun.
  rewrite Hfind in Erun. wsimpl in Erun. nsimpl in Erun.
  rewrite T2, T3, Hsb in Erun. rewrite (zbx_cuid_compare_same _ _ Hown) in Erun.
  wsimpl in Erun.
  match type of Erun with
  | context [if zbx_cuid_empty ?x then ?i else ?i] =>
      replace (if zbx_cuid_empty x then i else i) with i in Erun
        by (destruct (zbx_cuid_empty x); reflexivity)
  end.
  rewrite (ha_db_update_config_ok _ _ cfg v) in Erun by (try reflexivity; exact Hts).
  rewrite ha_db_get_time_ok in Erun by reflexivity.
  rewrite Hcl in Erun. wsimpl in Erun. rewrite F1 in Erun.
  match type of Erun with
  | context [ha_check_standby_nodes ?i ?n ?t ?x] =>
      destruct (ha_check_standby_nodes_run i tbl t x)
        as (w5 & E5 & N5 & T5 & C5 & G5 & F5 & calls5 & R5 & Q5);
        [reflexivity|reflexivity|exact Hnd|exact Hlen|exact Hint|reflexivity|reflexivity|]
  end.
  cbv zeta in E5. rewrite E5 in Erun.
  destruct w5 as [tbl5 tx5 cf5 clk5 fl5 tr5 am5 ap5].
  cbn [ha_node txn clock config faults trace failover_delay] in N5, T5, C5, G5, F5, R5.
  specialize (F5 eq_refl). subst tbl5 tx5 clk5 cf5 fl5 tr5.
  wsimpl in Erun.
  unfold ha_check_nodes_update in Erun; wsimpl in Erun; nsimpl in Erun.
  rewrite Hstb, F1 in Erun; wsimpl in Erun.
  destruct (cfg_auditlog_enabled cfg =? ZBX_AUDITLOG_ENABLED) eqn:Eal.
  all: asimpl in Erun; rewrite ?Eal in Erun.
  all: rewrite ha_db_execute_ok in Erun by reflexivity.
  all: wsimpl in Erun; asimpl in Erun; rewrite ?Eal in Erun.
  all: rewrite ha_flush_audit_ok in Erun by reflexivity.
  all: wsimpl in Erun; asimpl in Erun; rewrite ?Eal in Erun.
  all: unfold ha_check_nodes_out in Erun; wsimpl in Erun; rewrite F2 in Erun.
  all: rewrite ha_db_commit_ok in Erun by reflexivity.
  all: wsimpl in Erun; rewrite F2 in Erun.
  all: subst res; cbn [fst snd ha_status ha_node txn trace failover_delay].
  all: split; [reflexivity|]; split; [reflexivity|]; split; [reflexivity|].
  all: split; [reflexivity|].
  all: eexists; split; [rewrite <- !app_assoc; reflexivity|].
  all: cbn [app filter is_txn_call fst map].
  all: rewrite !filter_app, !map_app, Q5; reflexivity.
Qed.

(** ** The receiver's failures and the standalone server *)

Lemma existsb_first {A : Type} (f : A -> bool) (l : list A) :
  existsb f l = true ->
  exists pre x post, l = (pre ++ x :: post)%list /\ existsb f pre = false /\ f x = true.
Proof.
  induction l as [|a l IH]; cbn [existsb]; [discriminate|].
  destruct (f a) eqn:Ea; cbn [orb].
  - intros _. exists [], a, l. repeat split. exact Ea.
  - intros H. destruct (IH H) as (pre & x & post & -> & Hp & Hx).
    exists (a :: pre), x, post. split; [reflexivity|]. split; [|exact Hx].
    cbn [existsb]. rewrite Ea. exact Hp.
Qed.

Lemma recv_loop_skip (pre rest : list recv_event) (now_end : Z) (st : recv_statics)
    (ha_status : Z) (err : option string) :
  existsb recv_fatal pre = false ->
  exists st' err',
    recv_loop (pre ++ rest) now_end st ha_status err
    = recv_loop rest now_end st' (last_status ha_status pre) err'.
Proof.
  revert st ha_status err. induction pre as [|ev pre IH]; intros st hs err Hp.
  - exists st, err. reflexivity.
  - cbn [existsb] in Hp. apply Bool.orb_false_iff in Hp. destruct Hp as [Hev Hp].
    destruct ev as [|m t]; [discriminate Hev|].
    destruct m as [s d e| |]; cbn [recv_fatal] in Hev; cbn [app recv_loop last_status fold_left].
    + rewrite Hev. apply IH. exact Hp.
    + apply IH. exact Hp.
    + apply IH. exact Hp.
Qed.

Lemma last_status_not_error (status : Z) (incoming : list recv_event) :
  status <> ZBX_NODE_STATUS_ERROR ->
  existsb recv_fatal incoming = false ->
  last_status status incoming <> ZBX_NODE_STATUS_ERROR.
Proof.
  revert status. induction incoming as [|ev l IH]; intros s Hs Hp; [exact Hs|].
  cbn [existsb] in Hp. apply Bool.orb_false_iff in Hp. destruct Hp as [Hev Hp].
  unfold last_status. cbn [fold_left]. apply IH; [|exact Hp].
  destruct ev as [|[s' d e| |] t]; try exact Hs.
  cbn [recv_fatal] in Hev. apply Z.eqb_neq. exact Hev.
Qed.

(** A call that receives neither a heartbeat nor a change of status, made
    while the status is active: it succeeds, the recorded heartbeat time is
    kept, the delay is that of the last update, and on a cluster member the
    status is forced to standby when the heartbeat is old enough. *)
Lemma recv_next_quiet (cfg : option string) (r : recv_result) (incoming : list recv_event)
    (now : Z) :
  recv_ha_status r = ZBX_NODE_STATUS_ACTIVE ->
  Forall (quiet ZBX_NODE_STATUS_ACTIVE) incoming ->
  let r' := recv_next cfg r (incoming, now) in
  recv_ret r' = SUCCEED
  /\ last_hb (recv_st r') = last_hb (recv_st r)
  /\ ha_failover_delay (recv_st r') = last_delay (ha_failover_delay (recv_st r)) incoming
  /\ (ZBX_HA_IS_CLUSTER cfg = true -> last_hb (recv_st r) <> 0 ->
      last_hb (recv_st r) + ha_failover_delay (recv_st r') - ZBX_HA_POLL_PERIOD <= now ->
      recv_ha_status r' = ZBX_NODE_STATUS_STANDBY).
Proof.
  intros Hs Hq r'. subst r'. unfold recv_next, zbx_ha_recv_status. cbn [fst snd].
  rewrite Hs.
  destruct (recv_loop_quiet incoming now (recv_st r) (recv_error r) Hq) as [err' E].
  rewrite E. cbn [last_hb ha_failover_delay]. rewrite Z.eqb_refl.
  destruct (ZBX_HA_IS_CLUSTER cfg); cbn [andb].
  2: { repeat split. intros H; discriminate H. }
  destruct (Z.eqb_spec (last_hb (recv_st r)) 0) as [E0|E0]; cbn [negb].
  { repeat split. intros _ H; contradiction. }
  destruct (Z.leb_spec
              (last_hb (recv_st r)
               + last_delay (ha_failover_delay (recv_st r)) incoming - ZBX_HA_POLL_PERIOD)
              now) as [Hle|Hgt]; cbn [orb].
  { repeat split. }
  destruct (now <? last_hb (recv_st r)); cbn [recv_ret recv_st recv_ha_status last_hb
                                               ha_failover_delay].
  { repeat split. }
  repeat split. intros _ _ H. exfalso. apply (Z.lt_irrefl now).
  eapply Z.lt_le_trans; [exact Hgt|exact H].
Qed.

(** Calls that receive neither a heartbeat nor a change of status, the
    status being active before each of them and after the last: the
    recorded heartbeat time is still the same. *)
Lemma recv_calls_quiet (cfg : option string) (calls : list (list recv_event * Z))
    (r : recv_result) :
  Forall (fun call => Forall (quiet ZBX_NODE_STATUS_ACTIVE) (fst call)) calls ->
  (forall k, recv_ha_status (recv_calls cfg r (firstn k calls)) = ZBX_NODE_STATUS_ACTIVE) ->
  last_hb (recv_st (recv_calls cfg r calls)) = last_hb (recv_st r)
  /\ recv_ha_status (recv_calls cfg r calls) = ZBX_NODE_STATUS_ACTIVE.
Proof.
  revert r. induction calls as [|[incoming now] rest IH]; intros r Hq Hk.
  - split; [reflexivity|]. exact (Hk 0%nat).
  - inversion Hq as [|? ? Hq1 Hq2]; subst.
    pose proof (Hk 0%nat) as H0. cbn [firstn recv_calls fold_left] in H0.
    destruct (recv_next_quiet cfg r incoming now H0 Hq1) as (_ & Hhb & _).
    unfold recv_calls. cbn [fold_left].
    destruct (IH (recv_next cfg r (incoming, now)) Hq2) as [IH1 IH2].
    + intros k. exact (Hk (S k)).
    + unfold recv_calls in IH1, IH2. split; [|exact IH2].
      rewrite IH1. exact Hhb.
Qed.

(** C3, as the code has it.  On a cluster member, let a heartbeat arrive at
    a time [t] other than 0 while the status is active, and let the status
    stay active from then on, through the rest of that call and through any
    number of further calls, none of which receives a heartbeat or a change
    of status.  Then the next call that receives neither and reads a time at
    which the heartbeat is failover_delay - 5 seconds old returns the status
    standby.  The failover delay is the one the receiver holds at that
    comparison, that of the last status update. *)
Theorem recv_status_heartbeat_timeout (cfg : option string) (st0 : recv_statics)
    (status0 : Z) (err0 : option string) (before rest : list recv_event) (t now1 : Z)
    (calls : list (list recv_event * Z)) (incoming : list recv_event) (now : Z) :
  ZBX_HA_IS_CLUSTER cfg = true ->
  existsb recv_fatal before = false ->
  last_status status0 before = ZBX_NODE_STATUS_ACTIVE ->
  Forall (quiet ZBX_NODE_STATUS_ACTIVE) rest ->
  Forall (fun call => Forall (quiet ZBX_NODE_STATUS_ACTIVE) (fst call)) calls ->
  Forall (quiet ZBX_NODE_STATUS_ACTIVE) incoming ->
  t <> 0 ->
  let r1 := zbx_ha_recv_status cfg st0
              (before ++ RecvMessage ZBX_IPC_SERVICE_HA_HEARTBEAT t :: rest) now1
              status0 err0 in
  let r := recv_next cfg (recv_calls cfg r1 calls) (incoming, now) in
  (forall k, recv_ha_status (recv_calls cfg r1 (firstn k calls)) = ZBX_NODE_STATUS_ACTIVE) ->
  t + ha_failover_delay (recv_st r) - ZBX_HA_POLL_PERIOD <= now ->
  recv_ret r = SUCCEED /\ recv_ha_status r = ZBX_NODE_STATUS_STANDBY.
Proof.
  intros Hc Hbefore Hlast Hrest Hcalls Hinc Ht r1 r Hactive Hold.
  assert (H1 : last_hb (recv_st r1) = t).
  { subst r1. unfold zbx_ha_recv_status.
    destruct (recv_loop_skip before (RecvMessage ZBX_IPC_SERVICE_HA_HEARTBEAT t :: rest)
                now1 st0 status0 err0 Hbefore) as (st' & err' & ->).
    rewrite Hlast. cbn [recv_loop].
    destruct (recv_loop_quiet rest now1 (mk_statics t (ha_failover_delay st')) err' Hrest)
      as [err2 ->].
    cbn [last_hb ha_failover_delay].
    destruct (ZBX_HA_IS_CLUSTER cfg && (ZBX_NODE_STATUS_ACTIVE =? ZBX_NODE_STATUS_ACTIVE)
              && negb (t =? 0)); [|reflexivity].
    destruct ((t + last_delay (ha_failover_delay st') rest - ZBX_HA_POLL_PERIOD <=? now1)
              || (now1 <? t)); reflexivity. }
  destruct (recv_calls_quiet cfg calls r1 Hcalls Hactive) as [Hhb Hst].
  rewrite H1 in Hhb.
  destruct (recv_next_quiet cfg (recv_calls cfg r1 calls) incoming now Hst Hinc)
    as (Hret & _ & _ & Hforce).
  split; [exact Hret|].
  apply Hforce; [exact Hc|rewrite Hhb; exact Ht|rewrite Hhb; exact Hold].
Qed.

(** X17. The receiver returns failure exactly when one of its turns is
    fatal: the socket fails, or the manager reports status error.  The
    status returned is then error and the error text is the one of the
    first such turn: "cannot receive message from HA manager service" for
    the socket, the manager's own text for a reported error.  When it
    returns success, the status is never error, provided the caller's was
    not. *)
Theorem zbx_ha_recv_status_failure (st : recv_statics) (incoming : list recv_event)
    (now_end : Z) (ha_status : Z) (err : option string) :
  let r := zbx_ha_recv_status CONFIG_HA_NODE_NAME st incoming now_end ha_status err in
  (recv_ret r = FAIL <-> existsb recv_fatal incoming = true)
  /\ (recv_ret r = FAIL -> recv_ha_status r = ZBX_NODE_STATUS_ERROR)
  /\ (forall pre ev post,
        incoming = (pre ++ ev :: post)%list ->
        existsb recv_fatal pre = false -> recv_fatal ev = true ->
        recv_error r = recv_fatal_error ev)
  /\ (ha_status <> ZBX_NODE_STATUS_ERROR ->
      recv_ret r = SUCCEED -> recv_ha_status r <> ZBX_NODE_STATUS_ERROR).
Proof.
  intros r.
  assert (Hfatal : forall pre ev post,
             incoming = (pre ++ ev :: post)%list ->
             existsb recv_fatal pre = false -> recv_fatal ev = true ->
             recv_ret r = FAIL /\ recv_ha_status r = ZBX_NODE_STATUS_ERROR
             /\ recv_error r = recv_fatal_error ev).
  { intros pre ev post -> Hp Hev. subst r. unfold zbx_ha_recv_status.
    destruct (recv_loop_skip pre (ev :: post) now_end st ha_status err Hp) as (st' & e' & ->).
    destruct ev as [|[s d e| |] t]; cbn [recv_fatal] in Hev; try discriminate Hev;
      cbn [recv_loop]; rewrite ?Hev; repeat split. }
  assert (Hclean : existsb recv_fatal incoming = false ->
                   recv_ret r = SUCCEED
                   /\ (ha_status <> ZBX_NODE_STATUS_ERROR ->
                       recv_ha_status r <> ZBX_NODE_STATUS_ERROR)).
  { intros Hp. subst r. unfold zbx_ha_recv_status.
    destruct (recv_loop_skip incoming [] now_end st ha_status err Hp) as (st' & e' & E).
    rewrite app_nil_r in E. rewrite E. cbn [recv_loop].
    pose proof (fun H => last_status_not_error ha_status incoming H Hp) as Hne.
    destruct (ZBX_HA_IS_CLUSTER CONFIG_HA_NODE_NAME
              && (last_status ha_status incoming =? ZBX_NODE_STATUS_ACTIVE)
              && negb (last_hb st' =? 0));
      [destruct ((last_hb st' + ha_failover_delay st' - ZBX_HA_POLL_PERIOD <=? now_end)
                 || (now_end <? last_hb st'))|];
      cbn [recv_ret recv_ha_status]; split; try reflexivity; try exact Hne.
    intros _. discriminate. }
  destruct (existsb recv_fatal incoming) eqn:Ex.
  - destruct (existsb_first _ _ Ex) as (pre & ev & post & E & Hp & Hev).
    destruct (Hfatal pre ev post E Hp Hev) as (R1 & R2 & R3).
    split; [split; intros _; [reflexivity|exact R1]|]. split; [intros _; exact R2|].
    split; [|intros _ H; rewrite R1 in H; discriminate H].
    intros pre' ev' post' E' Hp' Hev'. apply (Hfatal pre' ev' post' E' Hp' Hev').
  - destruct (Hclean eq_refl) as [R1 R2].
    split; [split; intros H; [rewrite R1 in H; discriminate H|discriminate H]|].
    split; [intros H; rewrite R1 in H; discriminate H|].
    split; [|intros Hs _; apply R2; exact Hs].
    intros pre ev post E Hp Hev. apply (Hfatal pre ev post E Hp Hev).
Qed.

(** X18. Outside a cluster the receiver never turns active into standby:
    when no turn is fatal it returns success with the status the manager
    reported last, or the caller's status when the manager reported none,
    however old the last heartbeat is. *)
Theorem zbx_ha_recv_status_standalone (st : recv_statics) (incoming : list recv_event)
    (now_end : Z) (ha_status : Z) (err : option string) :
  ZBX_HA_IS_CLUSTER CONFIG_HA_NODE_NAME = false ->
  existsb recv_fatal incoming = false ->
  let r := zbx_ha_recv_status CONFIG_HA_NODE_NAME st incoming now_end ha_status err in
  recv_ret r = SUCCEED /\ recv_ha_status r = last_status ha_status incoming.
Proof.
  intros Hcl Hp r. subst r. unfold zbx_ha_recv_status.
  destruct (recv_loop_skip incoming [] now_end st ha_status err Hp) as (st' & e' & E).
  rewrite app_nil_r in E. rewrite E. cbn [recv_loop]. rewrite Hcl. cbn [andb].
  split; reflexivity.
Qed.

(** ** Names of the statuses, a read that fails, and the rollback *)

(** X19. The name of a status: the five statuses standby, stopped,
    unavailable, active and error have five different names, and every
    other value, unknown and uninitialized among them, is called
    "unknown". *)
Theorem zbx_ha_status_str_names (a b : Z) :
  (zbx_ha_status_str a = "unknown"%string <->
   a <> ZBX_NODE_STATUS_STANDBY /\ a <> ZBX_NODE_STATUS_STOPPED
   /\ a <> ZBX_NODE_STATUS_UNAVAILABLE /\ a <> ZBX_NODE_STATUS_ACTIVE
   /\ a <> ZBX_NODE_STATUS_ERROR)
  /\ (zbx_ha_status_str a <> "unknown"%string ->
      zbx_ha_status_str a = zbx_ha_status_str b -> a = b).
Proof.
  unfold zbx_ha_status_str, ZBX_NODE_STATUS_STANDBY, ZBX_NODE_STATUS_STOPPED,
    ZBX_NODE_STATUS_UNAVAILABLE, ZBX_NODE_STATUS_ACTIVE, ZBX_NODE_STATUS_ERROR.
  split.
  - destruct (Z.eqb_spec a 0); [split; [discriminate|lia]|].
    destruct (Z.eqb_spec a 1); [split; [discriminate|lia]|].
    destruct (Z.eqb_spec a 2); [split; [discriminate|lia]|].
    destruct (Z.eqb_spec a 3); [split; [discriminate|lia]|].
    destruct (Z.eqb_spec a (-2)); [split; [discriminate|lia]|].
    split; [intros _; repeat split; assumption|reflexivity].
  - destruct (Z.eqb_spec a 0); [|destruct (Z.eqb_spec a 1);
      [|destruct (Z.eqb_spec a 2); [|destruct (Z.eqb_spec a 3);
        [|destruct (Z.eqb_spec a (-2)); [|intros H; contradiction H; reflexivity]]]]];
      intros _;
      (destruct (Z.eqb_spec b 0); [|destruct (Z.eqb_spec b 1);
        [|destruct (Z.eqb_spec b 2); [|destruct (Z.eqb_spec b 3);
          [|destruct (Z.eqb_spec b (-2))]]]]);
      intros H; try discriminate H; congruence.
Qed.

(** X20. A tick whose read of the node list the driver does not answer,
    after a begin that went through: the table is as it was and no
    transaction is left open.  When the read failed the manager's status
    becomes error with the message "database error"; when the database was
    found offline the connection is closed and status and error stay as
    they were, so that the next tick connects again. *)
Theorem ha_check_nodes_read_fails (info : zbx_ha_info_t) (w : world) :
  ha_status info <> ZBX_NODE_STATUS_ERROR ->
  db_status info = ZBX_DB_OK ->
  outcome 0 w = ZBX_DB_OK ->
  outcome 1 w <> ZBX_DB_OK ->
  let info' := fst (ha_check_nodes info w) in
  let w' := snd (ha_check_nodes info w) in
  ha_node w' = ha_node w
  /\ txn w' = None
  /\ db_status info' = outcome 1 w
  /\ (outcome 1 w = ZBX_DB_FAIL ->
      ha_status info' = ZBX_NODE_STATUS_ERROR /\ error info' = Some "database error"%string)
  /\ (outcome 1 w = ZBX_DB_DOWN ->
      ha_status info' = ha_status info /\ error info' = error info
      /\ exists calls, trace w' = (trace w ++ calls ++ [(CallClose, ZBX_DB_OK)])%list).
Proof.
  intros Hst Hdb Ho0 Ho1 info' w'. subst info' w'.
  apply Z.eqb_neq in Hst. unfold outcome in *.
  destruct w as [tbl tx cf clk fl tr am ap]. cbn [faults] in *.
  destruct info as [nid st dbs fd la ot al nm er]. cbn [db_status ha_status] in *. subst dbs.
  destruct fl as [|f0 [|f1 fs]]; cbn [nth] in *;
    [contradiction Ho1; reflexivity|subst f0; contradiction Ho1; reflexivity|]. subst f0.
  destruct f1; [contradiction Ho1; reflexivity| |]; clear Ho1.
  all: match goal with
       | |- context [ha_check_nodes ?i ?x] => remember (ha_check_nodes i x) as res eqn:Erun
       end.
  all: unfold ha_check_nodes in Erun; rewrite ha_db_begin_ok in Erun by reflexivity.
  all: wsimpl in Erun; unfold ha_check_nodes_body in Erun.
  all: unfold ha_db_get_nodes, ha_db_select in Erun; wsimpl in Erun.
  all: unfold driver_call in Erun; wsimpl in Erun.
  all: unfold ha_check_nodes_out in Erun; wsimpl in Erun; rewrite Hst in Erun; wsimpl in Erun.
  all: unfold ha_db_commit in Erun; wsimpl in Erun.
  all: unfold zbx_db_rollback, driver_call in Erun; wsimpl in Erun.
  all: destruct fs as [|f2 fs]; wsimpl in Erun.
  all: unfold DBclose, ha_set_error in Erun; wsimpl in Erun; rewrite ?Hst in Erun;
       wsimpl in Erun.
  all: try change (ZBX_NODE_STATUS_ERROR =? ZBX_NODE_STATUS_ERROR) with true in Erun;
       cbv iota in Erun.
  all: subst res; cbn [fst snd ha_status db_status error ha_node txn trace].
  all: split; [reflexivity|]; split; [reflexivity|]; split; [reflexivity|].
  all: split; [intros H; try discriminate H; split; reflexivity|].
  all: intros H;
       first [discriminate H
             |split; [reflexivity|]; split; [reflexivity|];
              eexists; rewrite (app_assoc tr); f_equal; rewrite <- !app_assoc; reflexivity].
Qed.

(** X3. The begin of a transaction, whatever the driver answers: the
    committed table, the clock and the configuration are as they were.  A
    database that was offline is connected first, and the transaction is
    begun only on a connection that answers; a connection that has failed is
    not tried again.  The status returned is the answer to the last call
    made.  On ok a transaction is open on the table as it was and the
    manager's role is as before; on offline the role is as before and no
    transaction has been opened; on failure the status is error. *)
Theorem ha_db_begin_outcomes (info : zbx_ha_info_t) (w : world) :
  let '(info', w') := ha_db_begin info w in
  (ha_node w' = ha_node w /\ clock w' = clock w /\ config w' = config w)
  /\ (db_status info = ZBX_DB_FAIL ->
      w' = w /\ db_status info' = ZBX_DB_FAIL /\ ha_status info' = ZBX_NODE_STATUS_ERROR)
  /\ (db_status info = ZBX_DB_OK ->
      db_status info' = outcome 0 w
      /\ map fst (skipn (List.length (trace w)) (trace w')) = [CallBegin])
  /\ (db_status info = ZBX_DB_DOWN ->
      (outcome 0 w <> ZBX_DB_OK ->
       db_status info' = outcome 0 w
       /\ map fst (skipn (List.length (trace w)) (trace w')) = [CallConnect])
      /\ (outcome 0 w = ZBX_DB_OK ->
          db_status info' = outcome 1 w
          /\ map fst (skipn (List.length (trace w)) (trace w')) = [CallConnect; CallBegin]))
  /\ (db_status info' = ZBX_DB_OK -> txn w' = Some (view w) /\ keeps_role info info')
  /\ (db_status info' = ZBX_DB_DOWN -> txn w' = txn w /\ keeps_role info info')
  /\ (db_status info' = ZBX_DB_FAIL ->
      txn w' = txn w /\ ha_status info' = ZBX_NODE_STATUS_ERROR).
Proof.
  destruct info as [nid st dbs fd la ot al nm er]. destruct w as [tbl tx cf clk fl tr am ap].
  unfold keeps_role, outcome.
  destruct dbs; destruct fl as [|[| |] [|[| |] fs]];
    destruct (st =? ZBX_NODE_STATUS_ERROR) eqn:Est;
    cbv [ha_db_begin DBconnect zbx_db_begin driver_call ha_set_error set_db_status
         set_ha_status set_error set_trace set_faults set_txn view db_ok nth
         ha_node txn config clock faults trace audit_mode audit_pending
         ha_nodeid ha_status db_status failover_delay lastaccess_active
         offline_ticks_active auditlog name error fst snd];
    rewrite ?Est;
    repeat split; intros; try discriminate; try reflexivity; try congruence;
    try (apply Z.eqb_eq; exact Est);
    try (rewrite <- ?app_assoc; rewrite skipn_app, skipn_all, Nat.sub_diag; reflexivity).
Qed.

(** X4. A commit, whatever the driver answers: no transaction is left
    open.  The commit is sent only when the database was answering; when it
    was not, or the commit is not accepted, the transaction is rolled back
    and the committed table is as it was.  When the commit is accepted the
    transaction's table becomes the committed table and the manager's role
    is as before.  A failure makes the status error; an offline database
    leaves the role alone. *)
Theorem ha_db_commit_outcomes (info : zbx_ha_info_t) (w : world) :
  let '(info', w') := ha_db_commit info w in
  txn w' = None
  /\ (db_status info <> ZBX_DB_OK ->
      db_status info' = db_status info /\ ha_node w' = ha_node w
      /\ hd_error (map fst (skipn (List.length (trace w)) (trace w'))) = Some CallRollback)
  /\ (db_status info = ZBX_DB_OK ->
      db_status info' = outcome 0 w
      /\ hd_error (map fst (skipn (List.length (trace w)) (trace w'))) = Some CallCommit)
  /\ (db_status info' = ZBX_DB_OK ->
      db_status info = ZBX_DB_OK /\ ha_node w' = view w /\ keeps_role info info')
  /\ (db_status info' <> ZBX_DB_OK -> ha_node w' = ha_node w)
  /\ (db_status info' = ZBX_DB_FAIL -> ha_status info' = ZBX_NODE_STATUS_ERROR)
  /\ (db_status info' = ZBX_DB_DOWN -> keeps_role info info').
Proof.
  destruct info as [nid st dbs fd la ot al nm er]. destruct w as [tbl tx cf clk fl tr am ap].
  unfold keeps_role, outcome.
  destruct dbs; destruct fl as [|[| |] [|[| |] fs]];
    destruct (st =? ZBX_NODE_STATUS_ERROR) eqn:Est;
    cbv [ha_db_commit zbx_db_commit zbx_db_rollback DBclose driver_call ha_set_error
         set_db_status set_ha_status set_error set_trace set_faults set_txn set_ha_node
         view db_ok nth ha_node txn config clock faults trace audit_mode audit_pending
         ha_nodeid ha_status db_status failover_delay lastaccess_active
         offline_ticks_active auditlog name error fst snd];
    rewrite ?Est;
    repeat split; intros; try discriminate; try reflexivity; try congruence;
    try (apply Z.eqb_eq; exact Est);
    try (rewrite <- ?app_assoc; rewrite skipn_app, skipn_all, Nat.sub_diag; reflexivity).
Qed.

(** X21. A rollback, whatever the driver answers: the committed table is
    as it was and no transaction is left open; a failure makes the status
    error, any other answer leaves status and error as they were, and an
    error that is already set is never replaced. *)
Theorem ha_db_rollback_outcomes (info : zbx_ha_info_t) (w : world) :
  ha_node (snd (ha_db_rollback info w)) = ha_node w
  /\ txn (snd (ha_db_rollback info w)) = None
  /\ db_status (fst (ha_db_rollback info w)) = outcome 0 w
  /\ (outcome 0 w = ZBX_DB_FAIL ->
      ha_status (fst (ha_db_rollback info w)) = ZBX_NODE_STATUS_ERROR)
  /\ (outcome 0 w <> ZBX_DB_FAIL -> keeps_role info (fst (ha_db_rollback info w)))
  /\ (ha_status info = ZBX_NODE_STATUS_ERROR -> keeps_role info (fst (ha_db_rollback info w))).
Proof.
  unfold outcome, keeps_role.
  destruct w as [tbl tx cf clk fl tr am ap]. cbn [faults].
  destruct info as [nid st dbs fd la ot al nm er].
  destruct fl as [|[| |] fs]; cbn [nth];
    destruct (st =? ZBX_NODE_STATUS_ERROR) eqn:Est;
    cbv [ha_db_rollback zbx_db_rollback DBclose driver_call ha_set_error set_db_status
         set_ha_status set_error set_trace set_faults set_txn ha_node txn config clock faults
         trace audit_mode audit_pending ha_nodeid ha_status db_status failover_delay
         lastaccess_active offline_ticks_active auditlog name error fst snd];
    rewrite ?Est;
    repeat split; intros; try discriminate; try reflexivity; try congruence;
    try (apply Z.eqb_eq; exact Est);
    try (apply Z.eqb_neq in Est; contradiction).
Qed.

(** ** The search by name, the two database primitives and the
    configuration *)

(** X22. The search by name returns the first node of the list that bears
    the name, and nothing exactly when no node bears it. *)
Theorem ha_find_node_by_name_first (nodes : list zbx_ha_node_t) (nm : string) :
  (forall n,
     ha_find_node_by_name nodes nm = Some n <->
     exists before after,
       nodes = (before ++ n :: after)%list /\ node_name n = nm
       /\ forall m, In m before -> node_name m <> nm)
  /\ (ha_find_node_by_name nodes nm = None <-> forall n, In n nodes -> node_name n <> nm).
Proof.
  split; [|apply ha_find_node_by_name_none].
  induction nodes as [|x rest IH]; intros n; cbn [ha_find_node_by_name].
  - split; [discriminate|]. intros (before & after & E & _). destruct before; discriminate E.
  - destruct (String.eqb_spec (node_name x) nm) as [E|E].
    + split.
      * intros [= <-]. exists [], rest. split; [reflexivity|]. split; [exact E|intros m []].
      * intros (before & after & El & Hn & Hb). destruct before as [|y before].
        -- cbn in El. injection El as -> _. reflexivity.
        -- cbn in El. injection El as <- _. exfalso. apply (Hb x); [left; reflexivity|exact E].
    + rewrite IH. split.
      * intros (before & after & -> & Hn & Hb). exists (x :: before), after.
        split; [reflexivity|]. split; [exact Hn|].
        intros m [<-|Hm]; [exact E|apply Hb; exact Hm].
      * intros (before & after & El & Hn & Hb). destruct before as [|y before].
        -- cbn in El. injection El as -> _. contradiction.
        -- cbn in El. injection El as _ ->. exists before, after.
           split; [reflexivity|]. split; [exact Hn|].
           intros m Hm. apply Hb. right. exact Hm.
Qed.

(** X23. A select, whatever the driver answers: it never changes the
    table, an open transaction or the manager's role, and by itself never
    sets the error status.  With the database not answering before, no call
    is made at all.  Otherwise the driver's answer becomes the database
    status, and a result is returned exactly when that answer is ok. *)
Theorem ha_db_select_outcomes {A : Type} (c : db_call) (read : world -> A)
    (info : zbx_ha_info_t) (w : world) :
  let '(res, info', w') := ha_db_select c read info w in
  reads_only w w'
  /\ keeps_role info info'
  /\ (db_status info <> ZBX_DB_OK -> res = None /\ info' = info /\ w' = w)
  /\ (db_status info = ZBX_DB_OK ->
      db_status info' = outcome 0 w
      /\ trace w' = (trace w ++ [(c, outcome 0 w)])%list
      /\ (outcome 0 w = ZBX_DB_OK -> res = Some (read w') /\ info' = info)
      /\ (outcome 0 w <> ZBX_DB_OK -> res = None)).
Proof.
  unfold ha_db_select, outcome, reads_only, keeps_role.
  destruct w as [tbl tx cf clk fl tr am ap]. cbn [faults].
  destruct info as [nid st dbs fd la ot al nm er].
  destruct dbs; destruct fl as [|[| |] fs];
    cbv [driver_call set_db_status set_trace set_faults db_ok negb nth
         ha_node txn config clock faults trace audit_mode audit_pending
         ha_nodeid ha_status db_status failover_delay lastaccess_active
         offline_ticks_active auditlog name error fst snd];
    repeat split; intros; try discriminate; try reflexivity; try congruence.
Qed.

(** X24. A statement, whatever the driver answers: with the database not
    answering before, it fails without any call.  Otherwise the driver's
    answer becomes the database status and the statement succeeds exactly
    when that answer is ok; the table as the manager sees it has then
    changed by the statement, and is as it was when the statement failed.
    The manager's role is never touched. *)
Theorem ha_db_execute_outcomes (info : zbx_ha_info_t) (s : sql_stmt) (w : world) :
  let '(ret, info', w') := ha_db_execute info s w in
  keeps_role info info'
  /\ (db_status info <> ZBX_DB_OK -> ret = FAIL /\ info' = info /\ w' = w)
  /\ (db_status info = ZBX_DB_OK ->
      db_status info' = outcome 0 w
      /\ trace w' = (trace w ++ [(CallExecute s, outcome 0 w)])%list
      /\ (ret = SUCCEED <-> outcome 0 w = ZBX_DB_OK))
  /\ (ret = SUCCEED -> view w' = apply_stmt (clock w) s (view w))
  /\ (ret = FAIL -> view w' = view w /\ ha_node w' = ha_node w).
Proof.
  unfold ha_db_execute, zbx_db_vexecute, outcome, keeps_role.
  destruct w as [tbl tx cf clk fl tr am ap]. cbn [faults].
  destruct info as [nid st dbs fd la ot al nm er].
  destruct dbs; destruct fl as [|[| |] fs]; destruct tx as [t|];
    cbv [driver_call set_db_status set_trace set_faults set_view set_txn set_ha_node view
         db_ok negb nth ha_node txn config clock faults trace audit_mode audit_pending
         ha_nodeid ha_status db_status failover_delay lastaccess_active
         offline_ticks_active auditlog name error fst snd];
    repeat split; intros; try discriminate; try reflexivity; try congruence.
Qed.

(** X25. The reading of the configuration, whatever the driver answers:
    it changes neither the database nor the manager's role, and succeeds
    exactly when the select returns a result.  The audit setting is then the
    row's; the failover delay is the row's when its text is a time, and the
    old one when it is not; without a row, and on failure, both are as they
    were. *)
Theorem ha_db_update_config_outcomes (info : zbx_ha_info_t) (w : world) :
  let '(ret, info', w') := ha_db_update_config info w in
  reads_only w w'
  /\ keeps_role info info'
  /\ (ret = SUCCEED <-> db_status info = ZBX_DB_OK /\ outcome 0 w = ZBX_DB_OK)
  /\ (ret = SUCCEED ->
      match config w with
      | Some row =>
          auditlog info' = cfg_auditlog_enabled row
          /\ failover_delay info'
             = match is_time_suffix (cfg_ha_failover_delay row) with
               | Some v => v
               | None => failover_delay info
               end
      | None => info' = info
      end)
  /\ (ret = FAIL ->
      failover_delay info' = failover_delay info /\ auditlog info' = auditlog info).
Proof.
  unfold ha_db_update_config.
  destruct (db_status info) eqn:Edb.
  2,3: (unfold ha_db_select; rewrite Edb; cbn [db_ok negb];
        split; [apply reads_only_refl|]; split; [apply keeps_role_refl|];
        split; [split; [discriminate|intros [H _]; discriminate H]|];
        split; [discriminate|]; intros _; split; reflexivity).
  destruct (ha_db_select_cases CallSelectConfig config info w Edb)
    as [[Ho E]|[Ho (w1 & E & R)]]; rewrite E.
  - change (config (after_ok CallSelectConfig w)) with (config w).
    destruct (config w) as [row|].
    + split; [apply after_ok_reads|].
      split; [destruct (is_time_suffix (cfg_ha_failover_delay row)); destruct info;
              repeat split|].
      split; [split; [intros _; split; [reflexivity|exact Ho]|reflexivity]|].
      split; [|discriminate]. intros _.
      destruct (is_time_suffix (cfg_ha_failover_delay row)); destruct info; split; reflexivity.
    + split; [apply after_ok_reads|]. split; [apply keeps_role_refl|].
      split; [split; [intros _; split; [reflexivity|exact Ho]|reflexivity]|].
      split; [reflexivity|discriminate].
  - destruct (set_db_status_keeps (outcome 0 w) info) as [K _].
    split; [exact R|]. split; [exact K|].
    split; [split; [discriminate|intros [_ H]; contradiction]|].
    split; [discriminate|]. intros _. destruct info; split; reflexivity.
Qed.

(** ** The takeover and the active row *)

Lemma takeover_single_active (tbl : list DB_ROW) (now : Z) (ida idb : string) :
  (forall r, In r tbl -> row_status r = ZBX_NODE_STATUS_ACTIVE -> row_ha_nodeid r = ida) ->
  forall r,
    In r (apply_stmt now (SqlUpdateNode false (Some ZBX_NODE_STATUS_UNAVAILABLE) [ida])
            (apply_stmt now (SqlUpdateNode true (Some ZBX_NODE_STATUS_ACTIVE) [idb]) tbl)) ->
    row_status r = ZBX_NODE_STATUS_ACTIVE -> row_ha_nodeid r = idb.
Proof.
  intros Honly r Hin Hact. unfold apply_stmt, str_in in Hin. cbn [existsb] in Hin.
  apply in_map_iff in Hin. destruct Hin as (r1 & <- & Hin).
  apply in_map_iff in Hin. destruct Hin as (r0 & <- & Hin).
  rewrite !orb_false_r in *.
  destruct (String.eqb_spec (row_ha_nodeid r0) idb) as [Eb|Eb].
  - cbn [row_ha_nodeid set_row_status set_row_lastaccess] in *.
    destruct (String.eqb (row_ha_nodeid r0) ida); [discriminate Hact|exact Eb].
  - destruct (String.eqb_spec (row_ha_nodeid r0) ida) as [Ea|Ea].
    + discriminate Hact.
    + exfalso. apply Ea. apply Honly; assumption.
Qed.

(** X26. The takeover for any failover delay, in a cluster with the
    database answering, the node's row bearing the session identifier of
    this process (25 characters): a standby node that finds the lastaccess of the
    named active peer [a] unchanged, with the count of silent ticks, raised
    by one, above failover_delay / 5 + 1, becomes active and commits one
    transaction that sets its own row to active and the peer's row to
    unavailable.  When the peer was the only row shown active, the node's
    own row is the only one shown active afterwards. *)
Theorem ha_check_nodes_takeover (info : zbx_ha_info_t) (w : world) (a b : DB_ROW)
    (cfg : config_row) (v : Z) (i : nat) :
  ZBX_HA_IS_CLUSTER CONFIG_HA_NODE_NAME = true ->
  row_name a <> EmptyString ->
  row_ha_nodeid b = ha_nodeid info ->
  row_ha_nodeid a <> row_ha_nodeid b ->
  (String.length (row_ha_nodeid a) <= 25)%nat ->
  (String.length (row_ha_nodeid b) <= 25)%nat ->
  String.length (row_ha_sessionid b) = 25%nat ->
  row_ha_sessionid b = ha_sessionid ->
  row_status b = ZBX_NODE_STATUS_STANDBY ->
  ha_status info = ZBX_NODE_STATUS_STANDBY ->
  config w = Some cfg ->
  is_time_suffix (cfg_ha_failover_delay cfg) = Some v ->
  0 <= v <= INT_MAX ->
  db_status info = ZBX_DB_OK ->
  txn w = None ->
  faults w = [] ->
  lastaccess_active info = row_lastaccess a ->
  0 <= offline_ticks_active info < INT_MAX ->
  Z.quot v ZBX_HA_POLL_PERIOD + 1 < offline_ticks_active info + 1 ->
  ha_find_node_by_name (map node_of_row (order_by_nodeid (ha_node w))) (name info)
  = Some (node_of_row b) ->
  find_active (map node_of_row (order_by_nodeid (ha_node w))) 0 = Some (i, node_of_row a) ->
  let info' := fst (ha_check_nodes info w) in
  let w' := snd (ha_check_nodes info w) in
  let upd_own := SqlUpdateNode true (Some ZBX_NODE_STATUS_ACTIVE) [row_ha_nodeid b] in
  let upd_peer := SqlUpdateNode false (Some ZBX_NODE_STATUS_UNAVAILABLE) [row_ha_nodeid a] in
  ha_status info' = ZBX_NODE_STATUS_ACTIVE
  /\ ha_node w' = apply_stmt (clock w) upd_peer (apply_stmt (clock w) upd_own (ha_node w))
  /\ txn w' = None
  /\ (exists calls,
        trace w' = (trace w ++ calls)%list
        /\ map fst (filter is_txn_call calls)
           = [CallBegin; CallExecute upd_own; CallExecute upd_peer; CallCommit])
  /\ ((forall r, In r (ha_node w) -> row_status r = ZBX_NODE_STATUS_ACTIVE ->
                 row_ha_nodeid r = row_ha_nodeid a) ->
      forall r, In r (ha_node w') -> row_status r = ZBX_NODE_STATUS_ACTIVE ->
                row_ha_nodeid r = ha_nodeid info).
Proof.
  intros Hcl Hnae Hidb Hidab Hla Hlb Hlsb Hsb Hstb Hsti Hcfg Hts Hv Hdb Htx Hf Hlast Hticks
         Hover Hfind Hact info' w' upd_own upd_peer.
  assert (Hnth : nth_error (map node_of_row (order_by_nodeid (ha_node w))) i
                 = Some (node_of_row a)).
  { apply find_active_first in Hact. destruct Hact as (j & -> & Hn & _). exact Hn. }
  assert (Hrun : ha_status info' = ZBX_NODE_STATUS_ACTIVE
                 /\ ha_node w'
                    = apply_stmt (clock w) upd_peer (apply_stmt (clock w) upd_own (ha_node w))
                 /\ txn w' = None
                 /\ exists calls,
                      trace w' = (trace w ++ calls)%list
                      /\ map fst (filter is_txn_call calls)
                         = [CallBegin; CallExecute upd_own; CallExecute upd_peer; CallCommit]).
  { subst info' w' upd_own upd_peer.
    destruct w as [tbl tx cf clk fl tr am ap].
    cbn [txn faults ha_node trace config clock] in *. subst tx fl cf.
    destruct info as [nid st dbs fd la ot al nm er].
    cbn [ha_status db_status ha_nodeid name lastaccess_active offline_ticks_active] in *.
    subst nid st dbs la.
    assert (E2 : String.eqb (row_ha_nodeid a) (row_ha_nodeid b) = false)
      by (now apply String.eqb_neq).
    assert (E4 : str_empty (row_name a) = false) by (now apply str_empty_false).
    assert (E5 : int_add ot 1 = ot + 1)
      by (apply int_wrap_id; unfold is_int, INT_MIN, INT_MAX in *; lia).
    assert (E6 : (Z.quot v ZBX_HA_POLL_PERIOD + 1 <? ot + 1) = true)
      by (apply Z.ltb_lt; exact Hover).
    destruct (poll_threshold v Hv) as [E7 _].
    pose proof (zbx_strlcpy_cuid _ Hla) as T1.
    pose proof (zbx_strlcpy_cuid _ Hlb) as T2.
    assert (T3 : zbx_strlcpy (row_ha_sessionid b) CUID_LEN = row_ha_sessionid b)
      by (apply zbx_strlcpy_cuid; rewrite Hlsb; apply le_n).
    assert (Hown : String.length ha_sessionid = 25%nat) by (rewrite <- Hsb; exact Hlsb).
    assert (F1 : (ZBX_NODE_STATUS_STANDBY =? ZBX_NODE_STATUS_ACTIVE) = false) by reflexivity.
    assert (F2 : (ZBX_NODE_STATUS_STANDBY =? ZBX_NODE_STATUS_ERROR) = false) by reflexivity.
    assert (F3 : (ZBX_NODE_STATUS_ACTIVE =? ZBX_NODE_STATUS_STANDBY) = false) by reflexivity.
    remember (ha_check_nodes
                (mk_info (row_ha_nodeid b) ZBX_NODE_STATUS_STANDBY ZBX_DB_OK fd
                   (row_lastaccess a) ot al nm er)
                (mk_world tbl None (Some cfg) clk [] tr am ap)) as res eqn:Erun.
    unfold ha_check_nodes in Erun. rewrite ha_db_begin_ok in Erun by reflexivity.
    wsimpl in Erun. unfold ha_check_nodes_body in Erun.
    rewrite ha_db_get_nodes_ok in Erun by reflexivity. wsimpl in Erun.
    rewrite Hfind in Erun. wsimpl in Erun. nsimpl in Erun.
    rewrite T2, T3, Hsb in Erun. rewrite (zbx_cuid_compare_same _ _ Hown) in Erun.
    wsimpl in Erun.
    match type of Erun with
    | context [if zbx_cuid_empty ?x then ?i else ?i] =>
        replace (if zbx_cuid_empty x then i else i) with i in Erun
          by (destruct (zbx_cuid_empty x); reflexivity)
    end.
    rewrite (ha_db_update_config_ok _ _ cfg v) in Erun by (try reflexivity; exact Hts).
    rewrite ha_db_get_time_ok in Erun by reflexivity.
    rewrite Hcl in Erun. wsimpl in Erun. rewrite F1 in Erun.
    unfold ha_check_active_node in Erun. rewrite Hact in Erun. wsimpl in Erun. nsimpl in Erun.
    rewrite E4, T1 in Erun. rewrite (zbx_cuid_compare_differ _ _ _ Hidab) in Erun.
    rewrite Z.eqb_refl in Erun. wsimpl in Erun.
    rewrite E5, E7, E6 in Erun.
    unfold ha_check_nodes_update in Erun. wsimpl in Erun. nsimpl in Erun.
    rewrite Hstb, F3 in Erun. wsimpl in Erun.
    destruct (cfg_auditlog_enabled cfg =? ZBX_AUDITLOG_ENABLED) eqn:Eal.
    all: asimpl in Erun; rewrite ?Eal in Erun.
    all: rewrite ha_db_execute_ok in Erun by reflexivity.
    all: rewrite Hnth in Erun.
    all: rewrite ha_db_execute_ok in Erun by reflexivity.
    all: nsimpl in Erun; rewrite T1 in Erun.
    all: asimpl in Erun; wsimpl in Erun; rewrite ?Eal in Erun.
    all: rewrite ha_flush_audit_ok in Erun by reflexivity.
    all: wsimpl in Erun; asimpl in Erun; rewrite ?Eal in Erun.
    all: unfold ha_check_nodes_out in Erun; wsimpl in Erun; rewrite F2 in Erun.
    all: rewrite ha_db_commit_ok in Erun by reflexivity.
    all: wsimpl in Erun; rewrite F2 in Erun.
    all: subst res; cbn [fst snd ha_status ha_node txn trace].
    all: split; [reflexivity|]; split; [reflexivity|]; split; [reflexivity|].
    all: eexists; split; [rewrite <- !app_assoc; reflexivity|reflexivity]. }
  destruct Hrun as (R1 & R2 & R3 & R4).
  split; [exact R1|]. split; [exact R2|]. split; [exact R3|]. split; [exact R4|].
  intros Honly r Hin Hs. rewrite <- Hidb. rewrite R2 in Hin.
  exact (takeover_single_active (ha_node w) (clock w) (row_ha_nodeid a) (row_ha_nodeid b)
           Honly r Hin Hs).
Qed.

End Manager.

(** * The properties on the sample registry *)

(** The failover tick on the registry with generated identifiers: node "b"
    has seen the lastaccess of "a" unchanged for 3 ticks and finds it
    unchanged again. *)
Lemma ha_check_nodes_failover_sample :
  ha_status
    (fst (ha_check_nodes dec_ushort dec_time_suffix cuid_session_b (Some "b") never_equal
            cuid_info_b cuid_world))
  = ZBX_NODE_STATUS_ACTIVE
  /\ ha_node
       (snd (ha_check_nodes dec_ushort dec_time_suffix cuid_session_b (Some "b") never_equal
               cuid_info_b cuid_world))
     = [ set_row_status ZBX_NODE_STATUS_UNAVAILABLE cuid_row_a;
         set_row_status ZBX_NODE_STATUS_ACTIVE (set_row_lastaccess 120 cuid_row_b) ].
Proof.
  destruct (ha_check_nodes_failover dec_ushort dec_time_suffix cuid_session_b (Some "b")
              never_equal cuid_info_b cuid_world cuid_row_a cuid_row_b sample_config)
    as (H1 & H2 & _);
    try reflexivity; try discriminate; try (left; reflexivity); try (simpl; lia);
    try (unfold INT_MAX; simpl; lia).
  split; [exact H1|apply H2; reflexivity].
Defined.

(** C1 fails as stated: node "b" sees the lastaccess of the active node "a"
    unchanged on three consecutive ticks, at the database times 120, 125 and
    130; then "a" writes its row again, at 133, and the next tick of "b", at
    135, does not take over: "b" stays standby, starts counting afresh, and
    the row of "a" is still active. *)
Lemma ha_check_nodes_failover_counterexample :
  let tick := ha_check_nodes dec_ushort dec_time_suffix cuid_session_b (Some "b")
                never_equal in
  let r1 := tick cuid_info_b_waiting cuid_world in
  let r2 := tick (fst r1) (between_ticks 125 (ha_node (snd r1)) (snd r1)) in
  let r3 := tick (fst r2) (between_ticks 130 (ha_node (snd r2)) (snd r2)) in
  let written := [set_row_lastaccess 133 cuid_row_a; set_row_lastaccess 130 cuid_row_b] in
  let r4 := tick (fst r3) (between_ticks 135 written (snd r3)) in
  map offline_ticks_active [fst r1; fst r2; fst r3] = [1; 2; 3]
  /\ map lastaccess_active [cuid_info_b_waiting; fst r1; fst r2; fst r3]
     = [100; 100; 100; 100]
  /\ map (fun r => ha_node (snd r)) [r1; r2; r3]
     = [ [cuid_row_a; set_row_lastaccess 120 cuid_row_b];
         [cuid_row_a; set_row_lastaccess 125 cuid_row_b];
         [cuid_row_a; set_row_lastaccess 130 cuid_row_b] ]
  /\ failover_delay (fst r3) = 10
  /\ ha_status (fst r4) = ZBX_NODE_STATUS_STANDBY
  /\ offline_ticks_active (fst r4) = 0
  /\ ha_node (snd r4)
     = [set_row_lastaccess 133 cuid_row_a; set_row_lastaccess 135 cuid_row_b]
  /\ map row_status (ha_node (snd r4))
     <> [ZBX_NODE_STATUS_UNAVAILABLE; ZBX_NODE_STATUS_ACTIVE].
Proof.
  vm_compute. repeat split. discriminate.
Qed.

(** The standalone check on a registry holding a recently seen node that a
    cluster left unavailable. *)
Lemma ha_check_standalone_config_sample :
  fst (ha_check_standalone_config sample_info_standalone [sample_node_unavailable] 110)
  = SUCCEED
  <-> forall n, In n [sample_node_unavailable] ->
                ~ blocks_standalone (failover_delay sample_info_standalone) 110 n.
Proof.
  apply (ha_check_standalone_config_spec sample_info_standalone [sample_node_unavailable] 110).
  - vm_compute. discriminate.
  - intros n [<-|[]]. vm_compute. split; discriminate.
Defined.

(** C2 fails as stated: no node of this registry is live in the
    specification's sense (its only node is unavailable), yet the standalone
    check fails, naming that node. *)
Lemma standalone_admission_counterexample :
  (forall n, In n [sample_node_unavailable] ->
             node_name n <> EmptyString ->
             ~ live (failover_delay sample_info_standalone) 110 n)
  /\ fst (ha_check_standalone_config sample_info_standalone [sample_node_unavailable] 110)
     = FAIL
  /\ error (snd (ha_check_standalone_config sample_info_standalone
                   [sample_node_unavailable] 110))
     = Some ("cannot change mode to standalone while HA node " ++ DQUOTE ++ "a" ++ DQUOTE
             ++ " is unavailable")
  /\ ~ (fst (ha_check_standalone_config sample_info_standalone [sample_node_unavailable] 110)
        = SUCCEED
        <-> forall n, In n [sample_node_unavailable] ->
                      node_name n <> EmptyString ->
                      ~ live (failover_delay sample_info_standalone) 110 n).
Proof.
  assert (Hlive : forall n, In n [sample_node_unavailable] ->
                            node_name n <> EmptyString ->
                            ~ live (failover_delay sample_info_standalone) 110 n).
  { intros n [<-|[]] _ [[H|H] _]; discriminate H. }
  split; [exact Hlive|]. split; [reflexivity|]. split; [reflexivity|].
  intros [_ H]. specialize (H Hlive). discriminate H.
Qed.

(** The receiver on a cluster member: a heartbeat arrives at time 100; two
    later calls, at 121 and 140, bring a repeated status update with a
    failover delay of 60 and nothing; the call at 155 finds the heartbeat
    60 - 5 seconds old. *)
Lemma recv_status_heartbeat_timeout_sample :
  let r1 := zbx_ha_recv_status (Some "b") recv_statics_init
              ([] ++ RecvMessage ZBX_IPC_SERVICE_HA_HEARTBEAT 100
                     :: [RecvMessage ZBX_IPC_SERVICE_HA_OTHER 100]) 101
              ZBX_NODE_STATUS_ACTIVE None in
  let r := recv_next (Some "b")
             (recv_calls (Some "b") r1
                [ ([RecvMessage (ZBX_IPC_SERVICE_HA_UPDATE ZBX_NODE_STATUS_ACTIVE 60 None) 120],
                   121);
                  ([], 140) ])
             ([], 155) in
  recv_ret r = SUCCEED /\ recv_ha_status r = ZBX_NODE_STATUS_STANDBY.
Proof.
  apply (recv_status_heartbeat_timeout (Some "b") recv_statics_init ZBX_NODE_STATUS_ACTIVE
           None [] [RecvMessage ZBX_IPC_SERVICE_HA_OTHER 100] 100 101
           [ ([RecvMessage (ZBX_IPC_SERVICE_HA_UPDATE ZBX_NODE_STATUS_ACTIVE 60 None) 120],
              121);
             ([], 140) ]
           [] 155).
  - reflexivity.
  - reflexivity.
  - reflexivity.
  - repeat constructor.
  - repeat constructor.
  - constructor.
  - discriminate.
  - intros [|[|[|k]]]; reflexivity.
  - vm_compute. discriminate.
Defined.

(** C3 fails as stated, in three ways.  On a standalone server the status
    is active and the last heartbeat is 900 seconds old under a failover
    delay of 60, yet the call returns active.  On a cluster member whose
    last heartbeat arrived at 100 and whose status changed to standby at 120
    and back to active at 150, the call at 156 finds the status active and
    no heartbeat for 56 seconds under a delay of 60, yet returns active: a
    change of status restarts the count.  And a heartbeat that arrives when
    the clock reads 0 is not counted from. *)
Lemma recv_status_heartbeat_counterexample :
  (last_hb (mk_statics 100 60) + ha_failover_delay (mk_statics 100 60) - ZBX_HA_POLL_PERIOD
   <= 1000
   /\ zbx_ha_recv_status None (mk_statics 100 60) [] 1000 ZBX_NODE_STATUS_ACTIVE None
      = mk_recv_result SUCCEED ZBX_NODE_STATUS_ACTIVE None (mk_statics 100 60)
   /\ recv_ha_status
        (zbx_ha_recv_status None (mk_statics 100 60) [] 1000 ZBX_NODE_STATUS_ACTIVE None)
      <> ZBX_NODE_STATUS_STANDBY)
  /\ (let r1 := zbx_ha_recv_status (Some "b") recv_statics_init
                  [RecvMessage ZBX_IPC_SERVICE_HA_HEARTBEAT 100] 100
                  ZBX_NODE_STATUS_ACTIVE None in
      let r3 := recv_calls (Some "b") r1
                  [ ([RecvMessage
                        (ZBX_IPC_SERVICE_HA_UPDATE ZBX_NODE_STATUS_STANDBY 60 None) 120],
                     120);
                    ([RecvMessage
                        (ZBX_IPC_SERVICE_HA_UPDATE ZBX_NODE_STATUS_ACTIVE 60 None) 150],
                     150) ] in
      let r := recv_next (Some "b") r3 ([], 156) in
      recv_ha_status r3 = ZBX_NODE_STATUS_ACTIVE
      /\ 100 + ha_failover_delay (recv_st r) - ZBX_HA_POLL_PERIOD <= 156
      /\ recv_ret r = SUCCEED
      /\ recv_ha_status r = ZBX_NODE_STATUS_ACTIVE)
  /\ (let r1 := zbx_ha_recv_status (Some "b") recv_statics_init
                  [RecvMessage ZBX_IPC_SERVICE_HA_HEARTBEAT 0] 0
                  ZBX_NODE_STATUS_ACTIVE None in
      let r := recv_next (Some "b") r1 ([], 1000) in
      recv_ha_status r1 = ZBX_NODE_STATUS_ACTIVE
      /\ 0 + ha_failover_delay (recv_st r) - ZBX_HA_POLL_PERIOD <= 1000
      /\ recv_ret r = SUCCEED
      /\ recv_ha_status r = ZBX_NODE_STATUS_ACTIVE).
Proof.
  split; [|split].
  - split; [vm_compute; discriminate|]. split; [reflexivity|]. vm_compute. discriminate.
  - vm_compute. repeat split; discriminate.
  - vm_compute. repeat split; discriminate.
Qed.

(** The tick of node "b" when another process has taken over its row. *)
Lemma ha_check_nodes_ownership_sample :
  ha_status
    (fst (ha_check_nodes dec_ushort dec_time_suffix "sessX" (Some "b") never_equal
            sample_info_b sample_world))
  = ZBX_NODE_STATUS_ERROR
  /\ error
       (fst (ha_check_nodes dec_ushort dec_time_suffix "sessX" (Some "b") never_equal
               sample_info_b sample_world))
     = Some "the server HA registry record has changed ownership"
  /\ ha_node
       (snd (ha_check_nodes dec_ushort dec_time_suffix "sessX" (Some "b") never_equal
               sample_info_b sample_world))
     = ha_node sample_world.
Proof.
  destruct (ha_check_nodes_ownership dec_ushort dec_time_suffix "sessX" (Some "b") never_equal
              sample_info_b sample_world sample_row_b)
    as (H1 & H2 & H3 & _).
  - vm_compute. discriminate.
  - reflexivity.
  - reflexivity.
  - reflexivity.
  - reflexivity.
  - simpl. right. left. reflexivity.
  - reflexivity.
  - intros r' [<-|[<-|[]]] H; [discriminate H|reflexivity].
  - simpl. lia.
  - discriminate.
  - split; [exact H1|split; [exact H2|exact H3]].
Defined.

(** C4 fails as stated: on that tick the stored message is not the text the
    claim quotes. *)
Lemma ha_check_nodes_ownership_counterexample :
  ha_status
    (fst (ha_check_nodes dec_ushort dec_time_suffix "sessX" (Some "b") never_equal
            sample_info_b sample_world))
  = ZBX_NODE_STATUS_ERROR
  /\ error
       (fst (ha_check_nodes dec_ushort dec_time_suffix "sessX" (Some "b") never_equal
               sample_info_b sample_world))
     <> Some "HA registry record has changed ownership".
Proof.
  split; [reflexivity|]. vm_compute. discriminate.
Qed.

(** A latched record and two later errors. *)
Lemma ha_set_error_sticky_sample :
  error
    (fold_left ha_set_error ["database error"; "cannot find server node"]
       (ha_set_error sample_info_b "found active standalone node in HA mode"))
  = Some "found active standalone node in HA mode".
Proof.
  destruct (ha_set_error_sticky
              (ha_set_error sample_info_b "found active standalone node in HA mode")
              ["database error"; "cannot find server node"])
    as (_ & H & _).
  - reflexivity.
  - rewrite H. reflexivity.
Defined.

(** RemoveNode 1 on the sample registry: the first row is the active one. *)
Lemma ha_remove_node_by_index_sample :
  snd (fst (fst (ha_remove_node_by_index dec_ushort sample_info_b 1 sample_world)))
  = Some "node is active"
  /\ ha_node (snd (ha_remove_node_by_index dec_ushort sample_info_b 1 sample_world))
     = ha_node sample_world.
Proof.
  destruct (ha_remove_node_by_index_spec dec_ushort sample_info_b 1 sample_world)
    as [_ H].
  - reflexivity.
  - reflexivity.
  - reflexivity.
  - reflexivity.
  - vm_compute. split; discriminate.
  - vm_compute. discriminate.
  - intros r [<-|[<-|[]]]; simpl; lia.
  - destruct (H sample_row_a) as [Ha _]; [lia|reflexivity|].
    destruct (Ha eq_refl) as (_ & H1 & H2). split; [exact H1|exact H2].
Defined.

(** GetNodes on the sample registry. *)
Lemma ha_db_get_nodes_json_sample :
  exists rows info' w',
    ha_db_get_nodes_json dec_ushort sample_info_b sample_world
    = (SUCCEED, Some (map (GetNodes_object 120) rows), None, info', w')
    /\ Permutation rows [sample_row_a; sample_row_b]
    /\ Sorted nodeid_le rows
    /\ ha_node w' = ha_node sample_world.
Proof.
  apply (ha_db_get_nodes_json_rows dec_ushort sample_info_b sample_world).
  - reflexivity.
  - reflexivity.
  - reflexivity.
  - discriminate.
  - vm_compute. split; discriminate.
  - intros r [<-|[<-|[]]]; (split; [simpl; lia|]);
      (split; [exists 10051; split; reflexivity|]);
      (split; [simpl; lia|vm_compute; split; discriminate]).
Defined.

(** The exit update of node "b", whose last status is standby. *)
Lemma ha_db_update_exit_status_sample :
  ha_node (snd (ha_db_update_exit_status sample_info_b sample_world))
  = [ sample_row_a; set_row_status ZBX_NODE_STATUS_STOPPED sample_row_b ].
Proof.
  destruct (ha_db_update_exit_status_spec sample_info_b sample_world) as [_ H].
  destruct H as [H _].
  - right. reflexivity.
  - discriminate.
  - reflexivity.
  - reflexivity.
  - rewrite H. reflexivity.
Defined.

(** The receiver after the clock stepped back from 100 to 90. *)
Lemma recv_status_clock_step_back_sample :
  zbx_ha_recv_status (Some "b") (mk_statics 100 60) [] 90 ZBX_NODE_STATUS_ACTIVE None
  = mk_recv_result SUCCEED ZBX_NODE_STATUS_STANDBY None (mk_statics 100 60).
Proof.
  destruct (recv_status_clock_step_back (Some "b") (mk_statics 100 60) [] 90
              ZBX_NODE_STATUS_ACTIVE None (mk_statics 100 60) None 90)
    as [_ H].
  - reflexivity.
  - reflexivity.
  - simpl. discriminate.
  - apply H. simpl. lia.
Defined.

(** C7 fails as stated: for the table holding a row with port column 70000,
    the document is not the row contents in any order, since it shows that
    row's address as 10.0.0.3:0. *)
Lemma ha_db_get_nodes_json_counterexample :
  In (ZBX_PROTO_TAG_ADDRESS, JsonString "10.0.0.3:0")
     (node_json 120 (node_of_row dec_ushort sample_row_c))
  /\ ~ (exists rows info' w',
          ha_db_get_nodes_json dec_ushort sample_info_b sample_world_c
          = (SUCCEED, Some (map (GetNodes_object (clock sample_world_c)) rows), None,
             info', w')
          /\ Permutation rows (view sample_world_c)).
Proof.
  split; [vm_compute; auto 10|].
  intros (rows & info' & w' & E & Hp).
  assert (Hlen : List.length rows = 2%nat) by (apply Permutation_length in Hp; exact Hp).
  destruct rows as [|r1 [|r2 [|r3 rest]]]; try discriminate Hlen.
  assert (Hin : In r2 (view sample_world_c))
    by (eapply Permutation_in; [exact Hp|right; left; reflexivity]).
  remember (ha_db_get_nodes_json dec_ushort sample_info_b sample_world_c) as res eqn:R.
  vm_compute in R. subst res.
  destruct Hin as [<-|[<-|[]]]; simpl in E; discriminate E.
Qed.

(** Reading a table with a row whose port column is not a port. *)
Lemma ha_db_get_nodes_port_fallback_sample :
  node_port (node_of_row dec_ushort sample_row_c) = 0
  /\ In (ZBX_PROTO_TAG_ADDRESS, JsonString "10.0.0.3:0")
        (node_json 120 (node_of_row dec_ushort sample_row_c)).
Proof.
  destruct (ha_db_get_nodes_port_fallback dec_ushort sample_info_b false sample_world_c)
    as (_ & H & _).
  - reflexivity.
  - reflexivity.
  - destruct (H sample_row_c) as (_ & Hp & Ha).
    + simpl. left. reflexivity.
    + reflexivity.
    + split; [exact Hp|]. apply Ha. simpl. lia.
Defined.

(** * The further properties on the sample registry *)

(** Admission to the cluster of a node named "b" when the registry shows a
    running node of that name under another identifier. *)
Lemma ha_check_cluster_config_admission_sample :
  (fst (fst (ha_check_cluster_config sample_info_b [sample_node_duplicate] 110)) = SUCCEED
   <-> forall n, In n [sample_node_duplicate] -> ~ blocks_cluster sample_info_b 110 n)
  /\ (fst (fst (ha_check_cluster_config sample_info_b [sample_node_duplicate] 110)) = FAIL ->
      exists before n after,
        [sample_node_duplicate] = (before ++ n :: after)%list
        /\ (forall m, In m before -> ~ blocks_cluster sample_info_b 110 m)
        /\ blocks_cluster sample_info_b 110 n
        /\ ha_status (snd (ha_check_cluster_config sample_info_b [sample_node_duplicate] 110))
           = ZBX_NODE_STATUS_ERROR
        /\ error (snd (ha_check_cluster_config sample_info_b [sample_node_duplicate] 110))
           = Some (cluster_error sample_info_b n)).
Proof.
  apply (ha_check_cluster_config_admission sample_info_b [sample_node_duplicate] 110).
  - vm_compute. discriminate.
  - intros n [<-|[]]. vm_compute. split; discriminate.
Defined.

(** Admission to the cluster next to a node left unavailable: the node is
    to start as active. *)
Lemma ha_check_cluster_config_activate_sample :
  snd (ha_check_cluster_config sample_info_b [sample_node_unavailable] 110) = sample_info_b
  /\ (snd (fst (ha_check_cluster_config sample_info_b [sample_node_unavailable] 110)) = FAIL
      <-> exists n, In n [sample_node_unavailable]
                    /\ can_serve (failover_delay sample_info_b) 110 n)
  /\ (snd (fst (ha_check_cluster_config sample_info_b [sample_node_unavailable] 110)) = SUCCEED
      <-> forall n, In n [sample_node_unavailable]
                    -> ~ can_serve (failover_delay sample_info_b) 110 n).
Proof.
  apply (ha_check_cluster_config_activate sample_info_b [sample_node_unavailable] 110).
  - vm_compute. discriminate.
  - intros n [<-|[]]. vm_compute. split; discriminate.
  - reflexivity.
Defined.

(** The removal of the stopped node "c" when the database goes offline at
    the commit: success is returned and the row is still there. *)
Lemma ha_remove_node_by_index_lost_commit_sample :
  let '(ret, err, info', w') :=
    ha_remove_node_by_index dec_ushort sample_info_b 2 sample_world_lost_commit in
  ret = SUCCEED /\ err = None /\ db_status info' = outcome 3 sample_world_lost_commit
  /\ ha_node w' = ha_node sample_world_lost_commit.
Proof.
  apply (ha_remove_node_by_index_lost_commit dec_ushort sample_info_b 2
           sample_world_lost_commit (node_of_row dec_ushort sample_row_c));
    try reflexivity; try discriminate.
Defined.

(** The refresh of the paused manager of "b" at database time 120. *)
Lemma ha_db_update_lastaccess_healthy_sample :
  let '(info', w') := ha_db_update_lastaccess sample_info_b sample_world in
  info' = sample_info_b
  /\ txn w' = None
  /\ ha_node w'
     = map (refresh_lastaccess (ha_nodeid sample_info_b) (clock sample_world))
         (view sample_world)
  /\ map fst (filter is_txn_call (skipn (List.length (trace sample_world)) (trace w')))
     = [CallBegin; CallExecute (SqlUpdateNode true None [ha_nodeid sample_info_b]);
        CallCommit].
Proof.
  apply (ha_db_update_lastaccess_healthy sample_info_b sample_world); reflexivity.
Defined.

(** The look of "b" at the active node "a", silent for a fourth tick under
    a failover delay of 10 seconds: "b" takes over and marks "a". *)
Lemma ha_check_active_node_promotion_sample :
  let info := set_failover_delay 10 cuid_info_b in
  let nodes := map (node_of_row dec_ushort) [cuid_row_a; cuid_row_b] in
  snd (fst (ha_check_active_node never_equal info nodes None ZBX_NODE_STATUS_STANDBY))
  = Some 0%nat
  /\ snd (ha_check_active_node never_equal info nodes None ZBX_NODE_STATUS_STANDBY)
     = ZBX_NODE_STATUS_ACTIVE
  /\ exists i n, first_active nodes i n /\ node_name n <> EmptyString.
Proof.
  pose proof (ha_check_active_node_promotion never_equal (set_failover_delay 10 cuid_info_b)
                (map (node_of_row dec_ushort) [cuid_row_a; cuid_row_b])
                ZBX_NODE_STATUS_STANDBY) as H.
  assert (H1 : 0 <= failover_delay (set_failover_delay 10 cuid_info_b) <= INT_MAX)
    by (vm_compute; split; discriminate).
  assert (H2 : ZBX_NODE_STATUS_STANDBY <> ZBX_NODE_STATUS_ACTIVE) by discriminate.
  assert (H3 : String.length (ha_nodeid (set_failover_delay 10 cuid_info_b)) = 25%nat)
    by reflexivity.
  specialize (H H1 H2 H3).
  destruct (ha_check_active_node never_equal (set_failover_delay 10 cuid_info_b)
              (map (node_of_row dec_ushort) [cuid_row_a; cuid_row_b]) None
              ZBX_NODE_STATUS_STANDBY) as [[[ret info'] ui] st'] eqn:E.
  vm_compute in E. injection E as <- <- <- <-.
  destruct H as (_ & _ & H & _). destruct (H eq_refl) as (_ & [(Hn & _)|(i & n & Hf & Hne & _)]).
  - exfalso. apply (Hn (node_of_row dec_ushort cuid_row_a)); [left; reflexivity|reflexivity].
  - split; [reflexivity|]. split; [reflexivity|]. exists i, n. split; assumption.
Defined.

(** The active node's look at the standby node "b" at database time 130,
    under a failover delay of 10 seconds. *)
Lemma ha_check_standby_nodes_expires_sample :
  let '(ret, info', w') :=
    ha_check_standby_nodes sample_info_a
      (map (node_of_row dec_ushort) (order_by_nodeid [sample_row_a; sample_row_b])) 130
      sample_world_txn in
  ret = SUCCEED /\ info' = sample_info_a /\ ha_node w' = ha_node sample_world_txn
  /\ txn w'
     = Some (map (expire_standby (failover_delay sample_info_a) 130)
               [sample_row_a; sample_row_b])
  /\ forall r, In r [sample_row_a; sample_row_b] ->
       In (expire_standby (failover_delay sample_info_a) 130 r) (view w')
       /\ (row_status r <> ZBX_NODE_STATUS_STANDBY ->
           expire_standby (failover_delay sample_info_a) 130 r = r)
       /\ (row_lastaccess r + failover_delay sample_info_a > 130 ->
           expire_standby (failover_delay sample_info_a) 130 r = r).
Proof.
  apply (ha_check_standby_nodes_expires dec_ushort sample_info_a
           [sample_row_a; sample_row_b] 130 sample_world_txn); try reflexivity.
  - repeat constructor; simpl; intuition discriminate.
  - intros r [<-|[<-|[]]]; simpl; lia.
  - intros r [<-|[<-|[]]]; vm_compute; split; discriminate.
Defined.

(** A tick of a manager named "z" on the sample registry, which has no row
    of that name. *)
Lemma ha_check_nodes_missing_row_sample :
  ha_status (fst (ha_check_nodes dec_ushort dec_time_suffix "sessZ" (Some "z") never_equal
                    sample_info_z sample_world))
  = ZBX_NODE_STATUS_ERROR
  /\ error (fst (ha_check_nodes dec_ushort dec_time_suffix "sessZ" (Some "z") never_equal
                   sample_info_z sample_world))
     = Some ("cannot find server node " ++ DQUOTE ++ "z" ++ DQUOTE ++ " in registry")
  /\ ha_node (snd (ha_check_nodes dec_ushort dec_time_suffix "sessZ" (Some "z") never_equal
                     sample_info_z sample_world))
     = ha_node sample_world.
Proof.
  destruct (ha_check_nodes_missing_row dec_ushort dec_time_suffix "sessZ" (Some "z") never_equal
              sample_info_z sample_world) as (H1 & H2 & H3 & _);
    try reflexivity; try discriminate.
  - intros r [<-|[<-|[]]]; discriminate.
  - split; [exact H1|]. split; [exact H2|exact H3].
Defined.

(** The first tick at which "b" sees the lastaccess of "a" unchanged: it
    waits, counts one silent tick and refreshes its own row. *)
Lemma ha_check_nodes_standby_waits_sample :
  ha_status (fst (ha_check_nodes dec_ushort dec_time_suffix cuid_session_b (Some "b")
                    never_equal cuid_info_b_waiting cuid_world))
  = ZBX_NODE_STATUS_STANDBY
  /\ offline_ticks_active
       (fst (ha_check_nodes dec_ushort dec_time_suffix cuid_session_b (Some "b")
               never_equal cuid_info_b_waiting cuid_world))
     = 1
  /\ ha_node (snd (ha_check_nodes dec_ushort dec_time_suffix cuid_session_b (Some "b")
                     never_equal cuid_info_b_waiting cuid_world))
     = [cuid_row_a; set_row_lastaccess 120 cuid_row_b].
Proof.
  destruct (ha_check_nodes_standby_waits dec_ushort dec_time_suffix cuid_session_b (Some "b")
              never_equal cuid_info_b_waiting cuid_world cuid_row_a cuid_row_b
              sample_config 10 0%nat) as (H1 & _ & _ & H4 & H5 & _);
    try reflexivity; try discriminate; try (simpl; lia);
    try (unfold INT_MAX; simpl; lia); try (intros _; vm_compute; discriminate).
  split; [exact H1|]. split; [exact H4|exact H5].
Defined.

(** A tick of the active node "a" at database time 130: the lease of "b"
    has run out. *)
Lemma ha_check_nodes_active_tick_sample :
  ha_status (fst (ha_check_nodes dec_ushort dec_time_suffix cuid_session_a (Some "a")
                    never_equal cuid_info_a cuid_world_late))
  = ZBX_NODE_STATUS_ACTIVE
  /\ ha_node (snd (ha_check_nodes dec_ushort dec_time_suffix cuid_session_a (Some "a")
                     never_equal cuid_info_a cuid_world_late))
     = [ set_row_lastaccess 130 cuid_row_a;
         set_row_status ZBX_NODE_STATUS_UNAVAILABLE cuid_row_b ].
Proof.
  destruct (ha_check_nodes_active_tick dec_ushort dec_time_suffix cuid_session_a (Some "a")
              never_equal cuid_info_a cuid_world_late cuid_row_a sample_config 10)
    as (H1 & _ & H3 & _);
    try reflexivity; try (simpl; lia).
  - repeat constructor; simpl; intuition discriminate.
  - intros r [<-|[<-|[]]]; simpl; lia.
  - intros r [<-|[<-|[]]]; vm_compute; split; discriminate.
  - split; [exact H1|exact H3].
Defined.

(** A standalone server whose last heartbeat is 900 seconds old keeps the
    active status. *)
Lemma zbx_ha_recv_status_standalone_sample :
  let r := zbx_ha_recv_status None (mk_statics 100 60)
             [RecvMessage ZBX_IPC_SERVICE_HA_OTHER 990] 1000 ZBX_NODE_STATUS_ACTIVE None in
  recv_ret r = SUCCEED
  /\ recv_ha_status r
     = last_status ZBX_NODE_STATUS_ACTIVE [RecvMessage ZBX_IPC_SERVICE_HA_OTHER 990].
Proof.
  apply (zbx_ha_recv_status_standalone None (mk_statics 100 60)
           [RecvMessage ZBX_IPC_SERVICE_HA_OTHER 990] 1000 ZBX_NODE_STATUS_ACTIVE None);
    reflexivity.
Defined.

(** A tick of "b" whose read of the node list fails. *)
Lemma ha_check_nodes_read_fails_sample :
  ha_status (fst (ha_check_nodes dec_ushort dec_time_suffix "sessB" (Some "b")
                    never_equal sample_info_b sample_world_read_fails))
  = ZBX_NODE_STATUS_ERROR
  /\ error (fst (ha_check_nodes dec_ushort dec_time_suffix "sessB" (Some "b")
                   never_equal sample_info_b sample_world_read_fails))
     = Some "database error"%string
  /\ ha_node (snd (ha_check_nodes dec_ushort dec_time_suffix "sessB" (Some "b")
                     never_equal sample_info_b sample_world_read_fails))
     = ha_node sample_world_read_fails.
Proof.
  destruct (ha_check_nodes_read_fails dec_ushort dec_time_suffix "sessB" (Some "b")
              never_equal sample_info_b sample_world_read_fails) as (H1 & _ & _ & H4 & _);
    try reflexivity; try discriminate.
  destruct (H4 eq_refl) as [H5 H6]. split; [exact H5|]. split; [exact H6|exact H1].
Defined.

(** The takeover of "b" on the registry with generated identifiers:
    afterwards the row of "b" is the only one shown active. *)
Lemma ha_check_nodes_takeover_sample :
  ha_status (fst (ha_check_nodes dec_ushort dec_time_suffix cuid_session_b (Some "b")
                    never_equal cuid_info_b cuid_world))
  = ZBX_NODE_STATUS_ACTIVE
  /\ forall r,
       In r (ha_node (snd (ha_check_nodes dec_ushort dec_time_suffix cuid_session_b
                             (Some "b") never_equal cuid_info_b cuid_world))) ->
       row_status r = ZBX_NODE_STATUS_ACTIVE -> row_ha_nodeid r = ha_nodeid cuid_info_b.
Proof.
  destruct (ha_check_nodes_takeover dec_ushort dec_time_suffix cuid_session_b (Some "b")
              never_equal cuid_info_b cuid_world cuid_row_a cuid_row_b sample_config 10
              0%nat)
    as (H1 & _ & _ & _ & H5);
    try reflexivity; try discriminate; try (simpl; lia);
    try (unfold INT_MAX; simpl; lia).
  split; [exact H1|]. apply H5.
  intros r [<-|[<-|[]]] H; [reflexivity|discriminate H].
Defined.
